(** * GenTaxAI chat front end: the [ChatBot] controller of static/script.js

    A shallow embedding of the [ChatBot] class.  JavaScript strings are
    sequences of UTF-16 code units; the controller's fields and the DOM
    properties it reads and writes form an explicit state record; the
    asynchronous [sendMessage] is split at its only suspension point (the
    [await] on [sendToAPI]) into the part that runs when it is called and
    the continuation that runs when the request settles. *)

From Stdlib Require Import List NArith Bool Arith Lia String Ascii DecimalPos DecimalN.
Import ListNotations.
Local Open Scope N_scope.
Local Open Scope list_scope.

(** ** JavaScript strings *)

Module JsString.

(** A string is the list of its UTF-16 code units; [length] is the
    [.length] property and [++] is string concatenation. *)
Definition jsstring := list N.

(** A source literal made of ASCII characters. *)
Definition js (s : string) : jsstring :=
  map N_of_ascii (list_ascii_of_string s).
Arguments js s%_string.

(** A literal in which the apostrophe stands for the double quote. *)
Definition jsq (s : string) : jsstring :=
  map (fun c => if c =? 39 then 34 else c) (js s).
Arguments jsq s%_string.

(** The double quote character, code unit 0x22. *)
Definition dq : jsstring := [34].

(** Newline, code unit 0x0A. *)
Definition nl : jsstring := [10].

Definition jsstring_eq_dec : forall a b : jsstring, {a = b} + {a <> b} :=
  list_eq_dec N.eq_dec.

Definition jsstring_eqb (a b : jsstring) : bool :=
  if jsstring_eq_dec a b then true else false.

(** Truthiness of a string value: only the empty string is falsy. *)
Definition truthy (s : jsstring) : bool :=
  match s with [] => false | _ :: _ => true end.

(** WhiteSpace and LineTerminator code points of ECMAScript, the
    characters that [String.prototype.trim] removes. *)
Definition is_white_space (c : N) : bool :=
  (c =? 9) || (c =? 10) || (c =? 11) || (c =? 12) || (c =? 13) ||
  (c =? 32) || (c =? 160) || (c =? 5760) ||
  ((8192 <=? c) && (c <=? 8202)) ||
  (c =? 8232) || (c =? 8233) || (c =? 8239) || (c =? 8287) ||
  (c =? 12288) || (c =? 65279).

(** LineTerminator code points: what [.] in a regular expression (without
    the [s] flag) does not match. *)
Definition is_line_terminator (c : N) : bool :=
  (c =? 10) || (c =? 13) || (c =? 8232) || (c =? 8233).

Fixpoint trim_start (s : jsstring) : jsstring :=
  match s with
  | [] => []
  | c :: r => if is_white_space c then trim_start r else s
  end.

Definition trim_end (s : jsstring) : jsstring :=
  rev (trim_start (rev s)).

(** [String.prototype.trim]. *)
Definition trim (s : jsstring) : jsstring := trim_end (trim_start s).

Fixpoint uint_units (d : Decimal.uint) : jsstring :=
  match d with
  | Decimal.Nil => []
  | Decimal.D0 d => 48 :: uint_units d
  | Decimal.D1 d => 49 :: uint_units d
  | Decimal.D2 d => 50 :: uint_units d
  | Decimal.D3 d => 51 :: uint_units d
  | Decimal.D4 d => 52 :: uint_units d
  | Decimal.D5 d => 53 :: uint_units d
  | Decimal.D6 d => 54 :: uint_units d
  | Decimal.D7 d => 55 :: uint_units d
  | Decimal.D8 d => 56 :: uint_units d
  | Decimal.D9 d => 57 :: uint_units d
  end.

(** A non-negative integer converted to a string, as string concatenation
    and template literals do. *)
Definition dec (n : N) : jsstring :=
  match N.to_uint n with
  | Decimal.Nil => [48]
  | d => uint_units d
  end.

(** The value that a textarea returns once [v] has been assigned to it:
    every CR LF pair and every remaining CR has become LF. *)
Fixpoint normalize_newlines (v : jsstring) : jsstring :=
  match v with
  | [] => []
  | c :: r =>
      if c =? 13 then
        match r with
        | l :: r' =>
            if l =? 10 then 10 :: normalize_newlines r'
            else 10 :: normalize_newlines r
        | [] => [10]
        end
      else c :: normalize_newlines r
  end.

(** [s.split(sep)[0]] for a one-character separator: the part of [s]
    before the first occurrence of [sep] (all of [s] when there is none). *)
Fixpoint split_head (sep : N) (s : jsstring) : jsstring :=
  match s with
  | [] => []
  | c :: r => if c =? sep then [] else c :: split_head sep r
  end.

(** [sep.join(parts)]. *)
Fixpoint join (sep : jsstring) (parts : list jsstring) : jsstring :=
  match parts with
  | [] => []
  | [p] => p
  | p :: rest => p ++ sep ++ join sep rest
  end.

(** [s.startsWith(p)], with the rest of [s] after [p]. *)
Fixpoint strip_prefix (p s : jsstring) : option jsstring :=
  match p with
  | [] => Some s
  | a :: p' =>
      match s with
      | [] => None
      | b :: s' => if a =? b then strip_prefix p' s' else None
      end
  end.

End JsString.
Export JsString.

(** ** Regular-expression replacement used by [formatMessage] *)

Module Regex.

(** The lazy group [(.*?)] followed by the literal [d]: the shortest run of
    characters other than line terminators after which [d] occurs.  Gives
    the captured run and what follows the closing [d]. *)
Fixpoint lazy_until (d s : jsstring) : option (jsstring * jsstring) :=
  match strip_prefix d s with
  | Some rest => Some ([], rest)
  | None =>
      match s with
      | [] => None
      | c :: r =>
          if is_line_terminator c then None
          else match lazy_until d r with
               | Some (cap, rest) => Some (c :: cap, rest)
               | None => None
               end
      end
  end.

(** A match of [d(.*?)d] starting at the first character of [s]. *)
Definition match_here (d s : jsstring) : option (jsstring * jsstring) :=
  match strip_prefix d s with
  | Some r => lazy_until d r
  | None => None
  end.

(** [s.replace(/d(.*?)d/g, open + '$1' + close)]: the matches are searched
    from left to right, each search resuming after the previous match;
    unmatched characters are copied.  [fuel] bounds the number of
    positions visited. *)
Fixpoint replace_from (fuel : nat) (d open close s : jsstring) : jsstring :=
  match fuel with
  | O => s
  | S fuel' =>
      match s with
      | [] => []
      | c :: r =>
          match match_here d s with
          | Some (cap, rest) =>
              open ++ cap ++ close ++ replace_from fuel' d open close rest
          | None => c :: replace_from fuel' d open close r
          end
      end
  end.

Definition replace_delimited (d open close s : jsstring) : jsstring :=
  replace_from (List.length s) d open close s.

(** [s.replace(/\n/g, by)]. *)
Fixpoint replace_newlines (by_ s : jsstring) : jsstring :=
  match s with
  | [] => []
  | c :: r =>
      if c =? 10 then by_ ++ replace_newlines by_ r
      else c :: replace_newlines by_ r
  end.

End Regex.
Export Regex.

(** [formatMessage(text)], script.js lines 246-252. *)
Definition formatMessage (text : jsstring) : jsstring :=
  let t1 := replace_newlines (js "<br>") text in
  let t2 := replace_delimited (js "**") (js "<strong>") (js "</strong>") t1 in
  let t3 := replace_delimited (js "*") (js "<em>") (js "</em>") t2 in
  replace_delimited (js "`") (js "<code>") (js "</code>") t3.

(** ** [JSON.stringify] *)

Module Json.

#[warnings="-register-all"]
Inductive json :=
| JNull
| JString (s : jsstring)
| JArray (items : list json)
| JObject (members : list (jsstring * json)).

Definition hex_digit (n : N) : N :=
  if n <? 10 then 48 + n else 87 + n.

(** [\uXXXX] with four lower-case hexadecimal digits. *)
Definition unicode_escape (c : N) : jsstring :=
  [92; 117; hex_digit ((c / 4096) mod 16); hex_digit ((c / 256) mod 16);
   hex_digit ((c / 16) mod 16); hex_digit (c mod 16)].

Definition is_high_surrogate (c : N) : bool := (55296 <=? c) && (c <=? 56319).
Definition is_low_surrogate (c : N) : bool := (56320 <=? c) && (c <=? 57343).

(** The escape of one code unit that is not part of a surrogate pair. *)
Definition quote_unit (c : N) : jsstring :=
  if c =? 8 then [92; 98]
  else if c =? 9 then [92; 116]
  else if c =? 10 then [92; 110]
  else if c =? 12 then [92; 102]
  else if c =? 13 then [92; 114]
  else if c =? 34 then [92; 34]
  else if c =? 92 then [92; 92]
  else if (c <? 32) || is_high_surrogate c || is_low_surrogate c
       then unicode_escape c
  else [c].

Fixpoint quote_units (s : jsstring) : jsstring :=
  match s with
  | [] => []
  | c :: r =>
      if is_high_surrogate c then
        match r with
        | l :: r' =>
            if is_low_surrogate l then c :: l :: quote_units r'
            else quote_unit c ++ quote_units r
        | [] => quote_unit c
        end
      else quote_unit c ++ quote_units r
  end.

(** QuoteJSONString. *)
Definition quote (s : jsstring) : jsstring := dq ++ quote_units s ++ dq.

(** What separates and surrounds the elements of a nonempty array or
    object: nothing but commas when [gap] is empty, otherwise a line
    break and the indentation. *)
Definition wrap (gap indent : jsstring) (open close : N)
    (parts : list jsstring) : jsstring :=
  match parts with
  | [] => [open; close]
  | _ =>
      match gap with
      | [] => [open] ++ join [44] parts ++ [close]
      | _ =>
          let stepped := indent ++ gap in
          [open] ++ nl ++ stepped ++ join ([44] ++ nl ++ stepped) parts
          ++ nl ++ indent ++ [close]
      end
  end.

(** SerializeJSONProperty at the current [indent]. *)
Fixpoint serialize (gap indent : jsstring) (v : json) : jsstring :=
  match v with
  | JNull => js "null"
  | JString s => quote s
  | JArray items =>
      wrap gap indent 91 93 (map (serialize gap (indent ++ gap)) items)
  | JObject members =>
      wrap gap indent 123 125
        (map (fun kv =>
                quote (fst kv) ++ [58]
                ++ match gap with [] => [] | _ => [32] end
                ++ serialize gap (indent ++ gap) (snd kv))
             members)
  end.

(** [JSON.stringify(v)]. *)
Definition stringify (v : json) : jsstring := serialize [] [] v.

(** [JSON.stringify(v, null, 2)]. *)
Definition stringify_indent2 (v : json) : jsstring := serialize [32; 32] [] v.

(** *** Reading JSON text back

    [JSON.parse] on texts made of [null], strings, arrays and objects,
    by which an exported file is read back. *)

(** JSON white space: tab, line feed, carriage return, space. *)
Definition is_json_space (c : N) : bool :=
  (c =? 9) || (c =? 10) || (c =? 13) || (c =? 32).

Fixpoint skip_space (s : jsstring) : jsstring :=
  match s with
  | [] => []
  | c :: r => if is_json_space c then skip_space r else s
  end.

Definition hex_value (c : N) : option N :=
  if (48 <=? c) && (c <=? 57) then Some (c - 48)
  else if (97 <=? c) && (c <=? 102) then Some (c - 87)
  else if (65 <=? c) && (c <=? 70) then Some (c - 55)
  else None.

Definition hex4 (a b c d : N) : option N :=
  match hex_value a, hex_value b, hex_value c, hex_value d with
  | Some x, Some y, Some z, Some w => Some (4096 * x + 256 * y + 16 * z + w)
  | _, _, _, _ => None
  end.

(** The character that a one-letter escape stands for. *)
Definition unescape (e : N) : option N :=
  if e =? 34 then Some 34
  else if e =? 92 then Some 92
  else if e =? 47 then Some 47
  else if e =? 98 then Some 8
  else if e =? 102 then Some 12
  else if e =? 110 then Some 10
  else if e =? 114 then Some 13
  else if e =? 116 then Some 9
  else None.

(** The characters of a string after its opening quote, up to the closing
    quote: the code units they denote and the text that follows.  A
    control character is not allowed unescaped. *)
Fixpoint parse_units (s : jsstring) : option (jsstring * jsstring) :=
  match s with
  | [] => None
  | c :: r =>
      if c =? 34 then Some ([], r)
      else if c =? 92 then
        match r with
        | [] => None
        | e :: r1 =>
            if e =? 117 then
              match r1 with
              | h1 :: h2 :: h3 :: h4 :: r2 =>
                  match hex4 h1 h2 h3 h4, parse_units r2 with
                  | Some u, Some (us, rest) => Some (u :: us, rest)
                  | _, _ => None
                  end
              | _ => None
              end
            else
              match unescape e, parse_units r1 with
              | Some u, Some (us, rest) => Some (u :: us, rest)
              | _, _ => None
              end
        end
      else if c <? 32 then None
      else match parse_units r with
           | Some (us, rest) => Some (c :: us, rest)
           | None => None
           end
  end.

(** A value at the start of [s], with the text that follows it;
    [parse_elements] reads the elements of an array after its first
    bracket or a comma, up to the closing bracket, and [parse_members]
    the members of an object likewise.  [fuel] bounds the nesting and the
    number of elements in a row. *)
Fixpoint parse_value (fuel : nat) (s : jsstring) {struct fuel}
  : option (json * jsstring) :=
  match fuel with
  | O => None
  | S fuel' =>
      match skip_space s with
      | [] => None
      | c :: r =>
          if c =? 110 then
            match strip_prefix (js "ull") r with
            | Some rest => Some (JNull, rest)
            | None => None
            end
          else if c =? 34 then
            match parse_units r with
            | Some (u, rest) => Some (JString u, rest)
            | None => None
            end
          else if c =? 91 then
            match skip_space r with
            | [] => None
            | c' :: r' =>
                if c' =? 93 then Some (JArray [], r')
                else match parse_elements fuel' r with
                     | Some (items, rest) => Some (JArray items, rest)
                     | None => None
                     end
            end
          else if c =? 123 then
            match skip_space r with
            | [] => None
            | c' :: r' =>
                if c' =? 125 then Some (JObject [], r')
                else match parse_members fuel' r with
                     | Some (members, rest) => Some (JObject members, rest)
                     | None => None
                     end
            end
          else None
      end
  end
with parse_elements (fuel : nat) (s : jsstring) {struct fuel}
  : option (list json * jsstring) :=
  match fuel with
  | O => None
  | S fuel' =>
      match parse_value fuel' s with
      | None => None
      | Some (v, r) =>
          match skip_space r with
          | [] => None
          | c :: r' =>
              if c =? 44 then
                match parse_elements fuel' r' with
                | Some (vs, rest) => Some (v :: vs, rest)
                | None => None
                end
              else if c =? 93 then Some ([v], r')
              else None
          end
      end
  end
with parse_members (fuel : nat) (s : jsstring) {struct fuel}
  : option (list (jsstring * json) * jsstring) :=
  match fuel with
  | O => None
  | S fuel' =>
      match skip_space s with
      | [] => None
      | q :: r0 =>
          if q =? 34 then
            match parse_units r0 with
            | None => None
            | Some (k, r1) =>
                match skip_space r1 with
                | [] => None
                | c1 :: r2 =>
                    if c1 =? 58 then
                      match parse_value fuel' r2 with
                      | None => None
                      | Some (v, r3) =>
                          match skip_space r3 with
                          | [] => None
                          | c :: r' =>
                              if c =? 44 then
                                match parse_members fuel' r' with
                                | Some (ms, rest) => Some ((k, v) :: ms, rest)
                                | None => None
                                end
                              else if c =? 125 then Some ([(k, v)], r')
                              else None
                          end
                      end
                    else None
                end
            end
          else None
      end
  end.

(** [JSON.parse(s)]: one value, with nothing but white space after it. *)
Definition parse (s : jsstring) : option json :=
  match parse_value (S (List.length s)) s with
  | Some (v, rest) =>
      match skip_space rest with
      | [] => Some v
      | _ :: _ => None
      end
  | None => None
  end.

End Json.
Export Json.

(** ** The controller's state *)

Inductive Sender := User | Assistant.

(** The two values of the [sender] argument of [addMessage]. *)
Definition sender_name (r : Sender) : jsstring :=
  match r with User => js "user" | Assistant => js "assistant" end.

(** An entry of [messageHistory]: [{ text, sender, timestamp }]. *)
Record Message := mkMessage {
  text : jsstring;
  sender : Sender;
  timestamp : jsstring
}.

(** A message [div] appended to [chatMessages]. *)
Record MessageDiv := mkMessageDiv {
  className : jsstring;
  innerHTML : jsstring
}.

(** The anchor element that [exportChatHistory] creates. *)
Record Anchor := mkAnchor {
  href : jsstring;
  download : jsstring
}.

(** The DOM properties that the controller reads or writes.  Focus and
    scroll position are not represented. *)
Record Dom := mkDom {
  welcomeScreen_display : jsstring;
  chatInterface_display : jsstring;
  chatMessages_children : list MessageDiv;
  messageInput_value : jsstring;
  messageInput_height : jsstring;
  sendBtn_disabled : bool;
  typingIndicator_display : jsstring;
  loadingOverlay_display : jsstring;
  errorToast_display : jsstring;
  errorMessage_textContent : jsstring;
  charCounter_textContent : jsstring;
  charCounter_color : jsstring;
  body_children : list Anchor
}.

(** Callbacks registered with [setTimeout]. *)
Inductive Callback :=
| ScrollChat    (* chatMessages.scrollTop = chatMessages.scrollHeight *)
| HideError.    (* this.hideError() *)

Record Timer := mkTimer {
  delay : N;
  callback : Callback
}.

(** The body of a [fetch('/api/chat', ...)] call before serialization:
    [{ question: message, session_id: this.sessionId }]. *)
Record Request := mkRequest {
  question : jsstring;
  session_id : option jsstring
}.

(** Exceptions that reach the [catch] of [sendMessage].  Only the message
    of [new Error(...)] thrown by [sendToAPI] is written by the program;
    the others are raised by the runtime. *)
Inductive JsError :=
| ErrorMsg (message : jsstring)
| TypeError
| SyntaxError
| NetworkFailure.

(** A line written by [console.error(label, error)]. *)
Record ConsoleEntry := mkConsoleEntry {
  label : jsstring;
  logged : JsError
}.

Record ChatBot := mkChatBot {
  sessionId : option jsstring;          (* null or a string *)
  isTyping : bool;
  messageHistory : list Message;
  dom : Dom;
  timers : list Timer;                  (* timeouts set and not yet fired *)
  fetches : list Request;               (* every fetch call made, oldest first *)
  pending : list Request;               (* fetch calls that have not settled *)
  console : list ConsoleEntry
}.

(** *** Field updates *)

Definition with_dom (f : Dom -> Dom) (s : ChatBot) : ChatBot :=
  mkChatBot (sessionId s) (isTyping s) (messageHistory s) (f (dom s))
            (timers s) (fetches s) (pending s) (console s).

Definition set_sessionId (v : option jsstring) (s : ChatBot) : ChatBot :=
  mkChatBot v (isTyping s) (messageHistory s) (dom s)
            (timers s) (fetches s) (pending s) (console s).

Definition set_isTyping (v : bool) (s : ChatBot) : ChatBot :=
  mkChatBot (sessionId s) v (messageHistory s) (dom s)
            (timers s) (fetches s) (pending s) (console s).

Definition set_messageHistory (v : list Message) (s : ChatBot) : ChatBot :=
  mkChatBot (sessionId s) (isTyping s) v (dom s)
            (timers s) (fetches s) (pending s) (console s).

Definition set_timers (v : list Timer) (s : ChatBot) : ChatBot :=
  mkChatBot (sessionId s) (isTyping s) (messageHistory s) (dom s)
            v (fetches s) (pending s) (console s).

Definition set_fetches (v : list Request) (s : ChatBot) : ChatBot :=
  mkChatBot (sessionId s) (isTyping s) (messageHistory s) (dom s)
            (timers s) v (pending s) (console s).

Definition set_pending (v : list Request) (s : ChatBot) : ChatBot :=
  mkChatBot (sessionId s) (isTyping s) (messageHistory s) (dom s)
            (timers s) (fetches s) v (console s).

Definition set_console (v : list ConsoleEntry) (s : ChatBot) : ChatBot :=
  mkChatBot (sessionId s) (isTyping s) (messageHistory s) (dom s)
            (timers s) (fetches s) (pending s) v.

Definition set_welcomeScreen_display (v : jsstring) (d : Dom) : Dom :=
  mkDom v (chatInterface_display d) (chatMessages_children d)
        (messageInput_value d) (messageInput_height d) (sendBtn_disabled d)
        (typingIndicator_display d) (loadingOverlay_display d)
        (errorToast_display d) (errorMessage_textContent d)
        (charCounter_textContent d) (charCounter_color d) (body_children d).

Definition set_chatInterface_display (v : jsstring) (d : Dom) : Dom :=
  mkDom (welcomeScreen_display d) v (chatMessages_children d)
        (messageInput_value d) (messageInput_height d) (sendBtn_disabled d)
        (typingIndicator_display d) (loadingOverlay_display d)
        (errorToast_display d) (errorMessage_textContent d)
        (charCounter_textContent d) (charCounter_color d) (body_children d).

Definition set_chatMessages_children (v : list MessageDiv) (d : Dom) : Dom :=
  mkDom (welcomeScreen_display d) (chatInterface_display d) v
        (messageInput_value d) (messageInput_height d) (sendBtn_disabled d)
        (typingIndicator_display d) (loadingOverlay_display d)
        (errorToast_display d) (errorMessage_textContent d)
        (charCounter_textContent d) (charCounter_color d) (body_children d).

Definition set_messageInput_value (v : jsstring) (d : Dom) : Dom :=
  mkDom (welcomeScreen_display d) (chatInterface_display d)
        (chatMessages_children d) v (messageInput_height d) (sendBtn_disabled d)
        (typingIndicator_display d) (loadingOverlay_display d)
        (errorToast_display d) (errorMessage_textContent d)
        (charCounter_textContent d) (charCounter_color d) (body_children d).

Definition set_messageInput_height (v : jsstring) (d : Dom) : Dom :=
  mkDom (welcomeScreen_display d) (chatInterface_display d)
        (chatMessages_children d) (messageInput_value d) v (sendBtn_disabled d)
        (typingIndicator_display d) (loadingOverlay_display d)
        (errorToast_display d) (errorMessage_textContent d)
        (charCounter_textContent d) (charCounter_color d) (body_children d).

Definition set_sendBtn_disabled (v : bool) (d : Dom) : Dom :=
  mkDom (welcomeScreen_display d) (chatInterface_display d)
        (chatMessages_children d) (messageInput_value d)
        (messageInput_height d) v
        (typingIndicator_display d) (loadingOverlay_display d)
        (errorToast_display d) (errorMessage_textContent d)
        (charCounter_textContent d) (charCounter_color d) (body_children d).

Definition set_typingIndicator_display (v : jsstring) (d : Dom) : Dom :=
  mkDom (welcomeScreen_display d) (chatInterface_display d)
        (chatMessages_children d) (messageInput_value d)
        (messageInput_height d) (sendBtn_disabled d)
        v (loadingOverlay_display d)
        (errorToast_display d) (errorMessage_textContent d)
        (charCounter_textContent d) (charCounter_color d) (body_children d).

Definition set_loadingOverlay_display (v : jsstring) (d : Dom) : Dom :=
  mkDom (welcomeScreen_display d) (chatInterface_display d)
        (chatMessages_children d) (messageInput_value d)
        (messageInput_height d) (sendBtn_disabled d)
        (typingIndicator_display d) v
        (errorToast_display d) (errorMessage_textContent d)
        (charCounter_textContent d) (charCounter_color d) (body_children d).

Definition set_errorToast_display (v : jsstring) (d : Dom) : Dom :=
  mkDom (welcomeScreen_display d) (chatInterface_display d)
        (chatMessages_children d) (messageInput_value d)
        (messageInput_height d) (sendBtn_disabled d)
        (typingIndicator_display d) (loadingOverlay_display d)
        v (errorMessage_textContent d)
        (charCounter_textContent d) (charCounter_color d) (body_children d).

Definition set_errorMessage_textContent (v : jsstring) (d : Dom) : Dom :=
  mkDom (welcomeScreen_display d) (chatInterface_display d)
        (chatMessages_children d) (messageInput_value d)
        (messageInput_height d) (sendBtn_disabled d)
        (typingIndicator_display d) (loadingOverlay_display d)
        (errorToast_display d) v
        (charCounter_textContent d) (charCounter_color d) (body_children d).

Definition set_charCounter_textContent (v : jsstring) (d : Dom) : Dom :=
  mkDom (welcomeScreen_display d) (chatInterface_display d)
        (chatMessages_children d) (messageInput_value d)
        (messageInput_height d) (sendBtn_disabled d)
        (typingIndicator_display d) (loadingOverlay_display d)
        (errorToast_display d) (errorMessage_textContent d)
        v (charCounter_color d) (body_children d).

Definition set_charCounter_color (v : jsstring) (d : Dom) : Dom :=
  mkDom (welcomeScreen_display d) (chatInterface_display d)
        (chatMessages_children d) (messageInput_value d)
        (messageInput_height d) (sendBtn_disabled d)
        (typingIndicator_display d) (loadingOverlay_display d)
        (errorToast_display d) (errorMessage_textContent d)
        (charCounter_textContent d) v (body_children d).

Definition set_body_children (v : list Anchor) (d : Dom) : Dom :=
  mkDom (welcomeScreen_display d) (chatInterface_display d)
        (chatMessages_children d) (messageInput_value d)
        (messageInput_height d) (sendBtn_disabled d)
        (typingIndicator_display d) (loadingOverlay_display d)
        (errorToast_display d) (errorMessage_textContent d)
        (charCounter_textContent d) (charCounter_color d) v.

(** A layout in which the textarea always measures one line of 24 pixels. *)
Definition one_line : jsstring -> N := fun _ => 24.

(** ** The methods of [ChatBot] *)

Section Controller.

(** [messageInput.scrollHeight] once the height is ['auto']: decided by the
    browser's layout from the content of the textarea. *)
Variable scrollHeight : jsstring -> N.

Definition spaces (n : nat) : jsstring := repeat 32 n.

(** [generateSessionId()], lines 88-90.  [now] is the value of
    [Date.now()] and [suffix] the value of
    [Math.random().toString(36).substr(2, 9)]. *)
Definition generateSessionId (now : N) (suffix : jsstring) (s : ChatBot)
    : ChatBot :=
  set_sessionId (Some (js "session_" ++ dec now ++ js "_" ++ suffix)) s.

(** [handleInputChange()], lines 95-113. *)
Definition handleInputChange (s : ChatBot) : ChatBot :=
  let text := trim (messageInput_value (dom s)) in
  let charCount := N.of_nat (List.length (messageInput_value (dom s))) in
  let s := with_dom (set_charCounter_textContent (dec charCount ++ js "/1000")) s in
  let s := with_dom (set_sendBtn_disabled (negb (truthy text) || isTyping s)) s in
  with_dom (set_charCounter_color
              (if 900 <? charCount then js "var(--warning-color)"
               else if 950 <? charCount then js "var(--error-color)"
               else js "var(--text-light)")) s.

(** [autoResize()], lines 118-121. *)
Definition autoResize (s : ChatBot) : ChatBot :=
  let s := with_dom (set_messageInput_height (js "auto")) s in
  with_dom (set_messageInput_height
              (dec (N.min (scrollHeight (messageInput_value (dom s))) 120)
               ++ js "px")) s.

(** [showWelcomeScreen()], lines 126-129. *)
Definition showWelcomeScreen (s : ChatBot) : ChatBot :=
  let s := with_dom (set_welcomeScreen_display (js "flex")) s in
  with_dom (set_chatInterface_display (js "none")) s.

(** [showChatInterface()], lines 134-138. *)
Definition showChatInterface (s : ChatBot) : ChatBot :=
  let s := with_dom (set_welcomeScreen_display (js "none")) s in
  with_dom (set_chatInterface_display (js "flex")) s.

(** [scrollToBottom()], lines 276-280. *)
Definition scrollToBottom (s : ChatBot) : ChatBot :=
  set_timers (timers s ++ [mkTimer 100 ScrollChat]) s.

(** The two avatar literals of line 226, as they stand in the file. *)
Definition avatar (r : Sender) : jsstring :=
  match r with
  | User => [240; 376; 8216; 164]
  | Assistant => [240; 376; 164; 8211]
  end.

(** The template literal of lines 228-234. *)
Definition message_html (txt : jsstring) (r : Sender) (ts : jsstring)
    : jsstring :=
  nl ++ spaces 12 ++ js "<div class=" ++ dq ++ js "message-avatar" ++ dq
  ++ js ">" ++ avatar r ++ js "</div>"
  ++ nl ++ spaces 12 ++ js "<div class=" ++ dq ++ js "message-content" ++ dq
  ++ js ">"
  ++ nl ++ spaces 16 ++ js "<div class=" ++ dq ++ js "message-bubble" ++ dq
  ++ js ">" ++ formatMessage txt ++ js "</div>"
  ++ nl ++ spaces 16 ++ js "<div class=" ++ dq ++ js "message-time" ++ dq
  ++ js ">" ++ ts ++ js "</div>"
  ++ nl ++ spaces 12 ++ js "</div>"
  ++ nl ++ spaces 8.

(** [addMessage(text, sender)], lines 217-241, for a string [txt].  [ts]
    is the value of [new Date().toLocaleTimeString(...)]. *)
Definition addMessage (txt : jsstring) (r : Sender) (ts : jsstring)
    (s : ChatBot) : ChatBot :=
  let messageDiv :=
    mkMessageDiv (js "message " ++ sender_name r ++ js " fade-in")
                 (message_html txt r ts) in
  let s := with_dom (fun d => set_chatMessages_children
                                (chatMessages_children d ++ [messageDiv]) d) s in
  let s := scrollToBottom s in
  set_messageHistory (messageHistory s ++ [mkMessage txt r ts]) s.

(** [showTypingIndicator()], lines 257-262. *)
Definition showTypingIndicator (s : ChatBot) : ChatBot :=
  let s := set_isTyping true s in
  let s := with_dom (set_sendBtn_disabled true) s in
  let s := with_dom (set_typingIndicator_display (js "block")) s in
  scrollToBottom s.

(** [hideTypingIndicator()], lines 267-271. *)
Definition hideTypingIndicator (s : ChatBot) : ChatBot :=
  let s := set_isTyping false s in
  let s := handleInputChange s in
  with_dom (set_typingIndicator_display (js "none")) s.

(** [showLoading()] and [hideLoading()], lines 318-327. *)
Definition showLoading (s : ChatBot) : ChatBot :=
  with_dom (set_loadingOverlay_display (js "flex")) s.

Definition hideLoading (s : ChatBot) : ChatBot :=
  with_dom (set_loadingOverlay_display (js "none")) s.

(** [showError(message)], lines 332-340. *)
Definition showError (message : jsstring) (s : ChatBot) : ChatBot :=
  let s := with_dom (set_errorMessage_textContent message) s in
  let s := with_dom (set_errorToast_display (js "block")) s in
  set_timers (timers s ++ [mkTimer 5000 HideError]) s.

(** [hideError()], lines 345-347. *)
Definition hideError (s : ChatBot) : ChatBot :=
  with_dom (set_errorToast_display (js "none")) s.

(** [handleConnectionError()], lines 352-354. *)
Definition handleConnectionError (s : ChatBot) : ChatBot :=
  showError (js "Connection error. Please check your internet connection.") s.

(** [console.error(label, error)]. *)
Definition console_error (lbl : jsstring) (e : JsError) (s : ChatBot)
    : ChatBot :=
  set_console (console s ++ [mkConsoleEntry lbl e]) s.

(** *** Sending *)

(** The request body of lines 200-203. *)
Definition request_json (r : Request) : json :=
  JObject [(js "question", JString (question r));
           (js "session_id",
            match session_id r with Some t => JString t | None => JNull end)].

Definition request_body (r : Request) : jsstring :=
  stringify (request_json r).

(** [sendToAPI(message)] up to its first [await], lines 194-204: the
    [fetch] call is made with the session identifier held at that moment. *)
Definition sendToAPI (message : jsstring) (s : ChatBot) : ChatBot :=
  let r := mkRequest message (sessionId s) in
  set_pending (pending s ++ [r]) (set_fetches (fetches s ++ [r]) s).

(** [sendMessage()] up to its [await], lines 152-172.  [ts] is the time
    shown on the user's message. *)
Definition sendMessage (ts : jsstring) (s : ChatBot) : ChatBot :=
  let message := trim (messageInput_value (dom s)) in
  if negb (truthy message) || isTyping s then s
  else
    let s := with_dom (set_messageInput_value []) s in
    let s := handleInputChange s in
    let s := autoResize s in
    let s := if jsstring_eqb (chatInterface_display (dom s)) (js "none")
             then showChatInterface s else s in
    let s := addMessage message User ts s in
    let s := showTypingIndicator s in
    sendToAPI message s.

(** The body of a response as far as the program reads it. *)
Inductive Body :=
| NotJson                         (* [response.json()] rejects *)
| JsonNull                        (* the JSON text [null] *)
| JsonFields (detail answer session : option jsstring).
    (* any other JSON value; a field is [None] when it is missing; the
       values present are strings, as in the interface of the backend *)

(** How a [fetch] call settles. *)
Inductive FetchResult :=
| Unreachable                     (* the promise of [fetch] rejects *)
| Response (status : N) (body : Body).

Definition ok (status : N) : bool := (200 <=? status) && (status <=? 299).

(** What [await this.sendToAPI(message)] produces in [sendMessage]. *)
Inductive ApiResult :=
| Returned (body : Body)
| Thrown (e : JsError).

(** The rest of [sendToAPI] once [fetch] has settled, lines 206-211. *)
Definition sendToAPI_settled (r : FetchResult) : ApiResult :=
  match r with
  | Unreachable => Thrown NetworkFailure
  | Response status body =>
      if negb (ok status) then
        match body with
        | NotJson => Thrown (ErrorMsg (js "HTTP " ++ dec status))
        | JsonNull => Thrown TypeError
        | JsonFields detail _ _ =>
            match detail with
            | Some d =>
                if truthy d then Thrown (ErrorMsg d)
                else Thrown (ErrorMsg (js "HTTP " ++ dec status))
            | None => Thrown (ErrorMsg (js "HTTP " ++ dec status))
            end
        end
      else
        match body with
        | NotJson => Thrown SyntaxError
        | _ => Returned body
        end
  end.

(** The [finally] block of [sendMessage], lines 184-188. *)
Definition sendMessage_finally (s : ChatBot) : ChatBot :=
  handleInputChange (set_isTyping false s).

(** The [catch] block of [sendMessage], lines 180-183, followed by
    [finally]. *)
Definition sendMessage_catch (e : JsError) (s : ChatBot) : ChatBot :=
  let s := hideTypingIndicator s in
  let s := showError (js "Failed to get response. Please try again.") s in
  let s := console_error (js "Chat error:") e s in
  sendMessage_finally s.

(** The rest of [sendMessage] after the [await], lines 172-188.  [ts] is
    the time shown on the assistant's message.  When the value returned
    has no string [answer], [formatMessage] raises a [TypeError] inside
    [addMessage] before anything is appended. *)
Definition sendMessage_resumed (r : ApiResult) (ts : jsstring) (s : ChatBot)
    : ChatBot :=
  match r with
  | Thrown e => sendMessage_catch e s
  | Returned body =>
      let s := hideTypingIndicator s in
      match body with
      | JsonFields _ (Some a) session =>
          let s := addMessage a Assistant ts s in
          let s := match session with
                   | Some t => if truthy t then set_sessionId (Some t) s else s
                   | None => s
                   end in
          sendMessage_finally s
      | _ => sendMessage_catch TypeError s
      end
  end.

(** [askSampleQuestion(question)], lines 143-147.  What is read back from
    the textarea after the assignment of line 144 is the assigned text
    with its line breaks normalized. *)
Definition askSampleQuestion (q ts : jsstring) (s : ChatBot) : ChatBot :=
  let s := with_dom (set_messageInput_value (normalize_newlines q)) s in
  let s := handleInputChange s in
  sendMessage ts s.

(** [startNewChat()], lines 285-313.  No statement of the [try] block
    raises, so the [catch] block is not reached. *)
Definition startNewChat (now : N) (suffix : jsstring) (s : ChatBot)
    : ChatBot :=
  let s := showLoading s in
  let s := generateSessionId now suffix s in
  let s := with_dom (set_chatMessages_children []) s in
  let s := set_messageHistory [] s in
  let s := showWelcomeScreen s in
  let s := hideLoading s in
  let s := with_dom (set_messageInput_value []) s in
  let s := handleInputChange s in
  autoResize s.

(** *** Export *)

(** [getChatHistory()], lines 359-361. *)
Definition getChatHistory (s : ChatBot) : list Message := messageHistory s.

Definition message_json (m : Message) : json :=
  JObject [(js "text", JString (text m));
           (js "sender", JString (sender_name (sender m)));
           (js "timestamp", JString (timestamp m))].

(** The file offered for download by the click on the anchor. *)
Record Download := mkDownload {
  file_name : jsstring;
  mime_type : jsstring;
  content : jsstring
}.

(** [exportChatHistory()], lines 366-379.  [iso] is the value of
    [new Date().toISOString()] and [url] the object URL of the blob. *)
Definition exportChatHistory (iso url : jsstring) (s : ChatBot)
    : Download * ChatBot :=
  let history := getChatHistory s in
  let blob := stringify_indent2 (JArray (map message_json history)) in
  let a := mkAnchor url
             (js "gentaxai-chat-" ++ split_head 84 iso ++ js ".json") in
  let s := with_dom (fun d => set_body_children (body_children d ++ [a]) d) s in
  let file := mkDownload (download a) (js "application/json") blob in
  let s := with_dom (fun d => set_body_children (removelast (body_children d)) d) s in
  (file, s).

(** *** Construction and events *)

(** [new ChatBot()], lines 7-18, on a page whose elements are in state [d]. *)
Definition constructor (d : Dom) (now : N) (suffix : jsstring) : ChatBot :=
  let s := mkChatBot None false [] d [] [] [] [] in
  let s := generateSessionId now suffix s in
  showWelcomeScreen s.

(** The ['input'] listener of lines 59-62, after the user has changed the
    content of the textarea to [v]. *)
Definition onInput (v : jsstring) (s : ChatBot) : ChatBot :=
  let s := with_dom (set_messageInput_value v) s in
  let s := handleInputChange s in
  autoResize s.

(** A timeout callback. *)
Definition run_callback (c : Callback) (s : ChatBot) : ChatBot :=
  match c with
  | ScrollChat => s
  | HideError => hideError s
  end.

(** [l] without its element at position [i]. *)
Fixpoint remove_nth {A} (i : nat) (l : list A) : list A :=
  match l, i with
  | [], _ => []
  | _ :: r, O => r
  | x :: r, S j => x :: remove_nth j r
  end.

(** What can happen to a running controller. *)
Inductive Event :=
| SendRequested (ts : jsstring)         (* click on send, or Enter *)
| InputChanged (v : jsstring)
| SampleClicked (q ts : jsstring)
| NewChatRequested (now : N) (suffix : jsstring)
| FetchSettled (i : nat) (r : FetchResult) (ts : jsstring)
| TimerFired (i : nat)
| ExportRequested (iso url : jsstring)
| WentOffline                           (* lines 398-400 *)
| UncaughtError (e : JsError).          (* lines 403-406 *)

(** One event; [None] when the event cannot occur in [s] (no such pending
    request, no such timer). *)
Definition step (e : Event) (s : ChatBot) : option ChatBot :=
  match e with
  | SendRequested ts => Some (sendMessage ts s)
  | InputChanged v => Some (onInput v s)
  | SampleClicked q ts => Some (askSampleQuestion q ts s)
  | NewChatRequested now suffix => Some (startNewChat now suffix s)
  | FetchSettled i r ts =>
      match nth_error (pending s) i with
      | Some _ =>
          Some (sendMessage_resumed (sendToAPI_settled r) ts
                  (set_pending (remove_nth i (pending s)) s))
      | None => None
      end
  | TimerFired i =>
      match nth_error (timers s) i with
      | Some t =>
          Some (run_callback (callback t)
                  (set_timers (remove_nth i (timers s)) s))
      | None => None
      end
  | ExportRequested iso url => Some (snd (exportChatHistory iso url s))
  | WentOffline =>
      Some (showError (js "You are offline. Please check your connection.") s)
  | UncaughtError e =>
      Some (showError
              (js "An unexpected error occurred. Please refresh the page.")
              (console_error (js "Global error:") e s))
  end.

Fixpoint run (evs : list Event) (s : ChatBot) : option ChatBot :=
  match evs with
  | [] => Some s
  | e :: rest =>
      match step e s with
      | Some s' => run rest s'
      | None => None
      end
  end.

(** States that a controller can be in, from construction on any page. *)
Definition reachable (s : ChatBot) : Prop :=
  exists d now suffix evs, run evs (constructor d now suffix) = Some s.

(** *** The interaction state of the specification, read off the fields *)

Inductive InteractionState := Idle | Composing | AwaitingResponse | Errored.

(** [AwaitingResponse] while [isTyping] is set; otherwise [Errored] while
    the error toast is displayed; otherwise [Composing] or [Idle] as the
    trimmed input is nonempty or empty. *)

Definition interaction (s : ChatBot) : InteractionState :=
  if isTyping s then AwaitingResponse
  else if jsstring_eqb (errorToast_display (dom s)) (js "block") then Errored
  else if truthy (trim (messageInput_value (dom s))) then Composing
  else Idle.

(** The in-flight invariant: a request is pending exactly while [isTyping]
    is set, and then there is one. *)
Definition in_flight_inv (s : ChatBot) : Prop :=
  List.length (pending s) = if isTyping s then 1%nat else 0%nat.

(** *** Token adoption *)

(** Whether the response makes [sendMessage] assign [this.sessionId]
    (line 178). *)
Definition adopts (r : FetchResult) : bool :=
  match sendToAPI_settled r with
  | Returned (JsonFields _ (Some _) (Some t)) => truthy t
  | _ => false
  end.

(** Events that do not assign [this.sessionId]: all but a new chat and a
    response that is adopted. *)
Definition keeps_token (e : Event) : bool :=
  match e with
  | NewChatRequested _ _ => false
  | FetchSettled _ r _ => negb (adopts r)
  | _ => true
  end.

(** The token held after lines 177-179 for a response whose
    [session_id] is [session]. *)
Definition token_after (session : option jsstring) (held : option jsstring)
    : option jsstring :=
  match session with
  | Some t => if truthy t then Some t else held
  | None => held
  end.

(** [s'] holds the token of [s], and every request made between them
    carries it. *)
Definition same_token_since (s s' : ChatBot) : Prop :=
  sessionId s' = sessionId s
  /\ exists new, fetches s' = fetches s ++ new
                 /\ Forall (fun r => session_id r = sessionId s) new.

(** The state of [sendMessage] after lines 157-159: input emptied, counter
    refreshed, textarea resized. *)
Definition input_cleared (s : ChatBot) : ChatBot :=
  autoResize (handleInputChange (with_dom (set_messageInput_value []) s)).

(** *** The sample-question shortcut as the specification words it *)

(** Populate the input with the literal text, then run the ordinary send
    path. *)
Definition populate_and_send (q ts : jsstring) (s : ChatBot) : ChatBot :=
  sendMessage ts (with_dom (set_messageInput_value (normalize_newlines q)) s).

(** The same through the listener of the textarea, as when the text is
    typed. *)
Definition type_and_send (q ts : jsstring) (s : ChatBot) : ChatBot :=
  sendMessage ts (onInput (normalize_newlines q) s).

(** The display fields that [handleInputChange] writes. *)
Definition with_counter (txt col : jsstring) (dis : bool) (s : ChatBot)
    : ChatBot :=
  with_dom (fun d => set_charCounter_color col
                       (set_sendBtn_disabled dis
                          (set_charCounter_textContent txt d))) s.

(** [a] and [b] differ at most in the character counter and the disabled
    flag of the send button. *)
Definition same_but_counter (a b : ChatBot) : Prop :=
  with_counter (charCounter_textContent (dom b)) (charCounter_color (dom b))
               (sendBtn_disabled (dom b)) a = b.

(** [a] and [b] differ at most in the height of the textarea. *)
Definition same_but_height (a b : ChatBot) : Prop :=
  with_dom (set_messageInput_height (messageInput_height (dom b))) a = b.

(** *** Markup in message text *)

(** [x] is a contiguous part of [l]. *)
Definition occurs_in (x l : jsstring) : Prop :=
  exists a b, l = a ++ x ++ b.

(** The characters that the four patterns of [formatMessage] look at:
    newline, asterisk and backquote. *)
Definition is_pattern_char (c : N) : bool :=
  (c =? 10) || (c =? 42) || (c =? 96).

Definition pattern_free (x : jsstring) : bool :=
  forallb (fun c => negb (is_pattern_char c)) x.

(** *** Statements of the specification that are examined below *)

(** A response to a request issued before a new chat leaves the new
    session's transcript and token as they are. *)
Definition stale_response_discarded : Prop :=
  forall s now suffix i rq r ts s',
    reachable s ->
    nth_error (pending s) i = Some rq ->
    step (FetchSettled i r ts) (startNewChat now suffix s) = Some s' ->
    messageHistory s' = messageHistory (startNewChat now suffix s)
    /\ sessionId s' = sessionId (startNewChat now suffix s).

(** An input whose trimmed text is longer than 1000 characters is not
    sent. *)
Definition over_length_blocks_send : Prop :=
  forall ts s,
    reachable s ->
    (1000 < List.length (trim (messageInput_value (dom s))))%nat ->
    fetches (sendMessage ts s) = fetches s
    /\ messageHistory (sendMessage ts s) = messageHistory s.

(** A 500 response with the body [{"detail":"index unavailable"}] shows
    that detail to the user. *)
Definition detail_shown_on_failure : Prop :=
  forall s i rq ts s',
    reachable s ->
    nth_error (pending s) i = Some rq ->
    step (FetchSettled i
            (Response 500 (JsonFields (Some (js "index unavailable")) None None))
            ts) s = Some s' ->
    interaction s' = Errored
    /\ errorMessage_textContent (dom s') = js "index unavailable"
    /\ messageHistory s' = messageHistory s.

(** New chat twice gives the state of new chat once, the value of the
    generated token apart, and that state is [Idle] with an empty
    transcript and an empty input. *)
(** C8 as the specification words it: whatever the question and the
    state, the shortcut ends in exactly the state that populating the
    input and running the ordinary send path ends in. *)
Definition sample_is_populate_then_send : Prop :=
  forall q ts s,
    reachable s -> askSampleQuestion q ts s = populate_and_send q ts s.

(** The same against the text being typed into the textarea. *)
Definition sample_is_type_then_send : Prop :=
  forall q ts s,
    reachable s -> askSampleQuestion q ts s = type_and_send q ts s.

Definition new_chat_idempotent_to_idle : Prop :=
  forall s now1 suffix1 now2 suffix2,
    reachable s ->
    let once := startNewChat now1 suffix1 s in
    let twice := startNewChat now2 suffix2 once in
    set_sessionId (sessionId once) twice = once
    /\ messageHistory once = []
    /\ messageInput_value (dom once) = []
    /\ interaction once = Idle.

(** *** A page and a conversation to evaluate the methods on *)

(** The elements before any script has run: no inline style, empty
    textarea. *)
Definition blank_page : Dom :=
  mkDom [] [] [] [] [] false [] [] [] [] [] [] [].

Definition fresh : ChatBot := constructor blank_page 1700000000000 (js "k3x9q2m1z").

(** The user has typed a question and sent it; the request is pending. *)
Definition awaiting : ChatBot :=
  sendMessage (js "10:15 AM") (onInput (js "What is GST?") fresh).

Definition gst_request : Request :=
  mkRequest (js "What is GST?") (Some (js "session_1700000000000_k3x9q2m1z")).

(** A successful response that carries a token of the server. *)
Definition srv_response : FetchResult :=
  Response 200 (JsonFields None (Some (js "GST is a tax.")) (Some (js "srv123"))).

(** The response of the scenario of the specification: status 500 with
    the body [{"detail":"index unavailable"}]. *)
Definition failure_response : FetchResult :=
  Response 500 (JsonFields (Some (js "index unavailable")) None None).

(** The conversation after [srv_response] has arrived. *)
Definition answered : ChatBot :=
  sendMessage_resumed (sendToAPI_settled srv_response) (js "10:16 AM")
    (set_pending [] awaiting).

(** An input of 1001 characters, typed on the fresh page. *)
Definition long_text : jsstring := repeat 97 1001.

Definition long_typed : ChatBot := onInput long_text fresh.

(** ["  Hello  "] typed on the fresh page. *)
Definition hello_typed : ChatBot := onInput (js "  Hello  ") fresh.

(** *** Further notions used for the controller as a whole *)

(** The element that [addMessage] appends for an entry of the history. *)
Definition render_message (m : Message) : MessageDiv :=
  mkMessageDiv (js "message " ++ sender_name (sender m) ++ js " fade-in")
               (message_html (text m) (sender m) (timestamp m)).

(** The rendered messages are the history, entry by entry. *)
Definition rendered_inv (s : ChatBot) : Prop :=
  chatMessages_children (dom s) = map render_message (messageHistory s).

(** The send button is disabled exactly when the trimmed input is empty or
    a request is in flight: what line 103 assigns. *)
Definition button_inv (s : ChatBot) : Prop :=
  sendBtn_disabled (dom s)
  = negb (truthy (trim (messageInput_value (dom s)))) || isTyping s.

(** The answer and token that [sendMessage] takes from a settled request:
    [None] when [sendToAPI] throws or returns a value without a string
    [answer]. *)
Definition answer_of (r : FetchResult)
    : option (jsstring * option jsstring) :=
  match sendToAPI_settled r with
  | Returned (JsonFields _ (Some a) session) => Some (a, session)
  | _ => None
  end.

(** A question as [sendMessage] passes it on: not empty, and without
    white space at either end. *)
Definition trimmed_question (r : Request) : Prop :=
  truthy (question r) = true /\ trim (question r) = question r.


(** Exactly one of the welcome screen and the chat interface is shown. *)
Definition one_screen (s : ChatBot) : Prop :=
  (welcomeScreen_display (dom s) = js "flex"
   /\ chatInterface_display (dom s) = js "none")
  \/ (welcomeScreen_display (dom s) = js "none"
      /\ chatInterface_display (dom s) = js "flex").

(** The typing indicator is displayed exactly while [isTyping] is set. *)
Definition indicator_inv (s : ChatBot) : Prop :=
  if isTyping s then typingIndicator_display (dom s) = js "block"
  else typingIndicator_display (dom s) <> js "block".

(** While the error toast is displayed, a timeout that hides it is set. *)
Definition toast_has_timer (s : ChatBot) : Prop :=
  errorToast_display (dom s) = js "block" ->
  In (mkTimer 5000 HideError) (timers s).

(** Text that no pattern of [formatMessage] looks at and that [.] matches:
    no newline, asterisk, backquote or other line terminator. *)
Definition inline_text (x : jsstring) : bool :=
  forallb (fun c => negb (is_pattern_char c || is_line_terminator c)) x.

(** *** Keyboard *)

(** The properties of a [keydown] event that the listeners read. *)
Record KeyEvent := mkKeyEvent {
  key : jsstring;
  shiftKey : bool;
  ctrlKey : bool;
  metaKey : bool
}.

(** The [keydown] listener of the textarea, lines 51-56. *)
Definition onInputKeydown (e : KeyEvent) (ts : jsstring) (s : ChatBot)
    : ChatBot :=
  if jsstring_eqb (key e) (js "Enter") && negb (shiftKey e)
  then sendMessage ts s
  else s.

(** The [keydown] listener of the document, lines 410-422.  Its second
    branch only moves the focus, which is not represented. *)
Definition onDocumentKeydown (e : KeyEvent) (now : N) (suffix : jsstring)
    (s : ChatBot) : ChatBot :=
  if (ctrlKey e || metaKey e) && jsstring_eqb (key e) (js "Enter")
  then startNewChat now suffix s
  else s.

(** A key pressed in the textarea: the listener of the textarea runs, then
    the event bubbles to the document. *)
Definition keydown_in_input (e : KeyEvent) (ts : jsstring) (now : N)
    (suffix : jsstring) (s : ChatBot) : ChatBot :=
  onDocumentKeydown e now suffix (onInputKeydown e ts s).

(** A page whose send button starts disabled and whose other elements
    have no inline style. *)
Definition idle_page : Dom :=
  mkDom [] [] [] [] [] true [] [] [] [] [] [] [].

(** What every settled request leaves behind, whatever the outcome. *)
Definition settled_common (i : nat) (s s' : ChatBot) : Prop :=
  isTyping s' = false
  /\ pending s' = remove_nth i (pending s)
  /\ fetches s' = fetches s
  /\ messageInput_value (dom s') = messageInput_value (dom s)
  /\ welcomeScreen_display (dom s') = welcomeScreen_display (dom s)
  /\ chatInterface_display (dom s') = chatInterface_display (dom s)
  /\ typingIndicator_display (dom s') = js "none"
  /\ button_inv s'.

Definition is_new_chat (e : Event) : bool :=
  match e with NewChatRequested _ _ => true | _ => false end.

(** A body from which [sendMessage] gets no string [answer]. *)
Definition no_answer_body (b : Body) : bool :=
  match b with
  | JsonFields _ (Some _) _ => false
  | _ => true
  end.

(** The ways a request can fail to bring an answer: the call itself fails,
    the status is outside 200-299, or the body of a 2xx response is not
    JSON, is [null] or has no string [answer]. *)
Definition brings_no_answer (r : FetchResult) : Prop :=
  match r with
  | Unreachable => True
  | Response status body => ok status = false \/ no_answer_body body = true
  end.


(** [l] has no character [k]. *)
Definition free_of (k : N) (l : jsstring) : bool :=
  forallb (fun c => negb (c =? k)) l.

(** The last three replacements of [formatMessage], lines 249-251. *)
Definition format_inline (t : jsstring) : jsstring :=
  replace_delimited (js "`") (js "<code>") (js "</code>")
    (replace_delimited (js "*") (js "<em>") (js "</em>")
       (replace_delimited (js "**") (js "<strong>") (js "</strong>") t)).

(** [l] has no line terminator, so [.] matches each of its characters. *)
Definition one_line_text (l : jsstring) : bool :=
  forallb (fun c => negb (is_line_terminator c)) l.

(** The loading overlay is not displayed. *)
Definition overlay_hidden (s : ChatBot) : Prop :=
  loadingOverlay_display (dom s) <> js "flex".

(** ** What each method does to the fields *)

Lemma sendMessage_rejected ts s :
  negb (truthy (trim (messageInput_value (dom s)))) || isTyping s = true ->
  sendMessage ts s = s.
Proof. intros H. unfold sendMessage. now rewrite H. Qed.

Lemma sendMessage_unfold ts s :
  truthy (trim (messageInput_value (dom s))) = true ->
  isTyping s = false ->
  sendMessage ts s
  = sendToAPI (trim (messageInput_value (dom s)))
      (showTypingIndicator
         (addMessage (trim (messageInput_value (dom s))) User ts
            (if jsstring_eqb (chatInterface_display (dom s)) (js "none")
             then showChatInterface (input_cleared s)
             else input_cleared s))).
Proof.
  intros Ht Hi. unfold sendMessage. rewrite Ht, Hi. reflexivity.
Qed.

(** The fields of the state right after an accepted send. *)
Lemma sendMessage_accepted ts s :
  truthy (trim (messageInput_value (dom s))) = true ->
  isTyping s = false ->
  let m := trim (messageInput_value (dom s)) in
  let s' := sendMessage ts s in
  isTyping s' = true
  /\ messageHistory s' = messageHistory s ++ [mkMessage m User ts]
  /\ fetches s' = fetches s ++ [mkRequest m (sessionId s)]
  /\ pending s' = pending s ++ [mkRequest m (sessionId s)]
  /\ sessionId s' = sessionId s
  /\ messageInput_value (dom s') = []
  /\ console s' = console s.
Proof.
  intros Ht Hi m s'. subst m s'. rewrite sendMessage_unfold by assumption.
  destruct (jsstring_eqb (chatInterface_display (dom s)) (js "none"));
    repeat split; reflexivity.
Qed.

Lemma sendMessage_resumed_isTyping r ts s :
  isTyping (sendMessage_resumed r ts s) = false.
Proof. destruct r as [[| |d [a|] [t|]]|e]; reflexivity. Qed.

Lemma sendMessage_resumed_pending r ts s :
  pending (sendMessage_resumed r ts s) = pending s.
Proof.
  destruct r as [[| |d [a|] [t|]]|e]; try reflexivity.
  cbn [sendMessage_resumed]. destruct (truthy t); reflexivity.
Qed.

Lemma remove_nth_length {A} (l : list A) i x :
  nth_error l i = Some x ->
  S (List.length (remove_nth i l)) = List.length l.
Proof.
  revert i. induction l as [|y l IH]; intros [|i] H; cbn in *;
    try discriminate; auto.
Qed.

Lemma sendMessage_inv ts s : in_flight_inv s -> in_flight_inv (sendMessage ts s).
Proof.
  intros H. unfold in_flight_inv in *.
  destruct (truthy (trim (messageInput_value (dom s)))) eqn:Ht;
    destruct (isTyping s) eqn:Hi.
  - rewrite sendMessage_rejected by (rewrite Hi; apply orb_true_r).
    now rewrite Hi.
  - destruct (sendMessage_accepted ts s Ht Hi) as (E1 & _ & _ & E2 & _).
    rewrite E1, E2, length_app, H. reflexivity.
  - rewrite sendMessage_rejected by (rewrite Hi; apply orb_true_r).
    now rewrite Hi.
  - rewrite sendMessage_rejected by (now rewrite Ht). now rewrite Hi.
Qed.

Lemma step_inv e s s' :
  in_flight_inv s -> step e s = Some s' -> in_flight_inv s'.
Proof.
  intros H E. destruct e; cbn [step] in E.
  - injection E as <-. now apply sendMessage_inv.
  - injection E as <-. exact H.
  - injection E as <-. unfold askSampleQuestion. apply sendMessage_inv.
    exact H.
  - injection E as <-. exact H.
  - destruct (nth_error (pending s) i) eqn:En; [|discriminate].
    injection E as <-. unfold in_flight_inv in *.
    rewrite sendMessage_resumed_isTyping, sendMessage_resumed_pending.
    cbn [pending set_pending]. apply remove_nth_length in En.
    destruct (isTyping s); lia.
  - destruct (nth_error (timers s) i) as [t|]; [|discriminate].
    injection E as <-. destruct t as [dl [|]]; exact H.
  - injection E as <-. exact H.
  - injection E as <-. exact H.
  - injection E as <-. exact H.
Qed.

Lemma run_inv evs : forall s s',
  in_flight_inv s -> run evs s = Some s' -> in_flight_inv s'.
Proof.
  induction evs as [|e evs IH]; intros s s' H E; cbn in E.
  - now injection E as <-.
  - destruct (step e s) as [s1|] eqn:E1; [|discriminate].
    eapply IH; [eapply step_inv; eauto | exact E].
Qed.

Lemma reachable_inv s : reachable s -> in_flight_inv s.
Proof.
  intros (d & now & suffix & evs & E).
  eapply run_inv; [|exact E]. reflexivity.
Qed.

(** C1. While a request is in flight ([isTyping] set), [sendMessage] returns
    at once: the state after the call is the state before it, so nothing is
    appended to [messageHistory] and no [fetch] is made.  In every state the
    controller can reach, at most one request is pending, and one is
    pending exactly when [isTyping] is set. *)
Theorem C1_send_while_awaiting_is_noop :
  (forall ts s, isTyping s = true ->
     sendMessage ts s = s
     /\ messageHistory (sendMessage ts s) = messageHistory s
     /\ fetches (sendMessage ts s) = fetches s
     /\ interaction (sendMessage ts s) = AwaitingResponse)
  /\ (forall s, reachable s ->
        (List.length (pending s) <= 1)%nat
        /\ (isTyping s = true <-> pending s <> [])).
Proof.
  split.
  - intros ts s H.
    assert (E : sendMessage ts s = s)
      by (apply sendMessage_rejected; rewrite H; apply orb_true_r).
    rewrite E. repeat split. unfold interaction. now rewrite H.
  - intros s R. apply reachable_inv in R. unfold in_flight_inv in R.
    destruct (isTyping s); destruct (pending s); cbn in R; try discriminate;
      (split; [cbn; lia | split; congruence]).
Qed.

(** ** What a settled request does *)

Lemma resumed_success d a session ts s :
  let s' := sendMessage_resumed (Returned (JsonFields d (Some a) session)) ts s in
  messageHistory s' = messageHistory s ++ [mkMessage a Assistant ts]
  /\ sessionId s' = token_after session (sessionId s)
  /\ isTyping s' = false
  /\ fetches s' = fetches s
  /\ console s' = console s
  /\ errorToast_display (dom s') = errorToast_display (dom s)
  /\ messageInput_value (dom s') = messageInput_value (dom s).
Proof.
  destruct session as [t|]; [destruct (truthy t) eqn:Et|];
    cbn [sendMessage_resumed token_after]; try rewrite Et;
    repeat split; reflexivity.
Qed.

Lemma resumed_failure e s :
  let s' := sendMessage_catch e s in
  messageHistory s' = messageHistory s
  /\ sessionId s' = sessionId s
  /\ isTyping s' = false
  /\ fetches s' = fetches s
  /\ console s' = console s ++ [mkConsoleEntry (js "Chat error:") e]
  /\ errorToast_display (dom s') = js "block"
  /\ errorMessage_textContent (dom s')
     = js "Failed to get response. Please try again."
  /\ timers s' = timers s ++ [mkTimer 5000 HideError]
  /\ messageInput_value (dom s') = messageInput_value (dom s).
Proof. repeat split; reflexivity. Qed.

Lemma startNewChat_fields now suffix s :
  let s' := startNewChat now suffix s in
  messageHistory s' = []
  /\ chatMessages_children (dom s') = []
  /\ sessionId s' = Some (js "session_" ++ dec now ++ js "_" ++ suffix)
  /\ messageInput_value (dom s') = []
  /\ sendBtn_disabled (dom s') = true
  /\ isTyping s' = isTyping s
  /\ pending s' = pending s
  /\ fetches s' = fetches s
  /\ errorToast_display (dom s') = errorToast_display (dom s).
Proof. repeat split; reflexivity. Qed.

Lemma settle_step i r ts s rq :
  nth_error (pending s) i = Some rq ->
  step (FetchSettled i r ts) s
  = Some (sendMessage_resumed (sendToAPI_settled r) ts
            (set_pending (remove_nth i (pending s)) s)).
Proof. intros H. cbn [step]. now rewrite H. Qed.

Lemma settled_success status d a session :
  ok status = true ->
  sendToAPI_settled (Response status (JsonFields d (Some a) session))
  = Returned (JsonFields d (Some a) session).
Proof. intros H. cbn [sendToAPI_settled]. now rewrite H. Qed.

Lemma settled_detail status d a session :
  ok status = false -> truthy d = true ->
  sendToAPI_settled (Response status (JsonFields (Some d) a session))
  = Thrown (ErrorMsg d).
Proof. intros H Hd. cbn [sendToAPI_settled]. now rewrite H, Hd. Qed.

Lemma settle_success i status d a session ts s rq :
  nth_error (pending s) i = Some rq ->
  ok status = true ->
  exists s',
    step (FetchSettled i (Response status (JsonFields d (Some a) session)) ts) s
    = Some s'
    /\ messageHistory s' = messageHistory s ++ [mkMessage a Assistant ts]
    /\ sessionId s' = token_after session (sessionId s)
    /\ isTyping s' = false
    /\ fetches s' = fetches s
    /\ console s' = console s
    /\ errorToast_display (dom s') = errorToast_display (dom s)
    /\ messageInput_value (dom s') = messageInput_value (dom s).
Proof.
  intros Hp Hok. eexists. split.
  { erewrite settle_step by exact Hp.
    rewrite settled_success by exact Hok. reflexivity. }
  apply (resumed_success d a session ts
           (set_pending (remove_nth i (pending s)) s)).
Qed.

(** C2, as the program behaves.  A response that arrives after a new chat
    is applied to the new session: on success its answer becomes the only
    message of the emptied transcript, and a nonempty [session_id] in it
    replaces the token that the new chat generated (an absent or empty
    one leaves that token in place). *)
Theorem C2_stale_response_is_applied :
  forall s now suffix i rq status d a session ts,
    nth_error (pending s) i = Some rq ->
    ok status = true ->
    exists s',
      step (FetchSettled i (Response status (JsonFields d (Some a) session)) ts)
           (startNewChat now suffix s) = Some s'
      /\ messageHistory (startNewChat now suffix s) = []
      /\ messageHistory s' = [mkMessage a Assistant ts]
      /\ sessionId s'
         = token_after session
             (Some (js "session_" ++ dec now ++ js "_" ++ suffix)).
Proof.
  intros s now suffix i rq status d a session ts Hp Hok.
  pose proof (startNewChat_fields now suffix s) as F. cbn zeta in F.
  remember (startNewChat now suffix s) as n eqn:En. clear En.
  destruct F as (Hh & _ & Hs & _ & _ & _ & Hpe & _).
  rewrite <- Hpe in Hp.
  destruct (settle_success i status d a session ts n rq Hp Hok)
    as (s' & St & E1 & E2 & _).
  exists s'. rewrite E1, E2, Hh, Hs. repeat split. exact St.
Qed.

(** C3, as the program behaves.  The controller compares no length with
    1000: when no request is in flight, an input whose trimmed text is
    longer than 1000 characters is sent like any other, the whole trimmed
    text being stored as the user message and carried by the request,
    neither truncated nor clipped. *)
Theorem C3_over_length_input_is_sent :
  forall ts s,
    (1000 < List.length (trim (messageInput_value (dom s))))%nat ->
    isTyping s = false ->
    messageHistory (sendMessage ts s)
    = messageHistory s ++ [mkMessage (trim (messageInput_value (dom s))) User ts]
    /\ fetches (sendMessage ts s)
       = fetches s ++ [mkRequest (trim (messageInput_value (dom s))) (sessionId s)].
Proof.
  intros ts s Hlen Hi.
  assert (Ht : truthy (trim (messageInput_value (dom s))) = true).
  { destruct (trim (messageInput_value (dom s))); [cbn in Hlen; lia | reflexivity]. }
  destruct (sendMessage_accepted ts s Ht Hi) as (_ & E1 & E2 & _).
  split; assumption.
Qed.

Lemma settle_failure i r e ts s rq :
  nth_error (pending s) i = Some rq ->
  sendToAPI_settled r = Thrown e ->
  exists s',
    step (FetchSettled i r ts) s = Some s'
    /\ messageHistory s' = messageHistory s
    /\ sessionId s' = sessionId s
    /\ isTyping s' = false
    /\ console s' = console s ++ [mkConsoleEntry (js "Chat error:") e]
    /\ errorToast_display (dom s') = js "block"
    /\ errorMessage_textContent (dom s')
       = js "Failed to get response. Please try again."
    /\ timers s' = timers s ++ [mkTimer 5000 HideError]
    /\ messageInput_value (dom s') = messageInput_value (dom s).
Proof.
  intros Hp Hr. eexists. split.
  { erewrite settle_step by exact Hp. rewrite Hr. reflexivity. }
  repeat split; reflexivity.
Qed.

Lemma hide_error_timeout n s :
  nth_error (timers s) n = Some (mkTimer 5000 HideError) ->
  exists s',
    step (TimerFired n) s = Some s'
    /\ errorToast_display (dom s') = js "none"
    /\ messageHistory s' = messageHistory s
    /\ isTyping s' = isTyping s
    /\ messageInput_value (dom s') = messageInput_value (dom s).
Proof.
  intros H. eexists. split.
  { cbn [step]. rewrite H. reflexivity. }
  repeat split; reflexivity.
Qed.

Lemma interaction_idle s :
  isTyping s = false ->
  errorToast_display (dom s) = js "none" ->
  trim (messageInput_value (dom s)) = [] ->
  interaction s = Idle.
Proof. intros E1 E2 E3. unfold interaction. now rewrite E1, E2, E3. Qed.

(** C4, as the program behaves.  When the call settles with a status
    outside 200-299 and a body whose [detail] is a nonempty string (such as
    [{"detail":"index unavailable"}]), the toast is shown with the fixed text
    "Failed to get response. Please try again."; the detail goes to the
    console only.  The transcript and the token are unchanged, and a
    timeout of 5000 ms is set whose callback hides the toast; with a blank
    input the state is then [Idle]. *)
Theorem C4_failure_shows_generic_message :
  forall s i rq status d a session ts,
    nth_error (pending s) i = Some rq ->
    ok status = false ->
    truthy d = true ->
    trim (messageInput_value (dom s)) = [] ->
    exists s',
      step (FetchSettled i (Response status (JsonFields (Some d) a session)) ts) s
      = Some s'
      /\ interaction s' = Errored
      /\ errorMessage_textContent (dom s')
         = js "Failed to get response. Please try again."
      /\ console s' = console s ++ [mkConsoleEntry (js "Chat error:") (ErrorMsg d)]
      /\ messageHistory s' = messageHistory s
      /\ sessionId s' = sessionId s
      /\ nth_error (timers s') (List.length (timers s))
         = Some (mkTimer 5000 HideError)
      /\ exists s'',
           step (TimerFired (List.length (timers s))) s' = Some s''
           /\ errorToast_display (dom s'') = js "none"
           /\ messageHistory s'' = messageHistory s
           /\ interaction s'' = Idle.
Proof.
  intros s i rq status d a session ts Hp Hok Hd Hblank.
  destruct (settle_failure i _ (ErrorMsg d) ts s rq Hp
              (settled_detail status d a session Hok Hd))
    as (s' & St & E1 & E2 & E3 & E5 & E6 & E7 & E8 & E9).
  assert (Hn : nth_error (timers s') (List.length (timers s))
               = Some (mkTimer 5000 HideError)).
  { rewrite E8, nth_error_app2 by lia. now rewrite Nat.sub_diag. }
  exists s'. split; [exact St|].
  split; [unfold interaction; rewrite E3, E6; reflexivity|].
  repeat (split; [assumption|]).
  destruct (hide_error_timeout _ s' Hn) as (s'' & St' & T1 & T2 & T3 & T4).
  exists s''. split; [exact St'|]. split; [exact T1|].
  split; [congruence|].
  apply interaction_idle; [congruence | exact T1 | congruence].
Qed.

(** ** The token carried by requests *)

Lemma same_token_refl s s' :
  sessionId s' = sessionId s -> fetches s' = fetches s ->
  same_token_since s s'.
Proof.
  intros E1 E2. split; [exact E1|]. exists []. rewrite app_nil_r. now split.
Qed.

Lemma same_token_trans a b c :
  same_token_since a b -> same_token_since b c -> same_token_since a c.
Proof.
  intros (E1 & n1 & F1 & A1) (E2 & n2 & F2 & A2). split; [congruence|].
  exists (n1 ++ n2). split.
  - rewrite F2, F1. now rewrite app_assoc.
  - apply Forall_app. split; [exact A1|]. now rewrite <- E1.
Qed.

Lemma sendMessage_same_token ts s : same_token_since s (sendMessage ts s).
Proof.
  destruct (truthy (trim (messageInput_value (dom s)))) eqn:Ht;
    destruct (isTyping s) eqn:Hi.
  - rewrite sendMessage_rejected by (rewrite Hi; apply orb_true_r).
    now apply same_token_refl.
  - destruct (sendMessage_accepted ts s Ht Hi) as (_ & _ & E1 & _ & E2 & _).
    split; [exact E2|]. eexists. split; [exact E1|].
    constructor; [reflexivity | constructor].
  - rewrite sendMessage_rejected by (rewrite Hi; apply orb_true_r).
    now apply same_token_refl.
  - rewrite sendMessage_rejected by (now rewrite Ht).
    now apply same_token_refl.
Qed.

Lemma resumed_same_token r ts s :
  adopts r = false ->
  same_token_since s (sendMessage_resumed (sendToAPI_settled r) ts s).
Proof.
  unfold adopts. intros H.
  destruct (sendToAPI_settled r) as [[| |d [a|] session]|e];
    try (apply same_token_refl; reflexivity).
  destruct (resumed_success d a session ts s) as (_ & E2 & _ & E4 & _).
  apply same_token_refl; [|exact E4]. rewrite E2.
  destruct session as [t|]; cbn [token_after]; [|reflexivity].
  now rewrite H.
Qed.

Lemma step_same_token e s s' :
  keeps_token e = true -> step e s = Some s' -> same_token_since s s'.
Proof.
  intros K E. destruct e; cbn [step keeps_token] in *; try discriminate.
  - injection E as <-. apply sendMessage_same_token.
  - injection E as <-. apply same_token_refl; reflexivity.
  - injection E as <-. unfold askSampleQuestion.
    eapply same_token_trans; [|apply sendMessage_same_token].
    apply same_token_refl; reflexivity.
  - destruct (nth_error (pending s) i); [|discriminate].
    injection E as <-.
    eapply same_token_trans; [|apply resumed_same_token].
    + apply same_token_refl; reflexivity.
    + now apply negb_true_iff.
  - destruct (nth_error (timers s) i) as [[dl [|]]|]; [| |discriminate];
      injection E as <-; apply same_token_refl; reflexivity.
  - injection E as <-. apply same_token_refl; reflexivity.
  - injection E as <-. apply same_token_refl; reflexivity.
  - injection E as <-. apply same_token_refl; reflexivity.
Qed.

Lemma run_same_token evs : forall s s',
  forallb keeps_token evs = true -> run evs s = Some s' ->
  same_token_since s s'.
Proof.
  induction evs as [|e evs IH]; intros s s' K E; cbn in *.
  - injection E as <-. now apply same_token_refl.
  - apply andb_true_iff in K as [K1 K2].
    destruct (step e s) as [s1|] eqn:E1; [|discriminate].
    eapply same_token_trans; [eapply step_same_token; eauto|].
    now apply IH.
Qed.

(** C5. A successful response with a nonempty [session_id] makes that the
    token; one whose [session_id] is absent or empty leaves the token as
    it was.  From then on, until a new chat or another adopted response,
    the token stays and every request made carries it. *)
Theorem C5_token_adoption :
  forall s i status d a session ts s',
    ok status = true ->
    step (FetchSettled i (Response status (JsonFields d (Some a) session)) ts) s
    = Some s' ->
    (forall t, session = Some t -> truthy t = true -> sessionId s' = Some t)
    /\ (session = None \/ session = Some [] -> sessionId s' = sessionId s)
    /\ (forall evs s'',
          forallb keeps_token evs = true ->
          run evs s' = Some s'' ->
          sessionId s'' = sessionId s'
          /\ exists new,
               fetches s'' = fetches s' ++ new
               /\ Forall (fun r => session_id r = sessionId s') new).
Proof.
  intros s i status d a session ts s' Hok E.
  destruct (nth_error (pending s) i) as [rq|] eqn:Hp;
    [|cbn [step] in E; rewrite Hp in E; discriminate].
  destruct (settle_success i status d a session ts s rq Hp Hok)
    as (s0 & St & _ & E2 & _).
  rewrite St in E. injection E as <-.
  split; [|split].
  - intros t -> Ht. rewrite E2. cbn [token_after]. now rewrite Ht.
  - intros [-> | ->]; rewrite E2; reflexivity.
  - intros evs s'' K R. exact (run_same_token evs _ _ K R).
Qed.

(** ** Trimming *)

Lemma trim_start_split s :
  exists l, s = l ++ trim_start s /\ forallb is_white_space l = true.
Proof.
  induction s as [|c s (l & E & W)]; [now exists []|].
  cbn [trim_start]. destruct (is_white_space c) eqn:Ec.
  - exists (c :: l). cbn. rewrite Ec, W. split; [now f_equal | reflexivity].
  - now exists [].
Qed.

Lemma trim_start_head s c t :
  trim_start s = c :: t -> is_white_space c = false.
Proof.
  induction s as [|x s IH]; cbn [trim_start]; [discriminate|].
  destruct (is_white_space x) eqn:Ex; [exact IH|].
  intros H. injection H as -> _. exact Ex.
Qed.

Lemma forallb_rev {A} (f : A -> bool) l :
  forallb f l = true -> forallb f (rev l) = true.
Proof.
  rewrite !forallb_forall. intros H x Hx. apply H. now apply in_rev.
Qed.

Lemma trim_end_split s :
  exists r, s = trim_end s ++ r /\ forallb is_white_space r = true.
Proof.
  destruct (trim_start_split (rev s)) as (l & E & W).
  exists (rev l). split; [|now apply forallb_rev].
  unfold trim_end. rewrite <- rev_app_distr, <- E. now rewrite rev_involutive.
Qed.

Lemma trim_end_last s t c :
  trim_end s = t ++ [c] -> is_white_space c = false.
Proof.
  unfold trim_end. intros H.
  apply (f_equal (@rev N)) in H.
  rewrite rev_involutive, rev_app_distr in H. cbn in H.
  eapply trim_start_head; exact H.
Qed.

Lemma trim_split v :
  exists l r, v = l ++ trim v ++ r
              /\ forallb is_white_space l = true
              /\ forallb is_white_space r = true.
Proof.
  destruct (trim_start_split v) as (l & E1 & W1).
  destruct (trim_end_split (trim_start v)) as (r & E2 & W2).
  exists l, r. unfold trim. now rewrite <- E2.
Qed.

Lemma trim_head v c t : trim v = c :: t -> is_white_space c = false.
Proof.
  intros H. destruct (trim_end_split (trim_start v)) as (r & E & _).
  fold (trim v) in E. rewrite H in E. cbn in E.
  eapply trim_start_head; exact E.
Qed.

Lemma truthy_nonempty (x : jsstring) : x <> [] -> truthy x = true.
Proof. destruct x; [congruence | reflexivity]. Qed.

(** C6. The text taken from the input is the input without its leading
    and trailing white space, the characters in between being kept as
    they are.  When that text is empty nothing is sent; otherwise it is
    the text of the stored user message and the [question] of the
    request.  The input ["  Hello  "] gives ["Hello"]. *)
Theorem C6_trimmed_text_stored_and_sent :
  forall ts s,
    let v := messageInput_value (dom s) in
    (exists l r, v = l ++ trim v ++ r
                 /\ forallb is_white_space l = true
                 /\ forallb is_white_space r = true)
    /\ (forall c t, trim v = c :: t -> is_white_space c = false)
    /\ (forall t c, trim v = t ++ [c] -> is_white_space c = false)
    /\ (trim v = [] -> sendMessage ts s = s)
    /\ (trim v <> [] -> isTyping s = false ->
          messageHistory (sendMessage ts s)
          = messageHistory s ++ [mkMessage (trim v) User ts]
          /\ fetches (sendMessage ts s)
             = fetches s ++ [mkRequest (trim v) (sessionId s)]
          /\ request_json (mkRequest (trim v) (sessionId s))
             = JObject [(js "question", JString (trim v));
                        (js "session_id",
                         match sessionId s with
                         | Some t => JString t
                         | None => JNull
                         end)])
    /\ trim (js "  Hello  ") = js "Hello".
Proof.
  intros ts s v. split; [apply trim_split|].
  split; [apply trim_head|].
  split; [intros t c; apply trim_end_last|].
  split; [|split; [|reflexivity]].
  - intros E. apply sendMessage_rejected. fold v. now rewrite E.
  - intros Hne Hi.
    destruct (sendMessage_accepted ts s (truthy_nonempty _ Hne) Hi)
      as (_ & E1 & E2 & _).
    repeat split; assumption.
Qed.

(** ** New chat *)

(** The state that [startNewChat] produces, field by field. *)
Lemma startNewChat_state now suffix s :
  startNewChat now suffix s
  = mkChatBot (Some (js "session_" ++ dec now ++ js "_" ++ suffix))
      (isTyping s) []
      (mkDom (js "flex") (js "none") [] []
         (dec (N.min (scrollHeight []) 120) ++ js "px") true
         (typingIndicator_display (dom s)) (js "none")
         (errorToast_display (dom s)) (errorMessage_textContent (dom s))
         (js "0/1000") (js "var(--text-light)") (body_children (dom s)))
      (timers s) (fetches s) (pending s) (console s).
Proof. reflexivity. Qed.

Lemma startNewChat_absorbs now1 suffix1 now2 suffix2 s :
  startNewChat now2 suffix2 (startNewChat now1 suffix1 s)
  = startNewChat now2 suffix2 s.
Proof.
  rewrite (startNewChat_state now1 suffix1 s).
  rewrite !startNewChat_state. reflexivity.
Qed.

(** *** Session identifiers are told apart by their two ingredients *)

Lemma uint_units_inj d1 : forall d2, uint_units d1 = uint_units d2 -> d1 = d2.
Proof.
  induction d1; intros d2 H; destruct d2; cbn in H;
    try discriminate H; try reflexivity;
    injection H as H; f_equal; now apply IHd1.
Qed.

Lemma uint_units_no_underscore d : ~ In 95 (uint_units d).
Proof.
  induction d; cbn; now intros [].
Qed.

Lemma dec_units n : dec n = uint_units (N.to_uint n).
Proof.
  unfold dec. destruct n as [|p]; [reflexivity|].
  cbn. destruct (Pos.to_uint p) eqn:E; try reflexivity.
  now apply DecimalPos.Unsigned.to_uint_nonnil in E.
Qed.

Lemma dec_inj n1 n2 : dec n1 = dec n2 -> n1 = n2.
Proof.
  rewrite !dec_units. intros H.
  now apply DecimalN.Unsigned.to_uint_inj, uint_units_inj.
Qed.

Lemma split_at_first (c : N) a : forall b x y,
  ~ In c a -> ~ In c b -> a ++ c :: x = b ++ c :: y -> a = b /\ x = y.
Proof.
  induction a as [|a0 a IH]; intros [|b0 b] x y Ha Hb H; cbn in H.
  - injection H as ->. now split.
  - injection H as <- _. exfalso. apply Hb. now left.
  - injection H as -> _. exfalso. apply Ha. now left.
  - injection H as -> H. destruct (IH b x y) as [-> ->]; auto.
    + intros F. apply Ha. now right.
    + intros F. apply Hb. now right.
Qed.

Lemma session_token_inj now1 suffix1 now2 suffix2 :
  js "session_" ++ dec now1 ++ js "_" ++ suffix1
  = js "session_" ++ dec now2 ++ js "_" ++ suffix2 ->
  now1 = now2 /\ suffix1 = suffix2.
Proof.
  intros H. apply app_inv_head in H.
  change (js "_" ++ suffix1) with (95 :: suffix1) in H.
  change (js "_" ++ suffix2) with (95 :: suffix2) in H.
  apply split_at_first in H as [H1 H2].
  - split; [now apply dec_inj | exact H2].
  - rewrite dec_units. apply uint_units_no_underscore.
  - rewrite dec_units. apply uint_units_no_underscore.
Qed.

Lemma startNewChat_same_but_token now1 suffix1 now2 suffix2 s :
  set_sessionId (sessionId (startNewChat now1 suffix1 s))
    (startNewChat now2 suffix2 (startNewChat now1 suffix1 s))
  = startNewChat now1 suffix1 s.
Proof.
  rewrite (startNewChat_state now1 suffix1 s).
  rewrite !startNewChat_state. reflexivity.
Qed.

(** C7, as the program behaves.  A new chat absorbs the one before it: two
    in a row give the state that the second alone gives, whose token is
    the one generated by the second call; it is the state after the first
    in all but the token, and the two tokens differ as soon as the clock
    or the random suffix does.  The state has an empty
    transcript, no rendered message, an empty input and a disabled send
    button.  [isTyping], the pending request and the error toast are left
    as they were, so the state is [Idle] when no request was in flight and
    no error was shown. *)
Theorem C7_new_chat_absorbs :
  forall s now1 suffix1 now2 suffix2,
    let once := startNewChat now2 suffix2 s in
    let twice := startNewChat now2 suffix2 (startNewChat now1 suffix1 s) in
    twice = once
    /\ set_sessionId (sessionId (startNewChat now1 suffix1 s)) twice
       = startNewChat now1 suffix1 s
    /\ messageHistory once = []
    /\ chatMessages_children (dom once) = []
    /\ sessionId once = Some (js "session_" ++ dec now2 ++ js "_" ++ suffix2)
    /\ messageInput_value (dom once) = []
    /\ sendBtn_disabled (dom once) = true
    /\ isTyping once = isTyping s
    /\ pending once = pending s
    /\ errorToast_display (dom once) = errorToast_display (dom s)
    /\ (isTyping s = false ->
        errorToast_display (dom s) <> js "block" ->
        interaction once = Idle)
    /\ (isTyping s = true -> interaction once = AwaitingResponse)
    /\ (now1 <> now2 \/ suffix1 <> suffix2 ->
        sessionId twice <> sessionId (startNewChat now1 suffix1 s)).
Proof.
  intros s now1 suffix1 now2 suffix2 once twice.
  destruct (startNewChat_fields now2 suffix2 s)
    as (E1 & E2 & E3 & E4 & E5 & E6 & E7 & E8 & E9).
  fold once in E1, E2, E3, E4, E5, E6, E7, E8, E9.
  split; [apply startNewChat_absorbs|].
  split; [apply startNewChat_same_but_token|].
  repeat (split; [assumption|]).
  split.
  - intros Hi He. unfold interaction. rewrite E6, Hi, E9, E4.
    unfold jsstring_eqb.
    destruct (jsstring_eq_dec (errorToast_display (dom s)) (js "block"));
      [contradiction | reflexivity].
  - split; [intros Hi; unfold interaction; now rewrite E6, Hi|].
    intros Hd E. subst twice.
    rewrite startNewChat_absorbs in E. fold once in E. rewrite E3 in E.
    destruct (startNewChat_fields now1 suffix1 s) as (_ & _ & F3 & _).
    rewrite F3 in E.
    assert (E' : js "session_" ++ dec now2 ++ js "_" ++ suffix2
                 = js "session_" ++ dec now1 ++ js "_" ++ suffix1)
      by exact (f_equal (fun o => match o with Some t => t | None => [] end) E).
    apply session_token_inj in E' as [-> ->]. destruct Hd; congruence.
Qed.

(** ** The sample-question shortcut *)

Lemma handleInputChange_counter s :
  exists txt col dis, handleInputChange s = with_counter txt col dis s.
Proof.
  do 3 eexists. destruct s as [? ? ? [] ? ? ? ?]. reflexivity.
Qed.

(** The state right after an accepted send, field by field. *)
Lemma sendMessage_state ts s :
  truthy (trim (messageInput_value (dom s))) = true ->
  isTyping s = false ->
  let m := trim (messageInput_value (dom s)) in
  let shown := jsstring_eqb (chatInterface_display (dom s)) (js "none") in
  sendMessage ts s
  = mkChatBot (sessionId s) true (messageHistory s ++ [mkMessage m User ts])
      (mkDom
         (if shown then js "none" else welcomeScreen_display (dom s))
         (if shown then js "flex" else chatInterface_display (dom s))
         (chatMessages_children (dom s)
          ++ [mkMessageDiv (js "message " ++ sender_name User ++ js " fade-in")
                           (message_html m User ts)])
         []
         (dec (N.min (scrollHeight []) 120) ++ js "px") true
         (js "block") (loadingOverlay_display (dom s))
         (errorToast_display (dom s)) (errorMessage_textContent (dom s))
         (js "0/1000") (js "var(--text-light)") (body_children (dom s)))
      ((timers s ++ [mkTimer 100 ScrollChat]) ++ [mkTimer 100 ScrollChat])
      (fetches s ++ [mkRequest m (sessionId s)])
      (pending s ++ [mkRequest m (sessionId s)])
      (console s).
Proof.
  intros Ht Hi m shown. subst m shown.
  rewrite sendMessage_unfold by assumption.
  destruct (jsstring_eqb (chatInterface_display (dom s)) (js "none"));
    reflexivity.
Qed.

(** An accepted send rewrites the counter, the button and the height, so
    their values before it do not matter. *)
Lemma sendMessage_overrides ts txt col dis h s :
  truthy (trim (messageInput_value (dom s))) = true ->
  isTyping s = false ->
  sendMessage ts (with_dom (set_messageInput_height h) (with_counter txt col dis s))
  = sendMessage ts s.
Proof.
  intros Ht Hi.
  rewrite (sendMessage_state ts s Ht Hi).
  rewrite sendMessage_state by assumption.
  reflexivity.
Qed.

Lemma with_height_same s :
  with_dom (set_messageInput_height (messageInput_height (dom s))) s = s.
Proof. destruct s as [? ? ? [] ? ? ? ?]. reflexivity. Qed.

Lemma with_counter_same s :
  with_counter (charCounter_textContent (dom s)) (charCounter_color (dom s))
               (sendBtn_disabled (dom s)) s = s.
Proof. destruct s as [? ? ? [] ? ? ? ?]. reflexivity. Qed.

(** The three ways of filling the textarea with [v] before a send. *)
Lemma sample_send_compared v ts s :
  let sample := sendMessage ts
                  (handleInputChange (with_dom (set_messageInput_value v) s)) in
  let populated := sendMessage ts (with_dom (set_messageInput_value v) s) in
  let typed := sendMessage ts (onInput v s) in
  (truthy (trim v) = true -> isTyping s = false ->
     sample = populated /\ sample = typed)
  /\ same_but_counter populated sample
  /\ same_but_height sample typed
  /\ messageHistory sample = messageHistory populated
  /\ fetches sample = fetches populated
  /\ pending sample = pending populated
  /\ sessionId sample = sessionId populated
  /\ isTyping sample = isTyping populated.
Proof.
  intros sample populated typed. subst sample populated typed.
  set (x := with_dom (set_messageInput_value v) s).
  assert (Hv : messageInput_value (dom x) = v) by reflexivity.
  assert (Hx : isTyping x = isTyping s) by reflexivity.
  destruct (handleInputChange_counter x) as (txt & col & dis & Hc).
  assert (Hacc : truthy (trim v) = true -> isTyping s = false ->
                 sendMessage ts (handleInputChange x) = sendMessage ts x
                 /\ sendMessage ts (handleInputChange x)
                    = sendMessage ts (onInput v s)).
  { intros Ht Hi. unfold onInput.
    fold x. cbn beta zeta. rewrite Hc. split.
    - rewrite <- (with_height_same (with_counter txt col dis x)).
      apply sendMessage_overrides; [now rewrite Hv | now rewrite Hx].
    - unfold autoResize. cbn beta zeta.
      set (y := with_counter txt col dis x).
      transitivity (sendMessage ts x).
      + subst y. rewrite <- (with_height_same (with_counter txt col dis x)).
        apply sendMessage_overrides; [now rewrite Hv | now rewrite Hx].
      + symmetry.
        match goal with
        | |- sendMessage ts (with_dom (set_messageInput_height ?h) ?z) = _ =>
            replace z with (with_dom (set_messageInput_height (js "auto")) y)
              by reflexivity;
            replace (with_dom (set_messageInput_height h)
                       (with_dom (set_messageInput_height (js "auto")) y))
              with (with_dom (set_messageInput_height h) y)
              by (destruct y as [? ? ? [] ? ? ? ?]; reflexivity)
        end.
        subst y. apply sendMessage_overrides; [now rewrite Hv | now rewrite Hx].
  }
  split; [exact Hacc|].
  destruct (truthy (trim v)) eqn:Ht; destruct (isTyping s) eqn:Hi;
    try (destruct (Hacc eq_refl eq_refl) as [E1 E2]; rewrite <- E1, <- E2;
         unfold same_but_counter, same_but_height;
         rewrite with_counter_same, with_height_same;
         repeat split; reflexivity).
  all: assert (R1 : sendMessage ts x = x)
         by (apply sendMessage_rejected; rewrite Hv, Hx, Ht; reflexivity).
  all: assert (R2 : sendMessage ts (handleInputChange x) = handleInputChange x)
         by (apply sendMessage_rejected;
             change (messageInput_value (dom (handleInputChange x)))
               with (messageInput_value (dom x));
             change (isTyping (handleInputChange x)) with (isTyping x);
             rewrite Hv, Hx, Ht; reflexivity).
  all: assert (R3 : sendMessage ts (onInput v s)
                    = autoResize (handleInputChange x))
         by (unfold onInput; fold x; cbn beta zeta;
             apply sendMessage_rejected;
             change (messageInput_value (dom (autoResize (handleInputChange x))))
               with (messageInput_value (dom x));
             change (isTyping (autoResize (handleInputChange x)))
               with (isTyping x);
             rewrite Hv, Hx, Ht; reflexivity).
  all: rewrite R1, R2, R3.
  all: split; [unfold same_but_counter; rewrite Hc;
               destruct x as [? ? ? [] ? ? ? ?]; reflexivity|].
  all: split; [unfold same_but_height, autoResize; cbn beta zeta;
               destruct (handleInputChange x) as [? ? ? [] ? ? ? ?];
               reflexivity|].
  all: rewrite Hc; repeat split; reflexivity.
Qed.


(** C8, as the program behaves.  [askSampleQuestion(q)] against the input
    being populated with [q] and the ordinary send being run.  When the
    send is accepted - [q] has a character that is not white space and no
    request is in flight - the two end in the same state, with the same
    message appended and the same request made; this also holds against
    the text being typed.  When the send is rejected neither appends or
    requests anything, and the states differ at most in the character
    counter and send button, which the shortcut refreshes (against typing:
    in the height of the textarea, which the shortcut leaves). *)
Theorem C8_sample_question_is_ordinary_send :
  forall q ts s,
    (truthy (trim (normalize_newlines q)) = true -> isTyping s = false ->
       askSampleQuestion q ts s = populate_and_send q ts s
       /\ askSampleQuestion q ts s = type_and_send q ts s)
    /\ same_but_counter (populate_and_send q ts s) (askSampleQuestion q ts s)
    /\ same_but_height (askSampleQuestion q ts s) (type_and_send q ts s)
    /\ messageHistory (askSampleQuestion q ts s)
       = messageHistory (populate_and_send q ts s)
    /\ fetches (askSampleQuestion q ts s) = fetches (populate_and_send q ts s)
    /\ pending (askSampleQuestion q ts s) = pending (populate_and_send q ts s)
    /\ sessionId (askSampleQuestion q ts s)
       = sessionId (populate_and_send q ts s)
    /\ isTyping (askSampleQuestion q ts s)
       = isTyping (populate_and_send q ts s)
    /\ (truthy (trim (normalize_newlines q)) = false \/ isTyping s = true ->
        messageHistory (askSampleQuestion q ts s) = messageHistory s
        /\ fetches (askSampleQuestion q ts s) = fetches s
        /\ messageInput_value (dom (askSampleQuestion q ts s))
           = normalize_newlines q).
Proof.
  intros q ts s.
  destruct (sample_send_compared (normalize_newlines q) ts s)
    as (A & B & C & D & E & F & G & H).
  repeat (split; [assumption|]).
  intros R.
  assert (E0 : askSampleQuestion q ts s
               = handleInputChange
                   (with_dom (set_messageInput_value (normalize_newlines q)) s)).
  { unfold askSampleQuestion. apply sendMessage_rejected.
    change (messageInput_value
              (dom (handleInputChange
                      (with_dom (set_messageInput_value (normalize_newlines q))
                         s))))
      with (normalize_newlines q).
    change (isTyping (handleInputChange
                        (with_dom (set_messageInput_value (normalize_newlines q))
                           s)))
      with (isTyping s).
    destruct R as [-> | ->]; [reflexivity | apply orb_true_r]. }
  rewrite E0. repeat split.
Qed.

(** ** Export *)

Lemma exportChatHistory_state iso url s :
  snd (exportChatHistory iso url s) = s.
Proof.
  unfold exportChatHistory. cbn [snd].
  destruct s as [? ? ? [] ? ? ? ?].
  unfold with_dom, set_body_children. cbn.
  now rewrite removelast_last.
Qed.

Lemma sender_name_inj a b : sender_name a = sender_name b -> a = b.
Proof. destruct a, b; intros H; try reflexivity; discriminate H. Qed.

Lemma message_json_inj a b : message_json a = message_json b -> a = b.
Proof.
  destruct a as [t1 r1 s1], b as [t2 r2 s2]. unfold message_json. cbn.
  intros H. injection H as H1 H2 H3.
  apply sender_name_inj in H2. now subst.
Qed.

Lemma map_message_json_inj l1 : forall l2,
  map message_json l1 = map message_json l2 -> l1 = l2.
Proof.
  induction l1 as [|a l1 IH]; intros [|b l2] H; cbn [map] in H;
    try discriminate; [reflexivity|].
  remember (message_json a) as ja eqn:Ea.
  remember (message_json b) as jb eqn:Eb.
  injection H as H1 H2. subst ja jb.
  apply message_json_inj in H1. apply IH in H2. now subst.
Qed.

(** *** The exported text read back *)

(** A [\uXXXX] escape denotes the code unit it was made from. *)
Lemma hex_digit_value d : d < 16 -> hex_value (hex_digit d) = Some d.
Proof.
  intros H. unfold hex_digit, hex_value.
  destruct (N.ltb_spec d 10).
  - replace ((48 <=? 48 + d) && (48 + d <=? 57)) with true.
    + f_equal. lia.
    + symmetry. apply andb_true_iff. split; apply N.leb_le; lia.
  - replace ((48 <=? 87 + d) && (87 + d <=? 57)) with false.
    + replace ((97 <=? 87 + d) && (87 + d <=? 102)) with true.
      * f_equal. lia.
      * symmetry. apply andb_true_iff. split; apply N.leb_le; lia.
    + symmetry. apply andb_false_iff. right. apply N.leb_gt. lia.
Qed.

Lemma hex4_escape c :
  c < 65536 ->
  hex4 (hex_digit ((c / 4096) mod 16)) (hex_digit ((c / 256) mod 16))
       (hex_digit ((c / 16) mod 16)) (hex_digit (c mod 16)) = Some c.
Proof.
  intros H. unfold hex4.
  rewrite !hex_digit_value by (apply N.mod_lt; discriminate).
  f_equal.
  pose proof (N.div_mod c 16 ltac:(discriminate)).
  pose proof (N.div_mod (c / 16) 16 ltac:(discriminate)).
  pose proof (N.div_mod (c / 16 / 16) 16 ltac:(discriminate)).
  rewrite N.Div0.div_div in *. change (16 * 16) with 256 in *.
  rewrite N.Div0.div_div in *. change (256 * 16) with 4096 in *.
  assert (c / 4096 < 16) by (apply N.Div0.div_lt_upper_bound; exact H).
  rewrite (N.mod_small (c / 4096) 16) in * by assumption.
  lia.
Qed.

Lemma parse_units_escape c t :
  c < 65536 -> c <> 34 -> c <> 92 ->
  parse_units (unicode_escape c ++ t)
  = match parse_units t with
    | Some (us, rest) => Some (c :: us, rest)
    | None => None
    end.
Proof.
  intros H _ _. unfold unicode_escape.
  cbn [app parse_units].
  change (92 =? 34) with false. change (92 =? 92) with true.
  change (117 =? 117) with true. cbv iota.
  rewrite hex4_escape by exact H. reflexivity.
Qed.

Lemma parse_units_literal c t :
  c <> 34 -> c <> 92 -> 32 <= c ->
  parse_units (c :: t)
  = match parse_units t with
    | Some (us, rest) => Some (c :: us, rest)
    | None => None
    end.
Proof.
  intros H1 H2 H3. cbn [parse_units].
  apply N.eqb_neq in H1, H2. rewrite H1, H2.
  replace (c <? 32) with false by (symmetry; apply N.ltb_ge; exact H3).
  reflexivity.
Qed.

Lemma surrogate_range c :
  is_high_surrogate c || is_low_surrogate c = true -> 55296 <= c < 57344.
Proof.
  unfold is_high_surrogate, is_low_surrogate. intros H.
  apply orb_true_iff in H as [H|H]; apply andb_true_iff in H as [H1 H2];
    apply N.leb_le in H1, H2; lia.
Qed.

(** Reading undoes the escape of one code unit. *)
Lemma parse_units_unit c t :
  parse_units (quote_unit c ++ t)
  = match parse_units t with
    | Some (us, rest) => Some (c :: us, rest)
    | None => None
    end.
Proof.
  unfold quote_unit.
  destruct (N.eqb_spec c 8) as [->|N8]; [reflexivity|].
  destruct (N.eqb_spec c 9) as [->|N9]; [reflexivity|].
  destruct (N.eqb_spec c 10) as [->|N10]; [reflexivity|].
  destruct (N.eqb_spec c 12) as [->|N12]; [reflexivity|].
  destruct (N.eqb_spec c 13) as [->|N13]; [reflexivity|].
  destruct (N.eqb_spec c 34) as [->|N34]; [reflexivity|].
  destruct (N.eqb_spec c 92) as [->|N92]; [reflexivity|].
  destruct (N.ltb_spec c 32) as [L|L]; cbn [orb].
  - apply parse_units_escape; [lia | assumption | assumption].
  - destruct (is_high_surrogate c || is_low_surrogate c) eqn:S.
    + apply surrogate_range in S.
      apply parse_units_escape; [lia | assumption | assumption].
    + now apply parse_units_literal.
Qed.

(** Reading undoes [quote]: the characters of any string come back, lone
    surrogates and control characters included. *)
Lemma parse_units_quote : forall s rest,
  parse_units (quote_units s ++ 34 :: rest) = Some (s, rest).
Proof.
  intros s. remember (List.length s) as n eqn:Hn. revert s Hn.
  induction n as [n IH] using lt_wf_ind. intros s Hn rest.
  destruct s as [|c r]; [reflexivity|].
  assert (U : parse_units ((quote_unit c ++ quote_units r) ++ 34 :: rest)
              = Some (c :: r, rest)).
  { rewrite <- app_assoc, parse_units_unit.
    rewrite (IH (List.length r)); [reflexivity | subst n; cbn; lia | reflexivity]. }
  cbn [quote_units].
  destruct (is_high_surrogate c) eqn:Hc; [|exact U].
  destruct r as [|l r'].
  - rewrite parse_units_unit. reflexivity.
  - destruct (is_low_surrogate l) eqn:Hl; [|exact U].
    assert (Rc : 55296 <= c < 57344)
      by (apply surrogate_range; rewrite Hc; reflexivity).
    assert (Rl : 55296 <= l < 57344)
      by (apply surrogate_range; rewrite Hl; apply orb_true_r).
    change ((c :: l :: quote_units r') ++ 34 :: rest)
      with (c :: l :: (quote_units r' ++ 34 :: rest)).
    rewrite parse_units_literal by lia.
    rewrite parse_units_literal by lia.
    rewrite (IH (List.length r')); [reflexivity | subst n; cbn; lia | reflexivity].
Qed.

Lemma parse_value_skip f c s :
  is_json_space c = true -> parse_value f (c :: s) = parse_value f s.
Proof.
  intros H. destruct f; [reflexivity|].
  cbn [parse_value skip_space]. now rewrite H.
Qed.

Lemma parse_members_skip f c s :
  is_json_space c = true -> parse_members f (c :: s) = parse_members f s.
Proof.
  intros H. destruct f; [reflexivity|].
  cbn [parse_members skip_space]. now rewrite H.
Qed.

Lemma parse_value_string f s rest :
  parse_value (S f) (quote s ++ rest) = Some (JString s, rest).
Proof.
  unfold quote. rewrite <- !app_assoc.
  change (dq ++ quote_units s ++ dq ++ rest)
    with (34 :: (quote_units s ++ 34 :: rest)).
  cbn [parse_value skip_space is_json_space].
  change (is_json_space 34) with false. cbv iota.
  change (34 =? 110) with false. change (34 =? 34) with true. cbv iota.
  now rewrite parse_units_quote.
Qed.

Lemma parse_member f k t tail :
  parse_members (S (S f)) (quote k ++ 58 :: 32 :: quote t ++ tail)
  = match skip_space tail with
    | [] => None
    | c :: r' =>
        if c =? 44 then
          match parse_members (S f) r' with
          | Some (ms, rest) => Some ((k, JString t) :: ms, rest)
          | None => None
          end
        else if c =? 125 then Some ([(k, JString t)], r')
        else None
    end.
Proof.
  unfold quote at 1. rewrite <- !app_assoc.
  change (dq ++ quote_units k ++ dq ++ 58 :: 32 :: quote t ++ tail)
    with (34 :: (quote_units k ++ 34 :: 58 :: 32 :: quote t ++ tail)).
  cbn [parse_members skip_space].
  change (is_json_space 34) with false. cbv iota.
  change (34 =? 34) with true. cbv iota.
  rewrite parse_units_quote.
  cbn [skip_space]. change (is_json_space 58) with false. cbv iota.
  change (58 =? 58) with true. cbv iota.
  rewrite parse_value_skip by reflexivity.
  rewrite parse_value_string. reflexivity.
Qed.

Lemma skip_space_cons c s :
  is_json_space c = true -> skip_space (c :: s) = skip_space s.
Proof. intros H. cbn [skip_space]. now rewrite H. Qed.

Lemma skip_space_quote k x : skip_space (quote k ++ x) = quote k ++ x.
Proof. reflexivity. Qed.

Lemma parse_object f k x :
  parse_value (S f) (123 :: 10 :: 32 :: 32 :: 32 :: 32 :: quote k ++ x)
  = match parse_members f (quote k ++ x) with
    | Some (ms, rest) => Some (JObject ms, rest)
    | None => None
    end.
Proof.
  assert (E : quote k ++ x = 34 :: (quote_units k ++ dq ++ x))
    by (unfold quote; now rewrite <- !app_assoc).
  rewrite E.
  cbn [parse_value skip_space].
  change (is_json_space 123) with false. cbv iota.
  change (123 =? 110) with false. change (123 =? 34) with false.
  change (123 =? 91) with false. change (123 =? 123) with true. cbv iota.
  rewrite !skip_space_cons by reflexivity. cbn [skip_space].
  change (is_json_space 34) with false. cbv iota.
  change (34 =? 125) with false. cbv iota.
  now rewrite !parse_members_skip by reflexivity.
Qed.

(** One entry of the history, as [JSON.stringify(history, null, 2)] lays
    it out, is read back as the object it was made from. *)
Lemma parse_entry f m rest :
  parse_value (S (S (S (S (S f)))))
    (serialize [32; 32] [32; 32] (message_json m) ++ rest)
  = Some (message_json m, rest).
Proof.
  unfold message_json.
  cbn [serialize map wrap fst snd join].
  rewrite <- !app_assoc. cbn [app nl].
  rewrite parse_object.
  rewrite parse_member. cbn [skip_space].
  change (is_json_space 44) with false. cbv iota.
  change (44 =? 44) with true. cbv iota.
  rewrite !parse_members_skip by reflexivity.
  rewrite parse_member. cbn [skip_space].
  change (is_json_space 44) with false. cbv iota.
  change (44 =? 44) with true. cbv iota.
  rewrite !parse_members_skip by reflexivity.
  rewrite parse_member.
  rewrite !skip_space_cons by reflexivity. cbn [skip_space].
  change (is_json_space 125) with false. cbv iota.
  reflexivity.
Qed.

Lemma parse_entries : forall h m rest g,
  parse_elements (S (S (S (S (S (S (List.length h + g)))))))
    (10 :: 32 :: 32
     :: join [44; 10; 32; 32]
          (map (serialize [32; 32] [32; 32]) (map message_json (m :: h)))
     ++ 10 :: 93 :: rest)
  = Some (map message_json (m :: h), rest).
Proof.
  induction h as [|m' h IH]; intros m rest g.
  - cbn [map join List.length Nat.add].
    cbn [parse_elements]. rewrite !parse_value_skip by reflexivity.
    rewrite parse_entry. rewrite skip_space_cons by reflexivity.
    reflexivity.
  - change (join [44; 10; 32; 32]
              (map (serialize [32; 32] [32; 32])
                 (map message_json (m :: m' :: h))))
      with (serialize [32; 32] [32; 32] (message_json m)
            ++ [44; 10; 32; 32]
            ++ join [44; 10; 32; 32]
                 (map (serialize [32; 32] [32; 32])
                    (map message_json (m' :: h)))).
    rewrite <- !app_assoc.
    change (List.length (m' :: h) + g)%nat with (S (List.length h + g)).
    remember (S (S (S (S (S (S (List.length h + g))))))) as fuel eqn:Hf.
    cbn [parse_elements]. rewrite !parse_value_skip by reflexivity.
    rewrite Hf at 1. rewrite parse_entry.
    cbn [app skip_space]. change (is_json_space 44) with false. cbv iota.
    change (44 =? 44) with true. cbv iota.
    rewrite Hf, IH. reflexivity.
Qed.

Lemma join_length sep : forall parts,
  Forall (fun p => (1 <= List.length p)%nat) parts ->
  (List.length parts <= List.length (join sep parts))%nat.
Proof.
  induction parts as [|p ps IH]; intros H; [cbn; lia|].
  inversion H as [|? ? Hp Hps]; subst. specialize (IH Hps).
  destruct ps as [|p' ps']; [cbn; lia|].
  change (join sep (p :: p' :: ps')) with (p ++ sep ++ join sep (p' :: ps')).
  rewrite !length_app. cbn [List.length] in *. lia.
Qed.

(** [JSON.parse] of the exported text gives back the array. *)
Lemma parse_history h :
  parse (stringify_indent2 (JArray (map message_json h)))
  = Some (JArray (map message_json h)).
Proof.
  destruct h as [|m h]; [reflexivity|].
  set (parts := map (serialize [32; 32] [32; 32]) (map message_json (m :: h))).
  assert (E : stringify_indent2 (JArray (map message_json (m :: h)))
              = 91 :: 10 :: 32 :: 32
                :: join [44; 10; 32; 32] parts ++ 10 :: 93 :: []) by reflexivity.
  rewrite E. unfold parse.
  assert (L : Nat.le (S (List.length h))
                (List.length (join [44; 10; 32; 32] parts))).
  { replace (S (List.length h)) with (List.length parts)
      by (unfold parts; now rewrite !length_map).
    apply join_length. unfold parts. apply Forall_forall.
    intros p Hp. apply in_map_iff in Hp as (j & <- & Hj).
    apply in_map_iff in Hj as (m0 & <- & _). cbn. lia. }
  assert (P : exists p q, parts = p :: q
              /\ exists r, p = 123 :: r).
  { unfold parts. cbn [map]. eexists _, _. split; [reflexivity|].
    eexists. reflexivity. }
  remember (List.length
              (91 :: 10 :: 32 :: 32
               :: join [44; 10; 32; 32] parts ++ [10; 93])) as n eqn:Hn.
  assert (F : exists g, n = S (S (S (S (S (S (List.length h + g))))))).
  { exists (n - 6 - List.length h)%nat. rewrite Hn.
    cbn [List.length]. rewrite length_app. cbn [List.length]. lia. }
  destruct F as (g & ->). clear Hn L.
  cbn [parse_value skip_space].
  change (is_json_space 91) with false. cbv iota.
  change (91 =? 110) with false. change (91 =? 34) with false.
  change (91 =? 91) with true. cbv iota.
  rewrite !skip_space_cons by reflexivity.
  assert (K : exists r, skip_space (join [44; 10; 32; 32] parts ++ [10; 93])
                        = 123 :: r).
  { destruct P as (p & q & -> & r & ->).
    destruct q; eexists; reflexivity. }
  destruct K as (r & ->).
  change (123 =? 93) with false. cbv iota.
  unfold parts. rewrite parse_entries. reflexivity.
Qed.

(** C9. The exported file holds [JSON.stringify(history, null, 2)] of the
    array that has one object per entry of [messageHistory], in the order
    of the entries, each with the members [text], [sender] and [timestamp]
    in that order: read back with [JSON.parse], the text of the file is
    that array, whatever characters the messages hold, so the entry at
    each position of the history is found at the same position of the
    file, and files with the same text come from the same history.  An
    empty history is exported as [[]]; [addMessage] puts a new entry
    last.  The state after the export is the state before it. *)
Theorem C9_export_is_read_only :
  forall iso url s,
    snd (exportChatHistory iso url s) = s
    /\ step (ExportRequested iso url) s = Some s
    /\ content (fst (exportChatHistory iso url s))
       = stringify_indent2 (JArray (map message_json (messageHistory s)))
    /\ List.length (map message_json (messageHistory s))
       = List.length (messageHistory s)
    /\ (forall k,
          nth_error (map message_json (messageHistory s)) k
          = option_map
              (fun m => JObject [(js "text", JString (text m));
                                 (js "sender", JString (sender_name (sender m)));
                                 (js "timestamp", JString (timestamp m))])
              (nth_error (messageHistory s) k))
    /\ (forall txt r ts,
          map message_json (messageHistory (addMessage txt r ts s))
          = map message_json (messageHistory s)
            ++ [message_json (mkMessage txt r ts)])
    /\ (forall s2,
          map message_json (messageHistory s)
          = map message_json (messageHistory s2) ->
          messageHistory s = messageHistory s2)
    /\ parse (content (fst (exportChatHistory iso url s)))
       = Some (JArray (map message_json (messageHistory s)))
    /\ (exists items,
          parse (content (fst (exportChatHistory iso url s)))
          = Some (JArray items)
          /\ List.length items = List.length (messageHistory s)
          /\ forall k m,
               nth_error (messageHistory s) k = Some m ->
               nth_error items k
               = Some (JObject
                         [(js "text", JString (text m));
                          (js "sender", JString (sender_name (sender m)));
                          (js "timestamp", JString (timestamp m))]))
    /\ (forall iso2 url2 s2,
          content (fst (exportChatHistory iso url s))
          = content (fst (exportChatHistory iso2 url2 s2)) ->
          messageHistory s = messageHistory s2)
    /\ (messageHistory s = [] ->
        content (fst (exportChatHistory iso url s)) = js "[]")
    /\ (forall txt r ts,
          parse (content (fst (exportChatHistory iso url
                                 (addMessage txt r ts s))))
          = Some (JArray (map message_json (messageHistory s)
                          ++ [JObject
                                [(js "text", JString txt);
                                 (js "sender", JString (sender_name r));
                                 (js "timestamp", JString ts)]]))).
Proof.
  intros iso url s.
  assert (C : forall iso' url' s',
            content (fst (exportChatHistory iso' url' s'))
            = stringify_indent2 (JArray (map message_json (messageHistory s'))))
    by reflexivity.
  split; [apply exportChatHistory_state|].
  split; [cbn [step]; now rewrite exportChatHistory_state|].
  split; [reflexivity|].
  split; [apply length_map|].
  split; [intros k; apply nth_error_map|].
  split.
  { intros txt r ts.
    change (messageHistory (addMessage txt r ts s))
      with (messageHistory s ++ [mkMessage txt r ts]).
    now rewrite map_app. }
  split; [intros s2; apply map_message_json_inj|].
  split; [rewrite C; apply parse_history|].
  split.
  { exists (map message_json (messageHistory s)).
    split; [rewrite C; apply parse_history|].
    split; [apply length_map|].
    intros k m Hk. rewrite nth_error_map, Hk. reflexivity. }
  split.
  { intros iso2 url2 s2 E.
    assert (P : parse (content (fst (exportChatHistory iso url s)))
                = parse (content (fst (exportChatHistory iso2 url2 s2))))
      by (now rewrite E).
    rewrite !C, !parse_history in P.
    apply map_message_json_inj. congruence. }
  split.
  { intros E. rewrite C, E. reflexivity. }
  intros txt r ts. rewrite C, parse_history.
  change (messageHistory (addMessage txt r ts s))
    with (messageHistory s ++ [mkMessage txt r ts]).
  now rewrite map_app.
Qed.

(** ** Markup in message text *)

Lemma occurs_in_nil l : occurs_in [] l.
Proof. now exists [], l. Qed.

Lemma occurs_in_app_l x u v : occurs_in x u -> occurs_in x (u ++ v).
Proof.
  intros (a & b & ->). exists a, (b ++ v). now rewrite <- !app_assoc.
Qed.

Lemma occurs_in_app_r x u v : occurs_in x v -> occurs_in x (u ++ v).
Proof.
  intros (a & b & ->). exists (u ++ a), b. now rewrite <- !app_assoc.
Qed.

Lemma occurs_in_trans x y z : occurs_in x y -> occurs_in y z -> occurs_in x z.
Proof.
  intros (a & b & ->) (a' & b' & ->). exists (a' ++ a), (b ++ b').
  now rewrite <- !app_assoc.
Qed.

Lemma occurs_in_cons x c v : occurs_in x v -> occurs_in x (c :: v).
Proof. intros H. now apply (occurs_in_app_r x [c] v). Qed.

(** A part without the character [c] lies on one side of an occurrence
    of [c]. *)
Lemma occurs_in_around x u c v :
  ~ In c x -> occurs_in x (u ++ c :: v) -> occurs_in x u \/ occurs_in x v.
Proof.
  intros Hc (a & b & E).
  apply app_eq_app in E as [l [[E1 E2] | [E1 E2]]].
  - (* the occurrence starts inside [u] *)
    apply app_eq_app in E2 as [m [[E3 E4] | [E3 E4]]].
    + destruct m as [|c' m].
      * left. exists a, []. rewrite E1, E3. now rewrite !app_nil_r.
      * cbn in E4. injection E4 as -> _.
        exfalso. apply Hc. rewrite E3. apply in_or_app. right. now left.
    + left. exists a, m. now rewrite E1, E3.
  - (* the occurrence starts at or after [c] *)
    destruct l as [|c' l].
    + cbn in E2. destruct x as [|x0 x].
      * left. apply occurs_in_nil.
      * cbn in E2. injection E2 as -> _. exfalso. apply Hc. now left.
    + cbn in E2. injection E2 as _ ->. right. now exists l, b.
Qed.

Lemma occurs_in_around_list d : forall x u v,
  d <> [] -> (forall c, In c d -> ~ In c x) ->
  occurs_in x (u ++ d ++ v) -> occurs_in x u \/ occurs_in x v.
Proof.
  induction d as [|c d IH]; intros x u v Hd Hx H; [congruence|].
  cbn in H. apply occurs_in_around in H; [|apply Hx; now left].
  destruct H as [H|H]; [now left|].
  destruct d as [|c' d]; [now right|].
  apply (IH x [] v) in H; [|discriminate|intros c0 H0; apply Hx; now right].
  destruct H as [(a & b & H)|H]; [|now right].
  left. destruct a; [|discriminate]. destruct x; [|discriminate].
  apply occurs_in_nil.
Qed.

Lemma strip_prefix_sound p : forall s r,
  strip_prefix p s = Some r -> s = p ++ r.
Proof.
  induction p as [|a p IH]; intros s r H; cbn in H.
  - now injection H as <-.
  - destruct s as [|b s]; [discriminate|].
    destruct (N.eqb_spec a b); [|discriminate].
    subst. cbn. f_equal. now apply IH.
Qed.

Lemma lazy_until_sound d : forall s cap rest,
  lazy_until d s = Some (cap, rest) -> s = cap ++ d ++ rest.
Proof.
  induction s as [|c s IH]; intros cap rest H.
  - cbn in H. destruct (strip_prefix d []) eqn:E; [|discriminate].
    injection H as <- <-. cbn [app]. now apply strip_prefix_sound.
  - cbn [lazy_until] in H.
    destruct (strip_prefix d (c :: s)) eqn:E.
    + injection H as <- <-. cbn [app]. now apply strip_prefix_sound.
    + destruct (is_line_terminator c); [discriminate|].
      destruct (lazy_until d s) as [[cap' rest']|] eqn:E'; [|discriminate].
      injection H as <- <-. cbn. f_equal. now apply IH.
Qed.

Lemma match_here_sound d s cap rest :
  match_here d s = Some (cap, rest) -> s = d ++ cap ++ d ++ rest.
Proof.
  unfold match_here. destruct (strip_prefix d s) as [r|] eqn:E; [|discriminate].
  intros H. apply strip_prefix_sound in E. apply lazy_until_sound in H.
  now subst.
Qed.

Lemma match_here_other d0 d c r :
  c <> d0 -> match_here (d0 :: d) (c :: r) = None.
Proof.
  intros H. unfold match_here. cbn.
  destruct (N.eqb_spec d0 c); [congruence | reflexivity].
Qed.

Lemma replace_from_nil fuel d o cl : replace_from fuel d o cl [] = [].
Proof. destruct fuel; reflexivity. Qed.

(** Characters other than the first of the delimiter are copied. *)
Lemma replace_from_plain d0 d o cl x : forall fuel b,
  (forall c, In c x -> c <> d0) ->
  replace_from fuel (d0 :: d) o cl (x ++ b)
  = x ++ replace_from (fuel - List.length x) (d0 :: d) o cl b.
Proof.
  induction x as [|c x IH]; intros fuel b Hx.
  - cbn. now rewrite Nat.sub_0_r.
  - destruct fuel as [|fuel]; [reflexivity|].
    cbn [replace_from app List.length Nat.sub].
    rewrite match_here_other by (apply Hx; now left).
    f_equal. apply IH. intros c0 H0. apply Hx. now right.
Qed.

Lemma replace_from_occurs d0 d o cl x :
  (forall c, In c (d0 :: d) -> ~ In c x) ->
  forall fuel s,
    occurs_in x s -> occurs_in x (replace_from fuel (d0 :: d) o cl s).
Proof.
  intros Hx. induction fuel as [|fuel IH]; intros s H; [exact H|].
  destruct H as (a & b & ->). destruct a as [|c a].
  - cbn [app]. rewrite replace_from_plain.
    + now exists [], (replace_from (S fuel - List.length x) (d0 :: d) o cl b).
    + intros c Hc E. subst. apply (Hx d0); [now left | exact Hc].
  - cbn [app replace_from].
    destruct (match_here (d0 :: d) (c :: a ++ x ++ b)) as [[cap rest]|] eqn:E.
    + apply match_here_sound in E.
      assert (O : occurs_in x cap \/ occurs_in x rest).
      { assert (O1 : occurs_in x ((d0 :: d) ++ cap ++ (d0 :: d) ++ rest))
          by (rewrite <- E; now exists (c :: a), b).
        apply (occurs_in_around_list (d0 :: d) x []) in O1;
          [|discriminate|exact Hx].
        destruct O1 as [(a1 & b1 & O1)|O1].
        - left. destruct a1; [|discriminate]. destruct x; [|discriminate].
          apply occurs_in_nil.
        - apply occurs_in_around_list in O1; [exact O1|discriminate|exact Hx]. }
      destruct O as [O|O].
      * apply occurs_in_app_r, occurs_in_app_l. exact O.
      * apply occurs_in_app_r, occurs_in_app_r, occurs_in_app_r, IH. exact O.
    + apply occurs_in_cons, IH. now exists a, b.
Qed.

Lemma replace_newlines_app by_ a b :
  replace_newlines by_ (a ++ b)
  = replace_newlines by_ a ++ replace_newlines by_ b.
Proof.
  induction a as [|c a IH]; [reflexivity|]. cbn.
  destruct (c =? 10); rewrite IH; [now rewrite app_assoc | reflexivity].
Qed.

Lemma replace_newlines_plain by_ x :
  (forall c, In c x -> c <> 10) -> replace_newlines by_ x = x.
Proof.
  induction x as [|c x IH]; intros H; [reflexivity|]. cbn.
  destruct (N.eqb_spec c 10) as [E|_];
    [exfalso; apply (H c); [now left | exact E]|].
  f_equal. apply IH. intros c0 H0. apply H. now right.
Qed.

Lemma pattern_free_spec x c :
  pattern_free x = true -> In c x -> c <> 10 /\ c <> 42 /\ c <> 96.
Proof.
  unfold pattern_free. rewrite forallb_forall. intros H Hc.
  specialize (H c Hc). unfold is_pattern_char in H.
  apply negb_true_iff in H. apply orb_false_iff in H as [H H3].
  apply orb_false_iff in H as [H1 H2].
  apply N.eqb_neq in H1, H2, H3. now repeat split.
Qed.

Lemma formatMessage_occurs x txt :
  pattern_free x = true -> occurs_in x txt -> occurs_in x (formatMessage txt).
Proof.
  intros Hx (a & b & ->). unfold formatMessage, replace_delimited.
  cbn zeta.
  change (js "**") with [42; 42]. change (js "*") with [42].
  change (js "`") with [96].
  apply replace_from_occurs.
  { intros c [<-|[]] Hc. now destruct (pattern_free_spec x _ Hx Hc) as (_ & _ & E). }
  apply replace_from_occurs.
  { intros c [<-|[]] Hc. now destruct (pattern_free_spec x _ Hx Hc) as (_ & E & _). }
  apply replace_from_occurs.
  { intros c [<-|[<-|[]]] Hc;
      now destruct (pattern_free_spec x _ Hx Hc) as (_ & E & _). }
  rewrite !replace_newlines_app.
  rewrite (replace_newlines_plain _ x).
  - now eexists _, _.
  - intros c Hc. now destruct (pattern_free_spec x c Hx Hc).
Qed.

Lemma replace_delimited_plain d0 d o cl x :
  (forall c, In c x -> c <> d0) -> replace_delimited (d0 :: d) o cl x = x.
Proof.
  intros H. unfold replace_delimited.
  rewrite <- (app_nil_r x) at 2. rewrite replace_from_plain by exact H.
  now rewrite replace_from_nil, app_nil_r.
Qed.

Lemma formatMessage_plain txt :
  pattern_free txt = true -> formatMessage txt = txt.
Proof.
  intros H. unfold formatMessage. cbn zeta.
  change (js "**") with [42; 42]. change (js "*") with [42].
  change (js "`") with [96].
  rewrite replace_newlines_plain
    by (intros c Hc; now destruct (pattern_free_spec txt c H Hc)).
  rewrite (replace_delimited_plain 42 [42])
    by (intros c Hc; now destruct (pattern_free_spec txt c H Hc) as (_ & E & _)).
  rewrite (replace_delimited_plain 42 [])
    by (intros c Hc; now destruct (pattern_free_spec txt c H Hc) as (_ & E & _)).
  apply (replace_delimited_plain 96).
  intros c Hc; now destruct (pattern_free_spec txt c H Hc) as (_ & _ & E).
Qed.

Lemma message_html_bubble txt r ts :
  occurs_in (formatMessage txt) (message_html txt r ts).
Proof.
  exists (nl ++ spaces 12 ++ js "<div class=" ++ dq ++ js "message-avatar" ++ dq
          ++ js ">" ++ avatar r ++ js "</div>"
          ++ nl ++ spaces 12 ++ js "<div class=" ++ dq ++ js "message-content"
          ++ dq ++ js ">"
          ++ nl ++ spaces 16 ++ js "<div class=" ++ dq ++ js "message-bubble"
          ++ dq ++ js ">").
  exists (js "</div>"
          ++ nl ++ spaces 16 ++ js "<div class=" ++ dq ++ js "message-time" ++ dq
          ++ js ">" ++ ts ++ js "</div>"
          ++ nl ++ spaces 12 ++ js "</div>"
          ++ nl ++ spaces 8).
  unfold message_html. repeat rewrite <- app_assoc. reflexivity.
Qed.

(** The number of positions given to [replace_from] by
    [replace_delimited] is enough: more changes nothing. *)
Lemma replace_from_enough d0 d o cl : forall fuel1 fuel2 s,
  (List.length s <= fuel1)%nat -> (List.length s <= fuel2)%nat ->
  replace_from fuel1 (d0 :: d) o cl s = replace_from fuel2 (d0 :: d) o cl s.
Proof.
  induction fuel1 as [|fuel1 IH]; intros fuel2 s H1 H2.
  - destruct s; [|cbn in H1; lia]. now rewrite !replace_from_nil.
  - destruct s as [|c r]; [now rewrite !replace_from_nil|].
    destruct fuel2 as [|fuel2]; [cbn in H2; lia|].
    cbn [replace_from].
    destruct (match_here (d0 :: d) (c :: r)) as [[cap rest]|] eqn:E.
    + apply match_here_sound in E.
      assert (L : (List.length rest < List.length (c :: r))%nat).
      { rewrite E. rewrite !length_app. cbn. lia. }
      cbn in H1, H2, L. do 3 f_equal. apply IH; lia.
    + cbn in H1, H2. f_equal. apply IH; lia.
Qed.

(** *** [formatMessage] on marked-up text *)

Lemma free_of_spec k l : free_of k l = true -> forall c, In c l -> c <> k.
Proof.
  unfold free_of. rewrite forallb_forall. intros H c Hc E.
  specialize (H c Hc). apply negb_true_iff, N.eqb_neq in H. contradiction.
Qed.

Lemma free_of_app k a b : free_of k (a ++ b) = free_of k a && free_of k b.
Proof. apply forallb_app. Qed.

Lemma free_of_cons k c l :
  free_of k (c :: l) = negb (c =? k) && free_of k l.
Proof. reflexivity. Qed.

Lemma pattern_free_free x :
  pattern_free x = true ->
  free_of 10 x = true /\ free_of 42 x = true /\ free_of 96 x = true.
Proof.
  intros H. unfold free_of. rewrite !forallb_forall.
  repeat split; intros c Hc; apply negb_true_iff, N.eqb_neq;
    destruct (pattern_free_spec x c H Hc) as (E1 & E2 & E3); assumption.
Qed.

Lemma inline_text_spec x :
  inline_text x = true ->
  pattern_free x = true
  /\ forall c, In c x -> is_line_terminator c = false.
Proof.
  unfold inline_text, pattern_free. rewrite !forallb_forall. intros H.
  split; intros c Hc; specialize (H c Hc);
    apply negb_true_iff, orb_false_iff in H as [H1 H2];
    [now rewrite H1 | exact H2].
Qed.

Lemma strip_prefix_same d : forall b, strip_prefix d (d ++ b) = Some b.
Proof.
  induction d as [|c d IH]; intros b; [reflexivity|].
  cbn. now rewrite N.eqb_refl.
Qed.

Lemma strip_prefix_other d0 d c r :
  c <> d0 -> strip_prefix (d0 :: d) (c :: r) = None.
Proof. intros H. cbn. destruct (N.eqb_spec d0 c); [congruence | reflexivity]. Qed.

Lemma lazy_until_found d0 d x : forall b,
  (forall c, In c x -> c <> d0) ->
  (forall c, In c x -> is_line_terminator c = false) ->
  lazy_until (d0 :: d) (x ++ (d0 :: d) ++ b) = Some (x, b).
Proof.
  induction x as [|c x IH]; intros b H1 H2.
  - cbn [app lazy_until].
    change (d0 :: d ++ b) with ((d0 :: d) ++ b).
    now rewrite strip_prefix_same.
  - cbn [app lazy_until].
    rewrite strip_prefix_other by (apply H1; now left).
    rewrite (H2 c) by now left.
    change (x ++ d0 :: d ++ b) with (x ++ (d0 :: d) ++ b).
    rewrite (IH b); [reflexivity| |]; intros c0 H0;
      [apply H1 | apply H2]; now right.
Qed.

Lemma lazy_until_none d0 d s :
  (forall c, In c s -> c <> d0) -> lazy_until (d0 :: d) s = None.
Proof.
  induction s as [|c s IH]; intros H; [reflexivity|].
  cbn [lazy_until]. rewrite strip_prefix_other by (apply H; now left).
  destruct (is_line_terminator c); [reflexivity|].
  rewrite IH; [reflexivity|]. intros c0 H0. apply H. now right.
Qed.

Lemma lazy_until_blocked d0 d x lt : forall rest,
  (forall c, In c x -> c <> d0) ->
  lt <> d0 -> is_line_terminator lt = true ->
  lazy_until (d0 :: d) (x ++ lt :: rest) = None.
Proof.
  induction x as [|c x IH]; intros rest H1 H2 H3.
  - cbn [app lazy_until]. rewrite strip_prefix_other by exact H2.
    now rewrite H3.
  - cbn [app lazy_until]. rewrite strip_prefix_other by (apply H1; now left).
    destruct (is_line_terminator c); [reflexivity|].
    rewrite IH; [reflexivity| | exact H2 | exact H3].
    intros c0 H0. apply H1. now right.
Qed.

(** [replace_delimited] unfolds like the search it stands for. *)
Lemma replace_delimited_app_plain d0 d o cl x b :
  (forall c, In c x -> c <> d0) ->
  replace_delimited (d0 :: d) o cl (x ++ b)
  = x ++ replace_delimited (d0 :: d) o cl b.
Proof.
  intros H. unfold replace_delimited. rewrite replace_from_plain by exact H.
  f_equal. apply replace_from_enough; rewrite ?length_app; lia.
Qed.

Lemma replace_delimited_skip d o cl c r :
  match_here d (c :: r) = None ->
  replace_delimited d o cl (c :: r) = c :: replace_delimited d o cl r.
Proof.
  intros H. unfold replace_delimited. cbn [List.length replace_from].
  now rewrite H.
Qed.

Lemma replace_delimited_match d0 d o cl c r cap rest :
  match_here (d0 :: d) (c :: r) = Some (cap, rest) ->
  replace_delimited (d0 :: d) o cl (c :: r)
  = o ++ cap ++ cl ++ replace_delimited (d0 :: d) o cl rest.
Proof.
  intros H. unfold replace_delimited. cbn [List.length replace_from].
  rewrite H. do 3 f_equal. apply replace_from_enough; [|lia].
  apply match_here_sound in H.
  apply (f_equal (@List.length N)) in H.
  rewrite !length_app in H. cbn in H. lia.
Qed.

(** One delimited run between text without the delimiter's character. *)
Lemma replace_delimited_once d0 d o cl a x b :
  (forall c, In c a -> c <> d0) ->
  (forall c, In c x -> c <> d0) ->
  (forall c, In c x -> is_line_terminator c = false) ->
  (forall c, In c b -> c <> d0) ->
  replace_delimited (d0 :: d) o cl (a ++ (d0 :: d) ++ x ++ (d0 :: d) ++ b)
  = a ++ o ++ x ++ cl ++ b.
Proof.
  intros Ha Hx Hl Hb. rewrite replace_delimited_app_plain by exact Ha.
  f_equal. cbn [app].
  rewrite (replace_delimited_match d0 d o cl d0 _ x b).
  - now rewrite (replace_delimited_plain d0 d o cl b Hb).
  - unfold match_here.
    change (d0 :: d ++ x ++ d0 :: d ++ b)
      with ((d0 :: d) ++ x ++ (d0 :: d) ++ b).
    rewrite strip_prefix_same. now apply lazy_until_found.
Qed.

(** Single asterisks are no match for the pattern of [**]. *)
Lemma single_stars_are_not_bold o cl a x b :
  free_of 42 a = true -> free_of 42 x = true -> free_of 42 b = true ->
  replace_delimited [42; 42] o cl (a ++ 42 :: x ++ 42 :: b)
  = a ++ 42 :: x ++ 42 :: b.
Proof.
  intros Ha Hx Hb.
  pose proof (free_of_spec 42 a Ha) as Fa.
  pose proof (free_of_spec 42 x Hx) as Fx.
  pose proof (free_of_spec 42 b Hb) as Fb.
  rewrite replace_delimited_app_plain by exact Fa. f_equal.
  rewrite replace_delimited_skip.
  - f_equal. rewrite replace_delimited_app_plain by exact Fx. f_equal.
    rewrite replace_delimited_skip.
    + f_equal. now apply replace_delimited_plain.
    + unfold match_here. cbn [strip_prefix]. rewrite N.eqb_refl.
      destruct b as [|c b]; [reflexivity|].
      destruct (N.eqb_spec 42 c) as [E|_]; [|reflexivity].
      exfalso. apply (Fb c); [now left | now symmetry].
  - unfold match_here. cbn [strip_prefix]. rewrite N.eqb_refl.
    destruct x as [|c x].
    + cbn [app]. rewrite N.eqb_refl. now apply lazy_until_none.
    + cbn [app].
      destruct (N.eqb_spec 42 c) as [E|_]; [|reflexivity].
      exfalso. apply (Fx c); [now left | now symmetry].
Qed.

Lemma one_line_text_spec l :
  one_line_text l = true -> forall c, In c l -> is_line_terminator c = false.
Proof.
  unfold one_line_text. rewrite forallb_forall. intros H c Hc.
  now apply negb_true_iff, H.
Qed.

Lemma one_line_text_app a b :
  one_line_text (a ++ b) = one_line_text a && one_line_text b.
Proof. apply forallb_app. Qed.

Lemma inline_text_parts x :
  inline_text x = true ->
  free_of 10 x = true /\ free_of 42 x = true /\ free_of 96 x = true
  /\ one_line_text x = true.
Proof.
  intros H. destruct (inline_text_spec x H) as [P L].
  destruct (pattern_free_free x P) as (F1 & F2 & F3).
  repeat split; try assumption.
  unfold one_line_text. rewrite forallb_forall. intros c Hc.
  now rewrite (L c Hc).
Qed.

Lemma format_inline_bold a x b :
  free_of 42 a = true -> free_of 96 a = true ->
  free_of 42 x = true -> free_of 96 x = true -> one_line_text x = true ->
  free_of 42 b = true -> free_of 96 b = true ->
  format_inline (a ++ js "**" ++ x ++ js "**" ++ b)
  = a ++ js "<strong>" ++ x ++ js "</strong>" ++ b.
Proof.
  intros A1 A2 X1 X2 X3 B1 B2. unfold format_inline.
  change (js "**") with [42; 42]. change (js "*") with [42].
  change (js "`") with [96].
  rewrite (replace_delimited_once 42 [42])
    by (first [now apply free_of_spec | now apply one_line_text_spec]).
  rewrite (replace_delimited_plain 42 [])
    by (apply free_of_spec; rewrite !free_of_app, A1, X1, B1; reflexivity).
  apply (replace_delimited_plain 96 []).
  apply free_of_spec. rewrite !free_of_app, A2, X2, B2. reflexivity.
Qed.

Lemma format_inline_em a x b :
  free_of 42 a = true -> free_of 96 a = true ->
  free_of 42 x = true -> free_of 96 x = true -> one_line_text x = true ->
  free_of 42 b = true -> free_of 96 b = true ->
  format_inline (a ++ js "*" ++ x ++ js "*" ++ b)
  = a ++ js "<em>" ++ x ++ js "</em>" ++ b.
Proof.
  intros A1 A2 X1 X2 X3 B1 B2. unfold format_inline.
  change (js "**") with [42; 42]. change (js "*") with [42].
  change (js "`") with [96].
  change (a ++ [42] ++ x ++ [42] ++ b) with (a ++ 42 :: x ++ 42 :: b).
  rewrite single_stars_are_not_bold by assumption.
  change (a ++ 42 :: x ++ 42 :: b) with (a ++ [42] ++ x ++ [42] ++ b).
  rewrite (replace_delimited_once 42 [])
    by (first [now apply free_of_spec | now apply one_line_text_spec]).
  apply (replace_delimited_plain 96 []).
  apply free_of_spec. rewrite !free_of_app, A2, X2, B2. reflexivity.
Qed.

Lemma format_inline_code a x b :
  free_of 42 a = true -> free_of 96 a = true ->
  free_of 42 x = true -> free_of 96 x = true -> one_line_text x = true ->
  free_of 42 b = true -> free_of 96 b = true ->
  format_inline (a ++ js "`" ++ x ++ js "`" ++ b)
  = a ++ js "<code>" ++ x ++ js "</code>" ++ b.
Proof.
  intros A1 A2 X1 X2 X3 B1 B2. unfold format_inline.
  change (js "**") with [42; 42]. change (js "*") with [42].
  change (js "`") with [96].
  rewrite (replace_delimited_plain 42 [42])
    by (apply free_of_spec; rewrite !free_of_app, A1, X1, B1; reflexivity).
  rewrite (replace_delimited_plain 42 [])
    by (apply free_of_spec; rewrite !free_of_app, A1, X1, B1; reflexivity).
  apply (replace_delimited_once 96 []);
    first [now apply free_of_spec | now apply one_line_text_spec].
Qed.

(** An asterisk pair with a line terminator between them is no match. *)
Lemma format_inline_blocked a x1 lt x2 b :
  free_of 42 a = true -> free_of 96 a = true ->
  free_of 42 x1 = true -> free_of 96 x1 = true ->
  is_line_terminator lt = true ->
  free_of 42 x2 = true -> free_of 96 x2 = true ->
  free_of 42 b = true -> free_of 96 b = true ->
  format_inline (a ++ js "*" ++ x1 ++ [lt] ++ x2 ++ js "*" ++ b)
  = a ++ js "*" ++ x1 ++ [lt] ++ x2 ++ js "*" ++ b.
Proof.
  intros A1 A2 X1 X2 L Y1 Y2 B1 B2.
  assert (L42 : negb (lt =? 42) = true)
    by (destruct (N.eqb_spec lt 42) as [->|]; [discriminate L | reflexivity]).
  assert (L96 : negb (lt =? 96) = true)
    by (destruct (N.eqb_spec lt 96) as [->|]; [discriminate L | reflexivity]).
  assert (M42 : free_of 42 (x1 ++ lt :: x2) = true)
    by (rewrite free_of_app, free_of_cons, X1, L42, Y1; reflexivity).
  unfold format_inline.
  change (js "**") with [42; 42]. change (js "*") with [42].
  change (js "`") with [96].
  replace (a ++ [42] ++ x1 ++ [lt] ++ x2 ++ [42] ++ b)
    with (a ++ 42 :: (x1 ++ lt :: x2) ++ 42 :: b)
    by (cbn [app]; now rewrite <- app_assoc).
  rewrite single_stars_are_not_bold by assumption.
  assert (E : replace_delimited [42] (js "<em>") (js "</em>")
                (a ++ 42 :: (x1 ++ lt :: x2) ++ 42 :: b)
              = a ++ 42 :: (x1 ++ lt :: x2) ++ 42 :: b).
  { rewrite replace_delimited_app_plain by now apply free_of_spec.
    rewrite replace_delimited_skip.
    - rewrite replace_delimited_app_plain by now apply free_of_spec.
      rewrite replace_delimited_skip.
      + now rewrite (replace_delimited_plain 42 [] _ _ b (free_of_spec 42 b B1)).
      + unfold match_here. cbn [strip_prefix]. rewrite N.eqb_refl.
        apply lazy_until_none. now apply free_of_spec.
    - unfold match_here. cbn [strip_prefix]. rewrite N.eqb_refl.
      rewrite <- app_assoc. cbn [app].
      apply lazy_until_blocked; [now apply free_of_spec | | exact L].
      intros E. rewrite E in L42. discriminate L42. }
  rewrite E. apply (replace_delimited_plain 96 []).
  apply free_of_spec.
  repeat (rewrite free_of_app || rewrite free_of_cons).
  rewrite A2, X2, L96, Y2, B2. reflexivity.
Qed.

Lemma replace_from_keeps (P : N -> Prop) d o cl :
  Forall P o -> Forall P cl ->
  forall fuel s, Forall P s -> Forall P (replace_from fuel d o cl s).
Proof.
  intros Ho Hc. induction fuel as [|fuel IH]; intros s H; [exact H|].
  destruct s as [|c r]; [constructor|]. cbn [replace_from].
  destruct (match_here d (c :: r)) as [[cap rest]|] eqn:E.
  - apply match_here_sound in E. rewrite E in H.
    apply Forall_app in H as [_ H]. apply Forall_app in H as [H1 H].
    apply Forall_app in H as [_ H2].
    repeat (apply Forall_app; split); auto.
  - inversion H; subst. constructor; auto.
Qed.

Lemma replace_newlines_keeps (P : N -> Prop) by_ :
  Forall P by_ -> forall s,
  Forall (fun c => c <> 10 -> P c) s -> Forall P (replace_newlines by_ s).
Proof.
  intros Hb. induction s as [|c s IH]; intros H; [constructor|].
  inversion H; subst. cbn.
  destruct (N.eqb_spec c 10).
  - apply Forall_app. split; auto.
  - constructor; auto.
Qed.

(** Without asterisk and backquote only the newlines are replaced. *)
Lemma formatMessage_no_marks txt :
  free_of 42 txt = true -> free_of 96 txt = true ->
  formatMessage txt = replace_newlines (js "<br>") txt.
Proof.
  intros H1 H2.
  change (formatMessage txt)
    with (format_inline (replace_newlines (js "<br>") txt)).
  assert (K : forall k, free_of k (js "<br>") = true -> free_of k txt = true ->
              forall c, In c (replace_newlines (js "<br>") txt) -> c <> k).
  { intros k Hb Ht. apply Forall_forall.
    apply replace_newlines_keeps.
    - apply Forall_forall. now apply free_of_spec.
    - apply Forall_forall. intros c Hc _. now apply (free_of_spec k txt). }
  unfold format_inline.
  change (js "**") with [42; 42]. change (js "*") with [42].
  change (js "`") with [96].
  rewrite (replace_delimited_plain 42 [42]) by now apply K.
  rewrite (replace_delimited_plain 42 []) by now apply K.
  apply (replace_delimited_plain 96 []). now apply K.
Qed.

Lemma formatMessage_newline a b :
  pattern_free a = true -> free_of 42 b = true -> free_of 96 b = true ->
  formatMessage (a ++ nl ++ b) = a ++ js "<br>" ++ formatMessage b.
Proof.
  intros Ha B1 B2. destruct (pattern_free_free a Ha) as (A0 & A1 & A2).
  rewrite (formatMessage_no_marks (a ++ nl ++ b))
    by (rewrite !free_of_app; first [now rewrite A1, B1 | now rewrite A2, B2]).
  rewrite (formatMessage_no_marks b) by assumption.
  rewrite !replace_newlines_app.
  rewrite (replace_newlines_plain _ a) by now apply free_of_spec.
  reflexivity.
Qed.

Lemma formatMessage_bold a x b :
  pattern_free a = true -> inline_text x = true -> pattern_free b = true ->
  formatMessage (a ++ js "**" ++ x ++ js "**" ++ b)
  = a ++ js "<strong>" ++ x ++ js "</strong>" ++ b.
Proof.
  intros Ha Hx Hb.
  destruct (pattern_free_free a Ha) as (A0 & A1 & A2).
  destruct (pattern_free_free b Hb) as (B0 & B1 & B2).
  destruct (inline_text_parts x Hx) as (X0 & X1 & X2 & X3).
  change (formatMessage (a ++ js "**" ++ x ++ js "**" ++ b))
    with (format_inline
            (replace_newlines (js "<br>") (a ++ js "**" ++ x ++ js "**" ++ b))).
  rewrite replace_newlines_plain; [now apply format_inline_bold|].
  apply free_of_spec. rewrite !free_of_app, A0, X0, B0. reflexivity.
Qed.

Lemma formatMessage_em a x b :
  pattern_free a = true -> inline_text x = true -> pattern_free b = true ->
  formatMessage (a ++ js "*" ++ x ++ js "*" ++ b)
  = a ++ js "<em>" ++ x ++ js "</em>" ++ b.
Proof.
  intros Ha Hx Hb.
  destruct (pattern_free_free a Ha) as (A0 & A1 & A2).
  destruct (pattern_free_free b Hb) as (B0 & B1 & B2).
  destruct (inline_text_parts x Hx) as (X0 & X1 & X2 & X3).
  change (formatMessage (a ++ js "*" ++ x ++ js "*" ++ b))
    with (format_inline
            (replace_newlines (js "<br>") (a ++ js "*" ++ x ++ js "*" ++ b))).
  rewrite replace_newlines_plain; [now apply format_inline_em|].
  apply free_of_spec. rewrite !free_of_app, A0, X0, B0. reflexivity.
Qed.

Lemma formatMessage_code a x b :
  pattern_free a = true -> inline_text x = true -> pattern_free b = true ->
  formatMessage (a ++ js "`" ++ x ++ js "`" ++ b)
  = a ++ js "<code>" ++ x ++ js "</code>" ++ b.
Proof.
  intros Ha Hx Hb.
  destruct (pattern_free_free a Ha) as (A0 & A1 & A2).
  destruct (pattern_free_free b Hb) as (B0 & B1 & B2).
  destruct (inline_text_parts x Hx) as (X0 & X1 & X2 & X3).
  change (formatMessage (a ++ js "`" ++ x ++ js "`" ++ b))
    with (format_inline
            (replace_newlines (js "<br>") (a ++ js "`" ++ x ++ js "`" ++ b))).
  rewrite replace_newlines_plain; [now apply format_inline_code|].
  apply free_of_spec. rewrite !free_of_app, A0, X0, B0. reflexivity.
Qed.

(** The characters of HTML markup are among those that no pattern looks
    at. *)
Lemma markup_is_inline c :
  In c (js "<>&") -> is_pattern_char c = false /\ is_line_terminator c = false.
Proof. intros [<-|[<-|[<-|[]]]]; split; reflexivity. Qed.

(** C10. [formatMessage] is the four replacements and nothing else.
    - What they replace: a newline becomes [<br>]; a run [x] between two
      double asterisks becomes [<strong>x</strong>], between two asterisks
      [<em>x</em>], between two backquotes [<code>x</code>] (for [x] on
      one line without asterisk or backquote, in a text that has no other
      newline, asterisk or backquote).
    - What they leave: every part of the text that has no newline,
      asterisk or backquote - so any run of [<], [>] and [&] - is found
      unchanged in the result, also inside the tags above, and a text
      without those three characters is returned as it is.
    - The result is placed as it is inside the [innerHTML] of the element
      that [addMessage] appends. *)
Theorem C10_message_text_is_not_escaped :
  forall txt,
    formatMessage txt
    = replace_delimited (js "`") (js "<code>") (js "</code>")
        (replace_delimited (js "*") (js "<em>") (js "</em>")
           (replace_delimited (js "**") (js "<strong>") (js "</strong>")
              (replace_newlines (js "<br>") txt)))
    /\ (forall x, pattern_free x = true -> occurs_in x txt ->
                  occurs_in x (formatMessage txt))
    /\ (pattern_free txt = true -> formatMessage txt = txt)
    /\ (forall r ts s,
          chatMessages_children (dom (addMessage txt r ts s))
          = chatMessages_children (dom s)
            ++ [mkMessageDiv (js "message " ++ sender_name r ++ js " fade-in")
                             (message_html txt r ts)]
          /\ occurs_in (formatMessage txt) (message_html txt r ts)
          /\ forall x, pattern_free x = true -> occurs_in x txt ->
                       occurs_in x (message_html txt r ts))
    /\ pattern_free (js "<>&") = true
    /\ (free_of 42 txt = true -> free_of 96 txt = true ->
        forall a, pattern_free a = true ->
          formatMessage (a ++ nl ++ txt) = a ++ js "<br>" ++ formatMessage txt)
    /\ (inline_text txt = true ->
        forall a b, pattern_free a = true -> pattern_free b = true ->
          formatMessage (a ++ js "**" ++ txt ++ js "**" ++ b)
          = a ++ js "<strong>" ++ txt ++ js "</strong>" ++ b
          /\ formatMessage (a ++ js "*" ++ txt ++ js "*" ++ b)
             = a ++ js "<em>" ++ txt ++ js "</em>" ++ b
          /\ formatMessage (a ++ js "`" ++ txt ++ js "`" ++ b)
             = a ++ js "<code>" ++ txt ++ js "</code>" ++ b)
    /\ ((forall c, In c txt -> In c (js "<>&")) ->
        inline_text txt = true /\ pattern_free txt = true
        /\ formatMessage (js "**" ++ txt ++ js "**" ++ nl ++ txt)
           = js "<strong>" ++ txt ++ js "</strong>" ++ js "<br>" ++ txt).
Proof.
  intros txt. split; [reflexivity|].
  split; [intros x; apply formatMessage_occurs|].
  split; [apply formatMessage_plain|].
  split.
  { intros r ts s. split; [reflexivity|].
    split; [apply message_html_bubble|].
    intros x Hx Ho. eapply occurs_in_trans; [|apply message_html_bubble].
    now apply formatMessage_occurs. }
  split; [reflexivity|].
  split; [intros H1 H2 a Ha; now apply formatMessage_newline|].
  split.
  { intros Hx a b Ha Hb. split; [now apply formatMessage_bold|].
    split; [now apply formatMessage_em | now apply formatMessage_code]. }
  intros M.
  assert (I : inline_text txt = true).
  { unfold inline_text. apply forallb_forall. intros c Hc.
    destruct (markup_is_inline c (M c Hc)) as [E1 E2]. now rewrite E1, E2. }
  assert (P : pattern_free txt = true).
  { unfold pattern_free. apply forallb_forall. intros c Hc.
    destruct (markup_is_inline c (M c Hc)) as [E1 _]. now rewrite E1. }
  split; [exact I|]. split; [exact P|].
  destruct (inline_text_parts txt I) as (X0 & X1 & X2 & X3).
  change (formatMessage (js "**" ++ txt ++ js "**" ++ nl ++ txt))
    with (format_inline
            (replace_newlines (js "<br>")
               (js "**" ++ txt ++ js "**" ++ nl ++ txt))).
  change (js "**" ++ txt ++ js "**" ++ nl ++ txt)
    with (js "**" ++ (txt ++ js "**" ++ nl ++ txt)).
  rewrite !replace_newlines_app.
  rewrite (replace_newlines_plain _ txt) by now apply free_of_spec.
  change (replace_newlines (js "<br>") (js "**")) with (js "**").
  change (replace_newlines (js "<br>") nl) with (js "<br>").
  change (js "**" ++ txt ++ js "**" ++ js "<br>" ++ txt)
    with ([] ++ js "**" ++ txt ++ js "**" ++ (js "<br>" ++ txt)).
  rewrite format_inline_bold; first [assumption | reflexivity].
Qed.

(** ** Further properties of the controller *)

(** *** Blank input *)

Lemma trim_start_blank v :
  forallb is_white_space v = true -> trim_start v = [].
Proof.
  induction v as [|c v IH]; [reflexivity|]. cbn.
  intros H. apply andb_true_iff in H as [H1 H2]. rewrite H1. now apply IH.
Qed.

Lemma trim_blank_iff v : trim v = [] <-> forallb is_white_space v = true.
Proof.
  split.
  - intros H. destruct (trim_split v) as (l & r & E & Wl & Wr).
    rewrite H in E. rewrite E. cbn [app]. rewrite forallb_app. now rewrite Wl, Wr.
  - intros H. unfold trim. now rewrite trim_start_blank.
Qed.

Lemma trim_start_fixed c t :
  is_white_space c = false -> trim_start (c :: t) = c :: t.
Proof. intros H. cbn. now rewrite H. Qed.

Lemma trim_idempotent v : trim (trim v) = trim v.
Proof.
  destruct (trim v) as [|c t] eqn:E; [reflexivity|].
  assert (Hc : is_white_space c = false) by (eapply trim_head; exact E).
  unfold trim at 1. rewrite trim_start_fixed by exact Hc.
  unfold trim_end.
  destruct (exists_last (l := c :: t)) as (t' & z & Ez); [discriminate|].
  assert (Hz : is_white_space z = false).
  { rewrite Ez in E. unfold trim in E. eapply trim_end_last. exact E. }
  rewrite Ez, rev_app_distr. cbn [rev app].
  rewrite trim_start_fixed by exact Hz.
  change (z :: rev t') with (rev [z] ++ rev t').
  now rewrite <- rev_app_distr, rev_involutive.
Qed.

(** X1. A send does nothing exactly when it should: on an input made of
    white space only (or empty) the state is left as it is, whatever else
    holds; on an input with any other character, and no request in flight,
    the trimmed text is appended as a user message and requested. *)
Theorem X1_blank_input_is_never_sent :
  forall ts s,
    let v := messageInput_value (dom s) in
    (forallb is_white_space v = true -> sendMessage ts s = s)
    /\ (forallb is_white_space v = false -> isTyping s = false ->
        messageHistory (sendMessage ts s)
        = messageHistory s ++ [mkMessage (trim v) User ts]
        /\ fetches (sendMessage ts s)
           = fetches s ++ [mkRequest (trim v) (sessionId s)]
        /\ isTyping (sendMessage ts s) = true).
Proof.
  intros ts s v. split.
  - intros H. apply sendMessage_rejected. fold v.
    apply trim_blank_iff in H. now rewrite H.
  - intros H Hi.
    assert (Ht : truthy (trim v) = true).
    { destruct (trim v) eqn:E; [|reflexivity].
      apply trim_blank_iff in E. congruence. }
    destruct (sendMessage_accepted ts s Ht Hi) as (E0 & E1 & E2 & _).
    repeat split; assumption.
Qed.

(** *** The two ways a request settles *)

Lemma settle_answer i r ts s rq a session :
  nth_error (pending s) i = Some rq ->
  answer_of r = Some (a, session) ->
  exists s',
    step (FetchSettled i r ts) s = Some s'
    /\ settled_common i s s'
    /\ messageHistory s' = messageHistory s ++ [mkMessage a Assistant ts]
    /\ chatMessages_children (dom s')
       = chatMessages_children (dom s)
         ++ [render_message (mkMessage a Assistant ts)]
    /\ sessionId s' = token_after session (sessionId s)
    /\ timers s' = timers s ++ [mkTimer 100 ScrollChat]
    /\ console s' = console s
    /\ errorToast_display (dom s') = errorToast_display (dom s)
    /\ errorMessage_textContent (dom s') = errorMessage_textContent (dom s).
Proof.
  intros Hp Ha. unfold answer_of in Ha.
  destruct (sendToAPI_settled r) as [[| |d [a'|] sess]|e] eqn:Hr;
    try discriminate Ha.
  injection Ha as -> ->.
  eexists. split.
  { erewrite settle_step by exact Hp. rewrite Hr. reflexivity. }
  unfold settled_common, button_inv.
  destruct session as [t|]; [destruct (truthy t) eqn:Et|];
    cbn [sendMessage_resumed token_after]; try rewrite Et;
    repeat split; reflexivity.
Qed.

Lemma settle_no_answer i r ts s rq :
  nth_error (pending s) i = Some rq ->
  answer_of r = None ->
  exists s' e,
    step (FetchSettled i r ts) s = Some s'
    /\ settled_common i s s'
    /\ messageHistory s' = messageHistory s
    /\ chatMessages_children (dom s') = chatMessages_children (dom s)
    /\ sessionId s' = sessionId s
    /\ timers s' = timers s ++ [mkTimer 5000 HideError]
    /\ console s' = console s ++ [mkConsoleEntry (js "Chat error:") e]
    /\ errorToast_display (dom s') = js "block"
    /\ errorMessage_textContent (dom s')
       = js "Failed to get response. Please try again.".
Proof.
  intros Hp Ha. unfold answer_of in Ha.
  destruct (sendToAPI_settled r) as [[| |d [a'|] sess]|e] eqn:Hr;
    try discriminate Ha.
  all: eexists; eexists; split;
    [erewrite settle_step by exact Hp; rewrite Hr; reflexivity|].
  all: unfold settled_common, button_inv; repeat split; reflexivity.
Qed.

Lemma answer_cases r :
  (exists a session, answer_of r = Some (a, session)) \/ answer_of r = None.
Proof. destruct (answer_of r) as [[a session]|]; eauto. Qed.

(** *** The transcript between two new chats *)

Lemma sendMessage_history ts s :
  exists new, messageHistory (sendMessage ts s) = messageHistory s ++ new
              /\ (List.length new <= 1)%nat.
Proof.
  destruct (truthy (trim (messageInput_value (dom s)))) eqn:Ht;
    destruct (isTyping s) eqn:Hi.
  2: { destruct (sendMessage_accepted ts s Ht Hi) as (_ & E & _).
       eexists. split; [exact E | cbn; lia]. }
  all: rewrite sendMessage_rejected by (rewrite Ht, Hi; reflexivity).
  all: exists []; rewrite app_nil_r; split; [reflexivity | cbn; lia].
Qed.

Lemma step_history e s s' :
  is_new_chat e = false -> step e s = Some s' ->
  exists new, messageHistory s' = messageHistory s ++ new
              /\ (List.length new <= 1)%nat.
Proof.
  intros K E. destruct e; cbn [step is_new_chat] in *; try discriminate K.
  - injection E as <-. apply sendMessage_history.
  - injection E as <-. exists []. rewrite app_nil_r.
    split; [reflexivity | cbn; lia].
  - injection E as <-. unfold askSampleQuestion.
    apply (sendMessage_history ts
             (handleInputChange
                (with_dom (set_messageInput_value (normalize_newlines q)) s))).
  - destruct (nth_error (pending s) i) as [rq|] eqn:Hp; [|discriminate E].
    destruct (answer_cases r) as [(a & session & Ha)|Ha].
    + destruct (settle_answer i r ts s rq a session Hp Ha)
        as (s0 & St & _ & H1 & _).
      cbn [step] in St. rewrite Hp in St. rewrite St in E. injection E as <-.
      eexists. split; [exact H1 | cbn; lia].
    + destruct (settle_no_answer i r ts s rq Hp Ha)
        as (s0 & e0 & St & _ & H1 & _).
      cbn [step] in St. rewrite Hp in St. rewrite St in E. injection E as <-.
      exists []. rewrite app_nil_r. split; [exact H1 | cbn; lia].
  - destruct (nth_error (timers s) i) as [[dl [|]]|]; [| |discriminate E];
      injection E as <-; exists []; rewrite app_nil_r;
      (split; [reflexivity | cbn; lia]).
  - rewrite exportChatHistory_state in E. injection E as <-.
    exists []. rewrite app_nil_r. split; [reflexivity | cbn; lia].
  - injection E as <-. exists []. rewrite app_nil_r.
    split; [reflexivity | cbn; lia].
  - injection E as <-. exists []. rewrite app_nil_r.
    split; [reflexivity | cbn; lia].
Qed.

(** X2. Between two new chats the transcript only grows: after any events
    none of which is a new chat, the earlier history is still there, in
    order, followed by at most one new message per event.  A new chat
    leaves an empty history. *)
Theorem X2_transcript_only_grows :
  forall evs s s',
    forallb (fun e => negb (is_new_chat e)) evs = true ->
    run evs s = Some s' ->
    exists new,
      messageHistory s' = messageHistory s ++ new
      /\ (List.length new <= List.length evs)%nat.
Proof.
  induction evs as [|e evs IH]; intros s s' K R; cbn in *.
  - injection R as <-. exists []. now rewrite app_nil_r.
  - apply andb_true_iff in K as [K1 K2]. apply negb_true_iff in K1.
    destruct (step e s) as [s1|] eqn:E; [|discriminate R].
    destruct (step_history e s s1 K1 E) as (n1 & H1 & L1).
    destruct (IH s1 s' K2 R) as (n2 & H2 & L2).
    exists (n1 ++ n2). rewrite H2, H1, <- app_assoc, length_app.
    split; [reflexivity | lia].
Qed.

(** *** Invariants of the page *)

Lemma send_cases ts s :
  sendMessage ts s = s
  \/ (truthy (trim (messageInput_value (dom s))) = true /\ isTyping s = false).
Proof.
  destruct (truthy (trim (messageInput_value (dom s)))) eqn:Ht;
    destruct (isTyping s) eqn:Hi; [left|now right|left|left];
    apply sendMessage_rejected; rewrite Ht, Hi; reflexivity.
Qed.

Lemma sendMessage_rendered ts s :
  rendered_inv s -> rendered_inv (sendMessage ts s).
Proof.
  intros H. destruct (send_cases ts s) as [->|[Ht Hi]]; [exact H|].
  rewrite (sendMessage_state ts s Ht Hi). unfold rendered_inv in *.
  cbn [chatMessages_children dom messageHistory].
  rewrite map_app, H. reflexivity.
Qed.

Lemma step_rendered e s s' :
  rendered_inv s -> step e s = Some s' -> rendered_inv s'.
Proof.
  intros H E. destruct e; cbn [step] in E.
  - injection E as <-. now apply sendMessage_rendered.
  - injection E as <-. exact H.
  - injection E as <-. unfold askSampleQuestion. apply sendMessage_rendered.
    exact H.
  - injection E as <-. rewrite startNewChat_state. reflexivity.
  - destruct (nth_error (pending s) i) as [rq|] eqn:Hp; [|discriminate E].
    destruct (answer_cases r) as [(a & session & Ha)|Ha].
    + destruct (settle_answer i r ts s rq a session Hp Ha)
        as (s0 & St & _ & H1 & H2 & _).
      cbn [step] in St. rewrite Hp in St. rewrite St in E. injection E as <-.
      unfold rendered_inv in *. now rewrite H1, H2, map_app, H.
    + destruct (settle_no_answer i r ts s rq Hp Ha)
        as (s0 & e0 & St & _ & H1 & H2 & _).
      cbn [step] in St. rewrite Hp in St. rewrite St in E. injection E as <-.
      unfold rendered_inv in *. now rewrite H1, H2.
  - destruct (nth_error (timers s) i) as [[dl [|]]|]; [| |discriminate E];
      injection E as <-; exact H.
  - rewrite exportChatHistory_state in E. injection E as <-. exact H.
  - injection E as <-. exact H.
  - injection E as <-. exact H.
Qed.

Lemma run_preserves (P : ChatBot -> Prop) :
  (forall e s s', P s -> step e s = Some s' -> P s') ->
  forall evs s s', P s -> run evs s = Some s' -> P s'.
Proof.
  intros HP. induction evs as [|e evs IH]; intros s s' H R; cbn in R.
  - now injection R as <-.
  - destruct (step e s) as [s1|] eqn:E; [|discriminate R].
    eapply IH; [eapply HP; eauto | exact R].
Qed.

(** X3. On a page whose message list starts empty, what is rendered is
    always the history: after any events the children of [chatMessages]
    are, in order, the elements that [addMessage] builds for the entries
    of [messageHistory]. *)
Theorem X3_rendered_messages_are_the_history :
  forall d now suffix evs s,
    chatMessages_children d = [] ->
    run evs (constructor d now suffix) = Some s ->
    chatMessages_children (dom s) = map render_message (messageHistory s).
Proof.
  intros d now suffix evs s Hd R.
  apply (run_preserves rendered_inv step_rendered evs
           (constructor d now suffix) s); [|exact R].
  unfold rendered_inv. exact Hd.
Qed.

Lemma sendMessage_button ts s :
  button_inv s -> button_inv (sendMessage ts s).
Proof.
  intros H. destruct (send_cases ts s) as [->|[Ht Hi]]; [exact H|].
  rewrite (sendMessage_state ts s Ht Hi). reflexivity.
Qed.

Lemma step_button e s s' :
  button_inv s -> step e s = Some s' -> button_inv s'.
Proof.
  intros H E. destruct e; cbn [step] in E.
  - injection E as <-. now apply sendMessage_button.
  - injection E as <-. reflexivity.
  - injection E as <-. unfold askSampleQuestion. apply sendMessage_button.
    reflexivity.
  - injection E as <-. rewrite startNewChat_state. reflexivity.
  - destruct (nth_error (pending s) i) as [rq|] eqn:Hp; [|discriminate E].
    destruct (answer_cases r) as [(a & session & Ha)|Ha].
    + destruct (settle_answer i r ts s rq a session Hp Ha)
        as (s0 & St & C & _).
      cbn [step] in St. rewrite Hp in St. rewrite St in E. injection E as <-.
      apply C.
    + destruct (settle_no_answer i r ts s rq Hp Ha)
        as (s0 & e0 & St & C & _).
      cbn [step] in St. rewrite Hp in St. rewrite St in E. injection E as <-.
      apply C.
  - destruct (nth_error (timers s) i) as [[dl [|]]|]; [| |discriminate E];
      injection E as <-; exact H.
  - rewrite exportChatHistory_state in E. injection E as <-. exact H.
  - injection E as <-. exact H.
  - injection E as <-. exact H.
Qed.

Lemma sendMessage_changes ts s :
  truthy (trim (messageInput_value (dom s))) = true ->
  isTyping s = false ->
  sendMessage ts s <> s.
Proof.
  intros Ht Hi E.
  destruct (sendMessage_accepted ts s Ht Hi) as (E0 & _).
  rewrite E in E0. congruence.
Qed.

(** X4. On a page whose send button starts in step with its (empty or
    filled) textarea, the button tells what a send would do: after any
    events the button is disabled exactly when the trimmed input is empty
    or a request is in flight, and [sendMessage] - which the Enter key
    calls without looking at the button - changes the state exactly when
    the button is enabled. *)
Theorem X4_send_button_mirrors_the_guard :
  forall d now suffix evs s,
    sendBtn_disabled d = negb (truthy (trim (messageInput_value d))) ->
    run evs (constructor d now suffix) = Some s ->
    sendBtn_disabled (dom s)
    = negb (truthy (trim (messageInput_value (dom s)))) || isTyping s
    /\ forall ts, sendMessage ts s = s <-> sendBtn_disabled (dom s) = true.
Proof.
  intros d now suffix evs s Hd R.
  assert (B : button_inv s).
  { apply (run_preserves button_inv step_button evs
             (constructor d now suffix) s); [|exact R].
    unfold button_inv.
    change (sendBtn_disabled (dom (constructor d now suffix)))
      with (sendBtn_disabled d).
    change (messageInput_value (dom (constructor d now suffix)))
      with (messageInput_value d).
    change (isTyping (constructor d now suffix)) with false.
    rewrite Hd. now rewrite orb_false_r. }
  split; [exact B|]. intros ts. unfold button_inv in B. split.
  - intros E. rewrite B.
    destruct (truthy (trim (messageInput_value (dom s)))) eqn:Ht;
      [|reflexivity].
    destruct (isTyping s) eqn:Hi; [reflexivity|].
    exfalso. exact (sendMessage_changes ts s Ht Hi E).
  - intros E. apply sendMessage_rejected. now rewrite <- B.
Qed.

Lemma none_is_not_block : js "none" <> js "block".
Proof. intros H. vm_compute in H. discriminate H. Qed.

Lemma sendMessage_screen ts s : one_screen s -> one_screen (sendMessage ts s).
Proof.
  intros H. destruct (send_cases ts s) as [->|[Ht Hi]]; [exact H|].
  rewrite (sendMessage_state ts s Ht Hi). unfold one_screen in *.
  cbn [welcomeScreen_display chatInterface_display dom].
  destruct H as [[W C]|[W C]]; rewrite C.
  - right. now split.
  - right. rewrite ?W.
    replace (jsstring_eqb (js "flex") (js "none")) with false
      by (vm_compute; reflexivity).
    now split.
Qed.

Lemma step_screen e s s' :
  one_screen s -> step e s = Some s' -> one_screen s'.
Proof.
  intros H E. destruct e; cbn [step] in E.
  - injection E as <-. now apply sendMessage_screen.
  - injection E as <-. exact H.
  - injection E as <-. unfold askSampleQuestion. apply sendMessage_screen.
    exact H.
  - injection E as <-. rewrite startNewChat_state. left. now split.
  - destruct (nth_error (pending s) i) as [rq|] eqn:Hp; [|discriminate E].
    destruct (answer_cases r) as [(a & session & Ha)|Ha].
    + destruct (settle_answer i r ts s rq a session Hp Ha)
        as (s0 & St & (_ & _ & _ & _ & W & C & _) & _).
      cbn [step] in St. rewrite Hp in St. rewrite St in E. injection E as <-.
      unfold one_screen. now rewrite W, C.
    + destruct (settle_no_answer i r ts s rq Hp Ha)
        as (s0 & e0 & St & (_ & _ & _ & _ & W & C & _) & _).
      cbn [step] in St. rewrite Hp in St. rewrite St in E. injection E as <-.
      unfold one_screen. now rewrite W, C.
  - destruct (nth_error (timers s) i) as [[dl [|]]|]; [| |discriminate E];
      injection E as <-; exact H.
  - rewrite exportChatHistory_state in E. injection E as <-. exact H.
  - injection E as <-. exact H.
  - injection E as <-. exact H.
Qed.

(** X5. The welcome screen and the chat interface are never shown
    together and never both hidden: in every state the controller reaches,
    on any page, one of them has display [flex] and the other [none]. *)
Theorem X5_exactly_one_screen_is_shown :
  forall s, reachable s ->
    (welcomeScreen_display (dom s) = js "flex"
     /\ chatInterface_display (dom s) = js "none")
    \/ (welcomeScreen_display (dom s) = js "none"
        /\ chatInterface_display (dom s) = js "flex").
Proof.
  intros s (d & now & suffix & evs & R).
  apply (run_preserves one_screen step_screen evs
           (constructor d now suffix) s); [|exact R].
  left. split; reflexivity.
Qed.

Lemma sendMessage_indicator ts s :
  indicator_inv s -> indicator_inv (sendMessage ts s).
Proof.
  intros H. destruct (send_cases ts s) as [->|[Ht Hi]]; [exact H|].
  rewrite (sendMessage_state ts s Ht Hi). reflexivity.
Qed.

Lemma step_indicator e s s' :
  indicator_inv s -> step e s = Some s' -> indicator_inv s'.
Proof.
  intros H E. destruct e; cbn [step] in E.
  - injection E as <-. now apply sendMessage_indicator.
  - injection E as <-. exact H.
  - injection E as <-. unfold askSampleQuestion. apply sendMessage_indicator.
    exact H.
  - injection E as <-. rewrite startNewChat_state. exact H.
  - destruct (nth_error (pending s) i) as [rq|] eqn:Hp; [|discriminate E].
    destruct (answer_cases r) as [(a & session & Ha)|Ha].
    + destruct (settle_answer i r ts s rq a session Hp Ha)
        as (s0 & St & (T & _ & _ & _ & _ & _ & I & _) & _).
      cbn [step] in St. rewrite Hp in St. rewrite St in E. injection E as <-.
      unfold indicator_inv. rewrite T, I. exact none_is_not_block.
    + destruct (settle_no_answer i r ts s rq Hp Ha)
        as (s0 & e0 & St & (T & _ & _ & _ & _ & _ & I & _) & _).
      cbn [step] in St. rewrite Hp in St. rewrite St in E. injection E as <-.
      unfold indicator_inv. rewrite T, I. exact none_is_not_block.
  - destruct (nth_error (timers s) i) as [[dl [|]]|]; [| |discriminate E];
      injection E as <-; exact H.
  - rewrite exportChatHistory_state in E. injection E as <-. exact H.
  - injection E as <-. exact H.
  - injection E as <-. exact H.
Qed.

(** X6. On a page whose typing indicator starts hidden, the indicator is
    displayed exactly while a request is in flight: after any events its
    display is [block] if and only if [isTyping] is set - also across a
    new chat, which touches neither. *)
Theorem X6_typing_indicator_follows_isTyping :
  forall d now suffix evs s,
    typingIndicator_display d <> js "block" ->
    run evs (constructor d now suffix) = Some s ->
    (isTyping s = true <-> typingIndicator_display (dom s) = js "block").
Proof.
  intros d now suffix evs s Hd R.
  assert (I : indicator_inv s).
  { apply (run_preserves indicator_inv step_indicator evs
             (constructor d now suffix) s); [|exact R]. exact Hd. }
  unfold indicator_inv in I. destruct (isTyping s); split; intros H;
    try assumption; try reflexivity; try discriminate H; contradiction.
Qed.

(** *** The error toast and its timeouts *)

Lemma remove_nth_keeps {A} (x : A) : forall l i y,
  nth_error l i = Some y -> y <> x -> In x l -> In x (remove_nth i l).
Proof.
  induction l as [|z l IH]; intros [|i] y E N H; cbn in *;
    try discriminate E.
  - injection E as ->. destruct H as [H|H]; [congruence | exact H].
  - destruct H as [H|H]; [now left | right; eapply IH; eauto].
Qed.

Lemma sendMessage_toast ts s :
  toast_has_timer s -> toast_has_timer (sendMessage ts s).
Proof.
  intros H. destruct (send_cases ts s) as [->|[Ht Hi]]; [exact H|].
  rewrite (sendMessage_state ts s Ht Hi). unfold toast_has_timer in *.
  cbn [errorToast_display dom timers]. intros B.
  apply in_or_app. left. apply in_or_app. left. now apply H.
Qed.

Lemma showError_toast m s : toast_has_timer (showError m s).
Proof.
  intros _. change (timers (showError m s))
    with (timers s ++ [mkTimer 5000 HideError]).
  apply in_or_app. right. now left.
Qed.

Lemma step_toast e s s' :
  toast_has_timer s -> step e s = Some s' -> toast_has_timer s'.
Proof.
  intros H E. destruct e; cbn [step] in E.
  - injection E as <-. now apply sendMessage_toast.
  - injection E as <-. exact H.
  - injection E as <-. unfold askSampleQuestion. apply sendMessage_toast.
    exact H.
  - injection E as <-. rewrite startNewChat_state. exact H.
  - destruct (nth_error (pending s) i) as [rq|] eqn:Hp; [|discriminate E].
    destruct (answer_cases r) as [(a & session & Ha)|Ha].
    + destruct (settle_answer i r ts s rq a session Hp Ha)
        as (s0 & St & _ & _ & _ & _ & T & _ & B & _).
      cbn [step] in St. rewrite Hp in St. rewrite St in E. injection E as <-.
      unfold toast_has_timer in *. rewrite T, B. intros D.
      apply in_or_app. left. now apply H.
    + destruct (settle_no_answer i r ts s rq Hp Ha)
        as (s0 & e0 & St & _ & _ & _ & _ & T & _).
      cbn [step] in St. rewrite Hp in St. rewrite St in E. injection E as <-.
      unfold toast_has_timer. rewrite T. intros _.
      apply in_or_app. right. now left.
  - destruct (nth_error (timers s) i) as [[dl [|]]|] eqn:Hn;
      [| |discriminate E]; injection E as <-.
    + unfold toast_has_timer in *.
      change (errorToast_display
                (dom (run_callback (callback (mkTimer dl ScrollChat))
                        (set_timers (remove_nth i (timers s)) s))))
        with (errorToast_display (dom s)).
      change (timers (run_callback (callback (mkTimer dl ScrollChat))
                        (set_timers (remove_nth i (timers s)) s)))
        with (remove_nth i (timers s)).
      intros B. eapply remove_nth_keeps; [exact Hn | discriminate | now apply H].
    + intros B. exfalso. apply none_is_not_block. exact B.
  - rewrite exportChatHistory_state in E. injection E as <-. exact H.
  - injection E as <-. apply showError_toast.
  - injection E as <-. apply showError_toast.
Qed.

(** X7. On a page whose error toast starts hidden, a displayed toast
    always has a way out: after any events, whenever the toast is
    displayed a 5000 ms timeout whose callback hides it is still set. *)
Theorem X7_displayed_toast_has_a_hide_timer :
  forall d now suffix evs s,
    errorToast_display d <> js "block" ->
    run evs (constructor d now suffix) = Some s ->
    errorToast_display (dom s) = js "block" ->
    In (mkTimer 5000 HideError) (timers s).
Proof.
  intros d now suffix evs s Hd R.
  apply (run_preserves toast_has_timer step_toast evs
           (constructor d now suffix) s); [|exact R].
  intros B. contradiction.
Qed.

(** X8. Timeouts of earlier errors are not cancelled: when a second error
    is shown while the timeout of the first is still set, that first
    timeout hides the second notice - its text still in place and its own
    timeout still set. *)
Theorem X8_earlier_timeout_hides_later_error :
  forall m1 m2 s,
    exists s',
      step (TimerFired (List.length (timers s))) (showError m2 (showError m1 s))
      = Some s'
      /\ errorToast_display (dom (showError m2 (showError m1 s))) = js "block"
      /\ errorToast_display (dom s') = js "none"
      /\ errorMessage_textContent (dom s') = m2
      /\ timers s' = timers s ++ [mkTimer 5000 HideError].
Proof.
  intros m1 m2 s.
  assert (T : timers (showError m2 (showError m1 s))
              = (timers s ++ [mkTimer 5000 HideError])
                ++ [mkTimer 5000 HideError]) by reflexivity.
  assert (Hn : nth_error (timers (showError m2 (showError m1 s)))
                 (List.length (timers s)) = Some (mkTimer 5000 HideError)).
  { rewrite T, nth_error_app1 by (rewrite length_app; cbn; lia).
    rewrite nth_error_app2 by lia. now rewrite Nat.sub_diag. }
  assert (Hr : remove_nth (List.length (timers s))
                 (timers (showError m2 (showError m1 s)))
               = timers s ++ [mkTimer 5000 HideError]).
  { rewrite T. generalize (timers s). intros l.
    induction l as [|x l IH]; [reflexivity|]. cbn. now rewrite IH. }
  remember (showError m2 (showError m1 s)) as s2 eqn:E2.
  assert (M : errorMessage_textContent (dom s2) = m2) by now subst.
  assert (B : errorToast_display (dom s2) = js "block") by now subst.
  clear E2 T.
  eexists. split; [cbn [step]; rewrite Hn; reflexivity|].
  split; [exact B|]. split; [reflexivity|]. split; [exact M | exact Hr].
Qed.

(** *** What requests carry *)

Lemma sendMessage_requests ts s :
  exists new, fetches (sendMessage ts s) = fetches s ++ new
              /\ Forall trimmed_question new.
Proof.
  destruct (send_cases ts s) as [->|[Ht Hi]].
  - exists []. now rewrite app_nil_r.
  - destruct (sendMessage_accepted ts s Ht Hi) as (_ & _ & E & _).
    eexists. split; [exact E|]. constructor; [|constructor].
    split; [exact Ht | apply trim_idempotent].
Qed.

Lemma step_requests e s s' :
  step e s = Some s' ->
  exists new, fetches s' = fetches s ++ new /\ Forall trimmed_question new.
Proof.
  intros E. destruct e; cbn [step] in E.
  - injection E as <-. apply sendMessage_requests.
  - injection E as <-. exists []. now rewrite app_nil_r.
  - injection E as <-. unfold askSampleQuestion.
    apply (sendMessage_requests ts
             (handleInputChange
                (with_dom (set_messageInput_value (normalize_newlines q)) s))).
  - injection E as <-. rewrite startNewChat_state.
    exists []. now rewrite app_nil_r.
  - destruct (nth_error (pending s) i) as [rq|] eqn:Hp; [|discriminate E].
    destruct (answer_cases r) as [(a & session & Ha)|Ha].
    + destruct (settle_answer i r ts s rq a session Hp Ha)
        as (s0 & St & (_ & _ & F & _) & _).
      cbn [step] in St. rewrite Hp in St. rewrite St in E. injection E as <-.
      exists []. now rewrite app_nil_r.
    + destruct (settle_no_answer i r ts s rq Hp Ha)
        as (s0 & e0 & St & (_ & _ & F & _) & _).
      cbn [step] in St. rewrite Hp in St. rewrite St in E. injection E as <-.
      exists []. now rewrite app_nil_r.
  - destruct (nth_error (timers s) i) as [[dl [|]]|]; [| |discriminate E];
      injection E as <-; exists []; now rewrite app_nil_r.
  - rewrite exportChatHistory_state in E. injection E as <-.
    exists []. now rewrite app_nil_r.
  - injection E as <-. exists []. now rewrite app_nil_r.
  - injection E as <-. exists []. now rewrite app_nil_r.
Qed.

Lemma step_requests_inv e s s' :
  Forall trimmed_question (fetches s) -> step e s = Some s' ->
  Forall trimmed_question (fetches s').
Proof.
  intros H E. destruct (step_requests e s s' E) as (new & -> & F).
  apply Forall_app. now split.
Qed.

(** X9. Every request the controller ever makes carries a question that
    is not empty and has no white space at either end, so trimming it
    again changes nothing: the precondition that the backend is promised
    holds for all of [fetch]'s calls. *)
Theorem X9_every_question_is_nonempty_and_trimmed :
  forall s, reachable s ->
    Forall (fun r => question r <> [] /\ trim (question r) = question r)
           (fetches s).
Proof.
  intros s (d & now & suffix & evs & R).
  assert (F : Forall trimmed_question (fetches s)).
  { apply (run_preserves (fun x => Forall trimmed_question (fetches x))
             step_requests_inv evs (constructor d now suffix) s);
      [constructor | exact R]. }
  eapply Forall_impl; [|exact F].
  intros r [T E]. split; [|exact E].
  intros N. rewrite N in T. discriminate T.
Qed.




(** *** After a request has settled *)

Lemma brings_no_answer_spec r : brings_no_answer r -> answer_of r = None.
Proof.
  unfold answer_of. destruct r as [|status body]; [reflexivity|].
  cbn [brings_no_answer sendToAPI_settled].
  destruct (ok status) eqn:Hok; cbn [negb].
  - intros [H|H]; [discriminate H|].
    destruct body as [| |d [a|] session]; try reflexivity; discriminate H.
  - intros _. destruct body as [| |[d|] a session]; try reflexivity.
    destruct (truthy d); reflexivity.
Qed.

(** X11. Every way of not getting an answer ends the same way: whether
    the call fails, the status is outside 200-299 (with or without a
    detail), or a 2xx body is not JSON, is [null] or lacks a string
    [answer], the transcript and the token are left as they were - a
    [session_id] in such a body is not adopted - the toast shows the one
    fixed text, the error goes to the console, and [isTyping] is
    cleared. *)
Theorem X11_all_failures_surface_alike :
  forall i r ts s rq,
    nth_error (pending s) i = Some rq ->
    brings_no_answer r ->
    exists s' e,
      step (FetchSettled i r ts) s = Some s'
      /\ messageHistory s' = messageHistory s
      /\ sessionId s' = sessionId s
      /\ isTyping s' = false
      /\ errorToast_display (dom s') = js "block"
      /\ errorMessage_textContent (dom s')
         = js "Failed to get response. Please try again."
      /\ console s' = console s ++ [mkConsoleEntry (js "Chat error:") e]
      /\ timers s' = timers s ++ [mkTimer 5000 HideError].
Proof.
  intros i r ts s rq Hp Hr. apply brings_no_answer_spec in Hr.
  destruct (settle_no_answer i r ts s rq Hp Hr)
    as (s' & e & St & (T & _) & H1 & _ & H3 & H4 & H5 & H6 & H7).
  exists s', e. repeat split; assumption.
Qed.

(** X12. No outcome of a request locks the input: once a request has
    settled, in whatever way, [isTyping] is cleared, the text typed while
    waiting is still in the textarea, the send button is enabled exactly
    when that text is not blank, and if it is not blank a send is
    accepted. *)
Theorem X12_input_is_usable_after_any_outcome :
  forall i r ts s s',
    step (FetchSettled i r ts) s = Some s' ->
    isTyping s' = false
    /\ messageInput_value (dom s') = messageInput_value (dom s)
    /\ sendBtn_disabled (dom s')
       = negb (truthy (trim (messageInput_value (dom s))))
    /\ (truthy (trim (messageInput_value (dom s))) = true ->
        forall ts',
          messageHistory (sendMessage ts' s')
          = messageHistory s'
            ++ [mkMessage (trim (messageInput_value (dom s))) User ts']).
Proof.
  intros i r ts s s' E.
  destruct (nth_error (pending s) i) as [rq|] eqn:Hp;
    [|cbn [step] in E; rewrite Hp in E; discriminate E].
  assert (C : settled_common i s s').
  { destruct (answer_cases r) as [(a & session & Ha)|Ha].
    - destruct (settle_answer i r ts s rq a session Hp Ha) as (s0 & St & C & _).
      rewrite St in E. now injection E as <-.
    - destruct (settle_no_answer i r ts s rq Hp Ha) as (s0 & e0 & St & C & _).
      rewrite St in E. now injection E as <-. }
  destruct C as (T & _ & _ & V & _ & _ & _ & B). unfold button_inv in B.
  rewrite T, V, orb_false_r in B.
  repeat split; try assumption.
  intros Ht ts'.
  assert (Ht' : truthy (trim (messageInput_value (dom s'))) = true)
    by now rewrite V.
  destruct (sendMessage_accepted ts' s' Ht' T) as (_ & H & _).
  now rewrite V in H.
Qed.

(** *** Keys *)

(** X13. What the Enter key does in the textarea.  With Shift (and neither
    Ctrl nor Meta) nothing is sent.  Alone it is a send.  With Ctrl or
    Meta both listeners run, the textarea's before the document's: a
    question that passes the guard is requested and then wiped by the new
    chat, which leaves an empty transcript, the welcome screen, the new
    token - and the request still in flight, so that sends stay
    rejected until it settles. *)
Theorem X13_enter_key_combinations :
  forall e ts now suffix s,
    key e = js "Enter" ->
    (shiftKey e = true -> ctrlKey e = false -> metaKey e = false ->
       keydown_in_input e ts now suffix s = s)
    /\ (shiftKey e = false -> ctrlKey e = false -> metaKey e = false ->
          keydown_in_input e ts now suffix s = sendMessage ts s)
    /\ (shiftKey e = false -> ctrlKey e = true \/ metaKey e = true ->
          run [SendRequested ts; NewChatRequested now suffix] s
          = Some (keydown_in_input e ts now suffix s)
          /\ (truthy (trim (messageInput_value (dom s))) = true ->
              isTyping s = false ->
              let s' := keydown_in_input e ts now suffix s in
              messageHistory s' = []
              /\ chatMessages_children (dom s') = []
              /\ fetches s'
                 = fetches s
                   ++ [mkRequest (trim (messageInput_value (dom s)))
                                 (sessionId s)]
              /\ pending s'
                 = pending s
                   ++ [mkRequest (trim (messageInput_value (dom s)))
                                 (sessionId s)]
              /\ isTyping s' = true
              /\ welcomeScreen_display (dom s') = js "flex"
              /\ sessionId s'
                 = Some (js "session_" ++ dec now ++ js "_" ++ suffix)
              /\ forall ts', sendMessage ts' s' = s')).
Proof.
  intros e ts now suffix s Hk.
  assert (Ek : jsstring_eqb (key e) (js "Enter") = true)
    by (rewrite Hk; vm_compute; reflexivity).
  unfold keydown_in_input, onDocumentKeydown, onInputKeydown.
  rewrite Ek. split; [|split].
  - intros -> -> ->. reflexivity.
  - intros -> -> ->. reflexivity.
  - intros -> Hc.
    assert (Ec : ctrlKey e || metaKey e = true)
      by (destruct Hc as [-> | ->]; [reflexivity | apply orb_true_r]).
    rewrite Ec. cbn [negb andb]. split; [reflexivity|].
    intros Ht Hi.
    destruct (sendMessage_accepted ts s Ht Hi)
      as (E0 & _ & E2 & E3 & _).
    remember (sendMessage ts s) as s1 eqn:E1. clear E1.
    cbn zeta. rewrite startNewChat_state.
    cbn [messageHistory chatMessages_children dom fetches pending isTyping
         welcomeScreen_display sessionId].
    repeat (split; [first [reflexivity | assumption]|]).
    intros ts'. apply sendMessage_rejected.
    cbn [isTyping]. rewrite E0. apply orb_true_r.
Qed.

(** *** The character counter *)

(** X14. The counter shows the length of the raw input against 1000 and
    has two colours only: the warning colour when the input is longer than
    900 characters, the light colour otherwise.  The error colour of line
    109 is never assigned, whatever the length. *)
Theorem X14_counter_never_turns_to_the_error_colour :
  forall s,
    let n := List.length (messageInput_value (dom s)) in
    let s' := handleInputChange s in
    charCounter_textContent (dom s') = dec (N.of_nat n) ++ js "/1000"
    /\ charCounter_color (dom s') <> js "var(--error-color)"
    /\ ((900 < n)%nat -> charCounter_color (dom s') = js "var(--warning-color)")
    /\ ((n <= 900)%nat -> charCounter_color (dom s') = js "var(--text-light)").
Proof.
  intros s n s'.
  assert (C : charCounter_color (dom s')
              = if 900 <? N.of_nat n then js "var(--warning-color)"
                else if 950 <? N.of_nat n then js "var(--error-color)"
                else js "var(--text-light)") by reflexivity.
  split; [reflexivity|].
  destruct (N.ltb_spec 900 (N.of_nat n)) as [L|L].
  - rewrite C. split; [|split].
    + intros H. vm_compute in H. discriminate H.
    + reflexivity.
    + intros H. lia.
  - destruct (N.ltb_spec 950 (N.of_nat n)) as [L'|L']; [lia|].
    rewrite C. split; [|split].
    + intros H. vm_compute in H. discriminate H.
    + intros H. lia.
    + reflexivity.
Qed.

(** *** What [formatMessage] returns *)

(** X15. No newline survives formatting: whatever the text, the HTML that
    [formatMessage] returns contains no newline character - each has
    become [<br>], also inside bold, emphasised or code runs. *)
Theorem X15_formatted_text_has_no_newline :
  forall txt, ~ In 10 (formatMessage txt).
Proof.
  intros txt.
  assert (F : Forall (fun c => c <> 10) (formatMessage txt)).
  { unfold formatMessage, replace_delimited. cbn zeta.
    assert (T : forall l, free_of 10 l = true -> Forall (fun c => c <> 10) l).
    { intros l Hl. apply Forall_forall. now apply free_of_spec. }
    apply replace_from_keeps; [now apply T | now apply T|].
    apply replace_from_keeps; [now apply T | now apply T|].
    apply replace_from_keeps; [now apply T | now apply T|].
    apply replace_newlines_keeps; [now apply T|].
    apply Forall_forall. intros c _ H. exact H. }
  rewrite Forall_forall in F. intros H. exact (F 10 H eq_refl).
Qed.

(** X16. What the patterns do to one marked run.  Around a run [x] that
    stays on one line and has no asterisk or backquote, between texts [a]
    and [b] that have no newline, asterisk or backquote: [**x**] becomes
    [<strong>x</strong>], [*x*] becomes [<em>x</em>], and a run between
    backquotes becomes [<code>x</code>]; [a], [x] and [b] are copied as
    they are. *)
Theorem X16_marked_runs_become_tags :
  forall a x b,
    pattern_free a = true -> inline_text x = true -> pattern_free b = true ->
    formatMessage (a ++ js "**" ++ x ++ js "**" ++ b)
    = a ++ js "<strong>" ++ x ++ js "</strong>" ++ b
    /\ formatMessage (a ++ js "*" ++ x ++ js "*" ++ b)
       = a ++ js "<em>" ++ x ++ js "</em>" ++ b
    /\ formatMessage (a ++ js "`" ++ x ++ js "`" ++ b)
       = a ++ js "<code>" ++ x ++ js "</code>" ++ b.
Proof.
  intros a x b Ha Hx Hb.
  destruct (pattern_free_free a Ha) as (A0 & A1 & A2).
  destruct (pattern_free_free b Hb) as (B0 & B1 & B2).
  destruct (inline_text_parts x Hx) as (X0 & X1 & X2 & X3).
  assert (P : forall d, free_of 10 d = true ->
              replace_newlines (js "<br>") (a ++ d ++ x ++ d ++ b)
              = a ++ d ++ x ++ d ++ b).
  { intros d Hd. apply replace_newlines_plain. apply free_of_spec.
    rewrite !free_of_app, A0, X0, B0, Hd. reflexivity. }
  split; [|split].
  - change (formatMessage (a ++ js "**" ++ x ++ js "**" ++ b))
      with (format_inline
              (replace_newlines (js "<br>") (a ++ js "**" ++ x ++ js "**" ++ b))).
    rewrite P by reflexivity. now apply format_inline_bold.
  - change (formatMessage (a ++ js "*" ++ x ++ js "*" ++ b))
      with (format_inline
              (replace_newlines (js "<br>") (a ++ js "*" ++ x ++ js "*" ++ b))).
    rewrite P by reflexivity. now apply format_inline_em.
  - change (formatMessage (a ++ js "`" ++ x ++ js "`" ++ b))
      with (format_inline
              (replace_newlines (js "<br>") (a ++ js "`" ++ x ++ js "`" ++ b))).
    rewrite P by reflexivity. now apply format_inline_code.
Qed.

(** X17. Line breaks inside an emphasised run.  A newline between two
    asterisks does not stop the emphasis, since it has become [<br>]
    before the asterisks are looked at; any other line terminator
    (carriage return, U+2028, U+2029) does, because [.] does not match
    it, and the text is then returned as typed, asterisks included. *)
Theorem X17_emphasis_spans_newline_only :
  forall a x1 x2 b,
    pattern_free a = true -> inline_text x1 = true ->
    inline_text x2 = true -> pattern_free b = true ->
    formatMessage (a ++ js "*" ++ x1 ++ nl ++ x2 ++ js "*" ++ b)
    = a ++ js "<em>" ++ x1 ++ js "<br>" ++ x2 ++ js "</em>" ++ b
    /\ forall lt,
         is_line_terminator lt = true -> lt <> 10 ->
         formatMessage (a ++ js "*" ++ x1 ++ [lt] ++ x2 ++ js "*" ++ b)
         = a ++ js "*" ++ x1 ++ [lt] ++ x2 ++ js "*" ++ b.
Proof.
  intros a x1 x2 b Ha Hx1 Hx2 Hb.
  destruct (pattern_free_free a Ha) as (A0 & A1 & A2).
  destruct (pattern_free_free b Hb) as (B0 & B1 & B2).
  destruct (inline_text_parts x1 Hx1) as (X0 & X1 & X2 & X3).
  destruct (inline_text_parts x2 Hx2) as (Y0 & Y1 & Y2 & Y3).
  split.
  - change (formatMessage (a ++ js "*" ++ x1 ++ nl ++ x2 ++ js "*" ++ b))
      with (format_inline
              (replace_newlines (js "<br>")
                 (a ++ js "*" ++ x1 ++ nl ++ x2 ++ js "*" ++ b))).
    rewrite !replace_newlines_app.
    rewrite (replace_newlines_plain _ a) by now apply free_of_spec.
    rewrite (replace_newlines_plain _ x1) by now apply free_of_spec.
    rewrite (replace_newlines_plain _ x2) by now apply free_of_spec.
    rewrite (replace_newlines_plain _ b) by now apply free_of_spec.
    change (replace_newlines (js "<br>") (js "*")) with (js "*").
    change (replace_newlines (js "<br>") nl) with (js "<br>").
    replace (x1 ++ js "<br>" ++ x2 ++ js "*" ++ b)
      with ((x1 ++ js "<br>" ++ x2) ++ js "*" ++ b)
      by (now rewrite <- !app_assoc).
    rewrite format_inline_em; try assumption.
    + now rewrite <- !app_assoc.
    + rewrite !free_of_app, X1, Y1. reflexivity.
    + rewrite !free_of_app, X2, Y2. reflexivity.
    + rewrite !one_line_text_app, X3, Y3. reflexivity.
  - intros lt L N.
    assert (L10 : negb (lt =? 10) = true)
      by (apply negb_true_iff, N.eqb_neq; exact N).
    change (formatMessage (a ++ js "*" ++ x1 ++ [lt] ++ x2 ++ js "*" ++ b))
      with (format_inline
              (replace_newlines (js "<br>")
                 (a ++ js "*" ++ x1 ++ [lt] ++ x2 ++ js "*" ++ b))).
    rewrite replace_newlines_plain.
    + now apply format_inline_blocked.
    + apply free_of_spec.
      repeat (rewrite free_of_app || rewrite free_of_cons).
      rewrite A0, X0, L10, Y0, B0. reflexivity.
Qed.

(** *** The name of the exported file *)

Lemma split_head_before sep date rest :
  (forall c, In c date -> c <> sep) ->
  split_head sep (date ++ sep :: rest) = date.
Proof.
  induction date as [|c date IH]; intros H; cbn.
  - now rewrite N.eqb_refl.
  - destruct (N.eqb_spec c sep) as [E|_];
      [exfalso; apply (H c); [now left | exact E]|].
    f_equal. apply IH. intros c0 H0. apply H. now right.
Qed.

(** X18. The exported file is named after the day: for a timestamp made of
    a date part without the letter T, a T and anything after it - the
    form [toISOString] gives - the file is called
    [gentaxai-chat-<date>.json], and its type is [application/json]. *)
Theorem X18_export_is_named_after_the_date :
  forall date rest url s,
    free_of 84 date = true ->
    file_name (fst (exportChatHistory (date ++ js "T" ++ rest) url s))
    = js "gentaxai-chat-" ++ date ++ js ".json"
    /\ mime_type (fst (exportChatHistory (date ++ js "T" ++ rest) url s))
       = js "application/json".
Proof.
  intros date rest url s H. split; [|reflexivity].
  change (file_name (fst (exportChatHistory (date ++ js "T" ++ rest) url s)))
    with (js "gentaxai-chat-" ++ split_head 84 (date ++ 84 :: rest)
          ++ js ".json").
  rewrite split_head_before by now apply free_of_spec. reflexivity.
Qed.

(** *** Sample questions and late answers *)

(** Line-break normalization leaves no carriage return, and changes
    nothing in a text without one. *)
Lemma normalize_newlines_no_cr v : ~ In 13 (normalize_newlines v).
Proof.
  remember (List.length v) as n eqn:Hn.
  revert v Hn. induction n as [n IH] using lt_wf_ind. intros v Hn.
  destruct v as [|c r]; [intros []|]. cbn [normalize_newlines].
  destruct (N.eqb_spec c 13) as [->|Hc].
  - destruct r as [|l r']; [intros [H|[]]; discriminate H|].
    destruct (N.eqb_spec l 10) as [->|Hl].
    + intros [H|H]; [discriminate H|].
      revert H. apply (IH (List.length r')); [subst n; cbn; lia | reflexivity].
    + intros [H|H]; [discriminate H|].
      revert H. apply (IH (List.length (l :: r')));
        [subst n; cbn; lia | reflexivity].
  - intros [H|H]; [congruence|].
    revert H. apply (IH (List.length r)); [subst n; cbn; lia | reflexivity].
Qed.

Lemma normalize_newlines_plain v : ~ In 13 v -> normalize_newlines v = v.
Proof.
  induction v as [|c r IH]; [reflexivity|]. intros H. cbn [normalize_newlines].
  destruct (N.eqb_spec c 13) as [->|Hc]; [exfalso; apply H; left; reflexivity|].
  f_equal. apply IH. intros K. apply H. right. exact K.
Qed.

(** X19. A sample question clicked while a request is in flight is not
    sent and not queued, but it replaces whatever was in the textarea:
    the input then holds the sample text as the textarea returns it - with
    every CR LF and CR turned into LF, so the very text when it has no
    carriage return - the counter shows the length of that value, the
    transcript and the requests are as before, and the send button stays
    disabled. *)
Theorem X19_sample_while_awaiting_replaces_the_draft :
  forall q ts s,
    isTyping s = true ->
    messageInput_value (dom (askSampleQuestion q ts s)) = normalize_newlines q
    /\ ~ In 13 (messageInput_value (dom (askSampleQuestion q ts s)))
    /\ (~ In 13 q -> messageInput_value (dom (askSampleQuestion q ts s)) = q)
    /\ messageHistory (askSampleQuestion q ts s) = messageHistory s
    /\ fetches (askSampleQuestion q ts s) = fetches s
    /\ pending (askSampleQuestion q ts s) = pending s
    /\ sendBtn_disabled (dom (askSampleQuestion q ts s)) = true
    /\ charCounter_textContent (dom (askSampleQuestion q ts s))
       = dec (N.of_nat (List.length (normalize_newlines q))) ++ js "/1000".
Proof.
  intros q ts s Hi.
  assert (E : askSampleQuestion q ts s
              = handleInputChange
                  (with_dom (set_messageInput_value (normalize_newlines q)) s)).
  { unfold askSampleQuestion. apply sendMessage_rejected.
    change (isTyping (handleInputChange
                        (with_dom (set_messageInput_value (normalize_newlines q))
                           s)))
      with (isTyping s).
    rewrite Hi. apply orb_true_r. }
  rewrite E.
  change (messageInput_value
            (dom (handleInputChange
                    (with_dom (set_messageInput_value (normalize_newlines q))
                       s))))
    with (normalize_newlines q).
  split; [reflexivity|].
  split; [apply normalize_newlines_no_cr|].
  split; [apply normalize_newlines_plain|].
  repeat split.
  change (sendBtn_disabled
            (dom (handleInputChange
                    (with_dom (set_messageInput_value (normalize_newlines q))
                       s))))
    with (negb (truthy (trim (normalize_newlines q))) || isTyping s).
  rewrite Hi. apply orb_true_r.
Qed.

(** X20. An answer that arrives after a new chat is added behind the
    welcome screen: it is the only entry of the new transcript while the
    chat interface stays hidden, and the next question sent shows the
    chat with that late answer above the question. *)
Theorem X20_late_answer_waits_behind_the_welcome_screen :
  forall s now suffix i rq r a session ts,
    nth_error (pending s) i = Some rq ->
    answer_of r = Some (a, session) ->
    exists s',
      step (FetchSettled i r ts) (startNewChat now suffix s) = Some s'
      /\ messageHistory s' = [mkMessage a Assistant ts]
      /\ chatMessages_children (dom s')
         = [render_message (mkMessage a Assistant ts)]
      /\ welcomeScreen_display (dom s') = js "flex"
      /\ chatInterface_display (dom s') = js "none"
      /\ forall v ts',
           truthy (trim v) = true ->
           chatInterface_display (dom (sendMessage ts' (onInput v s')))
           = js "flex"
           /\ messageHistory (sendMessage ts' (onInput v s'))
              = [mkMessage a Assistant ts; mkMessage (trim v) User ts'].
Proof.
  intros s now suffix i rq r a session ts Hp Ha.
  pose proof (startNewChat_state now suffix s) as N.
  remember (startNewChat now suffix s) as n eqn:En. clear En.
  assert (Hp' : nth_error (pending n) i = Some rq) by (now rewrite N).
  destruct (settle_answer i r ts n rq a session Hp' Ha)
    as (s' & St & (T & _ & _ & _ & W & C & _) & H1 & H2 & _).
  rewrite N in H1, H2, W, C.
  cbn [messageHistory chatMessages_children dom welcomeScreen_display
       chatInterface_display app] in H1, H2, W, C.
  exists s'. repeat (split; [assumption|]).
  intros v ts' Hv.
  assert (Ht : truthy (trim (messageInput_value (dom (onInput v s')))) = true)
    by exact Hv.
  assert (Hi : isTyping (onInput v s') = false) by exact T.
  rewrite (sendMessage_state ts' (onInput v s') Ht Hi).
  cbn [chatInterface_display dom messageHistory].
  change (chatInterface_display (dom (onInput v s')))
    with (chatInterface_display (dom s')).
  change (messageHistory (onInput v s')) with (messageHistory s').
  change (messageInput_value (dom (onInput v s'))) with v.
  rewrite C, H1. split; reflexivity.
Qed.

(** *** The loading overlay *)

Lemma sendMessage_overlay ts s :
  loadingOverlay_display (dom (sendMessage ts s))
  = loadingOverlay_display (dom s).
Proof.
  destruct (send_cases ts s) as [->|[Ht Hi]]; [reflexivity|].
  now rewrite (sendMessage_state ts s Ht Hi).
Qed.

Lemma resumed_overlay r ts s :
  loadingOverlay_display (dom (sendMessage_resumed r ts s))
  = loadingOverlay_display (dom s).
Proof.
  destruct r as [[| |d [a|] [t|]]|e]; try reflexivity.
  cbn [sendMessage_resumed]. destruct (truthy t); reflexivity.
Qed.

Lemma step_overlay e s s' :
  overlay_hidden s -> step e s = Some s' -> overlay_hidden s'.
Proof.
  unfold overlay_hidden. intros H E. destruct e; cbn [step] in E.
  - injection E as <-. now rewrite sendMessage_overlay.
  - injection E as <-. exact H.
  - injection E as <-. unfold askSampleQuestion.
    rewrite sendMessage_overlay. exact H.
  - injection E as <-. rewrite startNewChat_state.
    cbn [loadingOverlay_display dom]. intros F. vm_compute in F. discriminate F.
  - destruct (nth_error (pending s) i) as [rq|]; [|discriminate E].
    remember (sendToAPI_settled r) as o eqn:Eo. clear Eo.
    remember (set_pending (remove_nth i (pending s)) s) as x eqn:Ex.
    assert (Hx : loadingOverlay_display (dom x) = loadingOverlay_display (dom s))
      by now subst.
    clear Ex.
    pose proof (resumed_overlay o ts x) as R.
    remember (sendMessage_resumed o ts x) as y eqn:Ey. clear Ey.
    injection E as <-. now rewrite R, Hx.
  - destruct (nth_error (timers s) i) as [[dl [|]]|]; [| |discriminate E];
      injection E as <-; exact H.
  - rewrite exportChatHistory_state in E. injection E as <-. exact H.
  - injection E as <-. exact H.
  - injection E as <-. exact H.
Qed.

(** X21. The loading overlay is shown and hidden within one call of
    [startNewChat], which does not wait for anything in between: on a page
    whose overlay starts hidden, the overlay is hidden in every state the
    controller is in between two events. *)
Theorem X21_loading_overlay_is_never_left_shown :
  forall d now suffix evs s,
    loadingOverlay_display d <> js "flex" ->
    run evs (constructor d now suffix) = Some s ->
    loadingOverlay_display (dom s) <> js "flex".
Proof.
  intros d now suffix evs s Hd R.
  apply (run_preserves overlay_hidden step_overlay evs
           (constructor d now suffix) s); [|exact R].
  exact Hd.
Qed.

End Controller.

(** ** The statements evaluated on a concrete page *)

Lemma awaiting_reachable : reachable one_line (awaiting one_line).
Proof.
  exists blank_page, 1700000000000, (js "k3x9q2m1z"),
    [InputChanged (js "What is GST?"); SendRequested (js "10:15 AM")].
  vm_compute. reflexivity.
Qed.

Lemma awaiting_pending :
  nth_error (pending (awaiting one_line)) 0 = Some gst_request.
Proof. vm_compute. reflexivity. Qed.

Lemma C1_witness :
  isTyping (awaiting one_line) = true
  /\ sendMessage one_line (js "10:16 AM") (awaiting one_line) = awaiting one_line
  /\ (List.length (pending (awaiting one_line)) <= 1)%nat.
Proof.
  destruct (C1_send_while_awaiting_is_noop one_line) as [A B].
  split; [vm_compute; reflexivity|]. split.
  - apply (A (js "10:16 AM") (awaiting one_line)). vm_compute. reflexivity.
  - apply (B (awaiting one_line)).
    exists blank_page, 1700000000000, (js "k3x9q2m1z"),
      [InputChanged (js "What is GST?"); SendRequested (js "10:15 AM")].
    vm_compute. reflexivity.
Defined.

(** C2 fails on the program: the answer to the question asked before the
    new chat lands in the new transcript, and the token of the server
    replaces the new one. *)
Lemma C2_counterexample : ~ stale_response_discarded one_line.
Proof.
  intros H.
  destruct (step one_line (FetchSettled 0 srv_response (js "10:16 AM"))
              (startNewChat one_line 1700000060000 (js "p0o9i8u7y")
                 (awaiting one_line))) as [s'|] eqn:E.
  - destruct (H (awaiting one_line) 1700000060000 (js "p0o9i8u7y") 0%nat
                gst_request srv_response (js "10:16 AM") s'
                awaiting_reachable awaiting_pending E) as [E1 _].
    vm_compute in E. injection E as <-.
    vm_compute in E1. discriminate E1.
  - vm_compute in E. discriminate E.
Qed.

Lemma C2_witness :
  nth_error (pending (awaiting one_line)) 0 = Some gst_request
  /\ ok 200 = true
  /\ exists s',
       step one_line (FetchSettled 0 srv_response (js "10:16 AM"))
         (startNewChat one_line 1700000060000 (js "p0o9i8u7y") (awaiting one_line))
       = Some s'
       /\ messageHistory
            (startNewChat one_line 1700000060000 (js "p0o9i8u7y")
               (awaiting one_line)) = []
       /\ messageHistory s'
          = [mkMessage (js "GST is a tax.") Assistant (js "10:16 AM")]
       /\ sessionId s'
          = token_after (Some (js "srv123"))
              (Some (js "session_" ++ dec 1700000060000 ++ js "_"
                     ++ js "p0o9i8u7y")).
Proof.
  split; [vm_compute; reflexivity|]. split; [reflexivity|].
  apply (C2_stale_response_is_applied one_line (awaiting one_line)
           1700000060000 (js "p0o9i8u7y") 0 gst_request 200 None
           (js "GST is a tax.") (Some (js "srv123")) (js "10:16 AM")).
  - vm_compute. reflexivity.
  - reflexivity.
Defined.


Lemma long_typed_reachable : reachable one_line (long_typed one_line).
Proof.
  exists blank_page, 1700000000000, (js "k3x9q2m1z"), [InputChanged long_text].
  vm_compute. reflexivity.
Qed.

Lemma long_typed_length :
  (1000 < List.length (trim (messageInput_value (dom (long_typed one_line)))))%nat.
Proof. apply Nat.ltb_lt. vm_compute. reflexivity. Qed.

(** C3 fails on the program: an input of 1001 characters is sent. *)
Lemma C3_counterexample : ~ over_length_blocks_send one_line.
Proof.
  intros H.
  destruct (H (js "10:15 AM") (long_typed one_line)
              long_typed_reachable long_typed_length) as [E _].
  vm_compute in E. discriminate E.
Qed.

Lemma C3_witness :
  (1000 < List.length (trim (messageInput_value (dom (long_typed one_line)))))%nat
  /\ isTyping (long_typed one_line) = false
  /\ fetches (sendMessage one_line (js "10:15 AM") (long_typed one_line))
     = fetches (long_typed one_line)
       ++ [mkRequest (trim (messageInput_value (dom (long_typed one_line))))
                     (sessionId (long_typed one_line))].
Proof.
  split; [apply Nat.ltb_lt; vm_compute; reflexivity|].
  split; [vm_compute; reflexivity|].
  apply (C3_over_length_input_is_sent one_line (js "10:15 AM")
           (long_typed one_line)).
  - apply Nat.ltb_lt. vm_compute. reflexivity.
  - vm_compute. reflexivity.
Defined.

(** C4 fails on the program: the toast does not show the detail. *)
Lemma C4_counterexample : ~ detail_shown_on_failure one_line.
Proof.
  intros H.
  destruct (step one_line (FetchSettled 0 failure_response (js "10:16 AM"))
              (awaiting one_line)) as [s'|] eqn:E.
  - destruct (H (awaiting one_line) 0%nat gst_request (js "10:16 AM") s'
                awaiting_reachable awaiting_pending E) as (_ & E1 & _).
    vm_compute in E. injection E as <-.
    vm_compute in E1. discriminate E1.
  - vm_compute in E. discriminate E.
Qed.

Lemma C4_witness :
  ok 500 = false
  /\ truthy (js "index unavailable") = true
  /\ exists s',
       step one_line (FetchSettled 0 failure_response (js "10:16 AM"))
         (awaiting one_line) = Some s'
       /\ interaction s' = Errored
       /\ errorMessage_textContent (dom s')
          = js "Failed to get response. Please try again."
       /\ messageHistory s' = messageHistory (awaiting one_line).
Proof.
  split; [reflexivity|]. split; [reflexivity|].
  destruct (C4_failure_shows_generic_message one_line (awaiting one_line)
              0%nat gst_request 500 (js "index unavailable") None None
              (js "10:16 AM"))
    as (s' & St & E1 & E2 & _ & E4 & _).
  - vm_compute. reflexivity.
  - reflexivity.
  - reflexivity.
  - vm_compute. reflexivity.
  - exists s'. repeat split; assumption.
Defined.

Lemma C5_witness :
  ok 200 = true
  /\ step one_line (FetchSettled 0 srv_response (js "10:16 AM"))
       (awaiting one_line) = Some (answered one_line)
  /\ sessionId (answered one_line) = Some (js "srv123")
  /\ forall s'',
       run one_line [InputChanged (js "And VAT?"); SendRequested (js "10:17 AM")]
         (answered one_line) = Some s'' ->
       exists new,
         fetches s'' = fetches (answered one_line) ++ new
         /\ Forall (fun r => session_id r = sessionId (answered one_line)) new.
Proof.
  assert (St : step one_line (FetchSettled 0 srv_response (js "10:16 AM"))
                 (awaiting one_line) = Some (answered one_line))
    by (vm_compute; reflexivity).
  destruct (C5_token_adoption one_line (awaiting one_line) 0%nat 200 None
              (js "GST is a tax.") (Some (js "srv123")) (js "10:16 AM")
              (answered one_line) eq_refl St) as (A & _ & C).
  split; [reflexivity|]. split; [exact St|]. split.
  - apply (A (js "srv123")); reflexivity.
  - intros s'' R.
    apply (C [InputChanged (js "And VAT?"); SendRequested (js "10:17 AM")] s'');
      [reflexivity | exact R].
Defined.

Lemma C6_witness :
  trim (messageInput_value (dom (hello_typed one_line))) <> []
  /\ isTyping (hello_typed one_line) = false
  /\ messageHistory (sendMessage one_line (js "10:15 AM") (hello_typed one_line))
     = messageHistory (hello_typed one_line)
       ++ [mkMessage (trim (messageInput_value (dom (hello_typed one_line))))
             User (js "10:15 AM")].
Proof.
  assert (Hne : trim (messageInput_value (dom (hello_typed one_line))) <> [])
    by (vm_compute; discriminate).
  assert (Hi : isTyping (hello_typed one_line) = false)
    by (vm_compute; reflexivity).
  destruct (C6_trimmed_text_stored_and_sent one_line (js "10:15 AM")
              (hello_typed one_line)) as (_ & _ & _ & _ & A & _).
  split; [exact Hne|]. split; [exact Hi|].
  exact (proj1 (A Hne Hi)).
Defined.

(** C7 fails on the program: a new chat while a request is in flight does
    not end in [Idle]. *)
Lemma C7_counterexample : ~ new_chat_idempotent_to_idle one_line.
Proof.
  intros H.
  destruct (H (awaiting one_line) 1700000060000 (js "p0o9i8u7y")
              1700000061000 (js "a1s2d3f4g") awaiting_reachable)
    as (_ & _ & _ & E).
  vm_compute in E. discriminate E.
Qed.

Lemma C7_witness :
  isTyping fresh = false
  /\ errorToast_display (dom fresh) <> js "block"
  /\ interaction (startNewChat one_line 1700000061000 (js "a1s2d3f4g") fresh)
     = Idle
  /\ startNewChat one_line 1700000061000 (js "a1s2d3f4g")
       (startNewChat one_line 1700000060000 (js "p0o9i8u7y") fresh)
     = startNewChat one_line 1700000061000 (js "a1s2d3f4g") fresh.
Proof.
  assert (Hi : isTyping fresh = false) by (vm_compute; reflexivity).
  assert (He : errorToast_display (dom fresh) <> js "block")
    by (vm_compute; discriminate).
  destruct (C7_new_chat_absorbs one_line fresh 1700000060000 (js "p0o9i8u7y")
              1700000061000 (js "a1s2d3f4g"))
    as (A & _ & _ & _ & _ & _ & _ & _ & _ & _ & B & _ & _).
  split; [exact Hi|]. split; [exact He|]. split; [exact (B Hi He) | exact A].
Defined.

(** C8 fails on the program as worded: a sample question clicked while a
    request is in flight is rejected by the send, yet the shortcut has
    refreshed the counter, which populating the input does not do; and a
    blank sample on the first page leaves the height of the textarea,
    which typing sets. *)
Lemma C8_counterexample :
  ~ sample_is_populate_then_send one_line
  /\ ~ sample_is_type_then_send one_line.
Proof.
  split; intros H.
  - specialize (H (js "What is VAT?") (js "10:16 AM") (awaiting one_line)
                  awaiting_reachable).
    apply (f_equal (fun s => charCounter_textContent (dom s))) in H.
    vm_compute in H. discriminate H.
  - assert (R : reachable one_line fresh)
      by (exists blank_page, 1700000000000, (js "k3x9q2m1z"), [];
          reflexivity).
    specialize (H (js " ") (js "10:16 AM") fresh R).
    apply (f_equal (fun s => messageInput_height (dom s))) in H.
    vm_compute in H. discriminate H.
Qed.

Lemma C8_witness :
  truthy (trim (normalize_newlines (js "What is GST?"))) = true
  /\ isTyping fresh = false
  /\ askSampleQuestion one_line (js "What is GST?") (js "10:15 AM") fresh
     = populate_and_send one_line (js "What is GST?") (js "10:15 AM") fresh.
Proof.
  assert (Ht : truthy (trim (normalize_newlines (js "What is GST?"))) = true)
    by (vm_compute; reflexivity).
  assert (Hi : isTyping fresh = false) by (vm_compute; reflexivity).
  destruct (C8_sample_question_is_ordinary_send one_line (js "What is GST?")
              (js "10:15 AM") fresh) as (A & _).
  split; [exact Ht|]. split; [exact Hi|]. exact (proj1 (A Ht Hi)).
Defined.

Lemma C9_witness :
  snd (exportChatHistory (js "2026-01-15T10:20:00.000Z") (js "blob:1")
         (answered one_line)) = answered one_line
  /\ parse (content (fst (exportChatHistory (js "2026-01-15T10:20:00.000Z")
                            (js "blob:1") (answered one_line))))
     = Some (JArray [JObject [(js "text", JString (js "What is GST?"));
                              (js "sender", JString (js "user"));
                              (js "timestamp", JString (js "10:15 AM"))];
                     JObject [(js "text", JString (js "GST is a tax."));
                              (js "sender", JString (js "assistant"));
                              (js "timestamp", JString (js "10:16 AM"))]])
  /\ content (fst (exportChatHistory (js "2026-01-15T10:20:00.000Z")
                     (js "blob:1") (answered one_line)))
     = content (fst (exportChatHistory (js "2026-01-16T08:00:00.000Z")
                       (js "blob:2")
                       (onInput one_line (js "And VAT?") (answered one_line))))
  /\ messageHistory (answered one_line)
     = messageHistory (onInput one_line (js "And VAT?") (answered one_line)).
Proof.
  assert (E : content (fst (exportChatHistory (js "2026-01-15T10:20:00.000Z")
                              (js "blob:1") (answered one_line)))
              = content (fst (exportChatHistory
                                (js "2026-01-16T08:00:00.000Z") (js "blob:2")
                                (onInput one_line (js "And VAT?")
                                   (answered one_line)))))
    by (vm_compute; reflexivity).
  destruct (C9_export_is_read_only one_line
              (js "2026-01-15T10:20:00.000Z") (js "blob:1")
              (answered one_line))
    as (A & _ & _ & _ & _ & _ & _ & P & _ & B & _).
  split; [exact A|]. split; [exact P|]. split; [exact E|].
  exact (B (js "2026-01-16T08:00:00.000Z") (js "blob:2")
           (onInput one_line (js "And VAT?") (answered one_line)) E).
Defined.

Lemma C10_witness :
  pattern_free (js "<img src=x onerror=alert(1)>") = true
  /\ occurs_in (js "<img src=x onerror=alert(1)>")
       (formatMessage (js "*hi* <img src=x onerror=alert(1)> & more"))
  /\ inline_text (js "<b>&") = true
  /\ formatMessage (js "a<" ++ js "**" ++ js "<b>&" ++ js "**" ++ js ">b")
     = js "a<<strong><b>&</strong>>b"
  /\ formatMessage (js "1 < 2" ++ nl ++ js "<b>&")
     = js "1 < 2<br><b>&".
Proof.
  destruct (C10_message_text_is_not_escaped
              (js "*hi* <img src=x onerror=alert(1)> & more")) as (_ & A & _).
  destruct (C10_message_text_is_not_escaped (js "<b>&"))
    as (_ & _ & P & _ & _ & B & C & _).
  split; [reflexivity|].
  split.
  { apply (A (js "<img src=x onerror=alert(1)>")); [reflexivity|].
    exists (js "*hi* "), (js " & more"). reflexivity. }
  split; [reflexivity|].
  split.
  - exact (proj1 (C eq_refl (js "a<") (js ">b") eq_refl eq_refl)).
  - rewrite (B eq_refl eq_refl (js "1 < 2") eq_refl).
    rewrite (P eq_refl). reflexivity.
Defined.

(** ** The further properties evaluated on a concrete page *)

Lemma answered_run :
  run one_line
    [InputChanged (js "What is GST?"); SendRequested (js "10:15 AM");
     FetchSettled 0 srv_response (js "10:16 AM")]
    (constructor blank_page 1700000000000 (js "k3x9q2m1z"))
  = Some (answered one_line).
Proof. vm_compute. reflexivity. Qed.

Lemma X1_witness :
  sendMessage one_line (js "10:15 AM") (onInput one_line (js "   ") fresh)
  = onInput one_line (js "   ") fresh
  /\ isTyping (sendMessage one_line (js "10:15 AM") (hello_typed one_line))
     = true.
Proof.
  split.
  - destruct (X1_blank_input_is_never_sent one_line (js "10:15 AM")
                (onInput one_line (js "   ") fresh)) as [A _].
    apply A. vm_compute. reflexivity.
  - destruct (X1_blank_input_is_never_sent one_line (js "10:15 AM")
                (hello_typed one_line)) as [_ B].
    destruct B as (_ & _ & B); [vm_compute; reflexivity ..|exact B].
Defined.

Lemma X2_witness :
  exists new,
    messageHistory (answered one_line) = messageHistory fresh ++ new
    /\ (List.length new <= 3)%nat.
Proof.
  apply (X2_transcript_only_grows one_line
           [InputChanged (js "What is GST?"); SendRequested (js "10:15 AM");
            FetchSettled 0 srv_response (js "10:16 AM")]
           fresh (answered one_line)).
  - reflexivity.
  - vm_compute. reflexivity.
Defined.

Lemma X3_witness :
  chatMessages_children (dom (answered one_line))
  = map render_message (messageHistory (answered one_line)).
Proof.
  apply (X3_rendered_messages_are_the_history one_line blank_page
           1700000000000 (js "k3x9q2m1z")
           [InputChanged (js "What is GST?"); SendRequested (js "10:15 AM");
            FetchSettled 0 srv_response (js "10:16 AM")]).
  - reflexivity.
  - vm_compute. reflexivity.
Defined.

Lemma X4_witness :
  sendBtn_disabled
    (dom (onInput one_line (js "Hi")
            (constructor idle_page 1700000000000 (js "k3x9q2m1z"))))
  = negb (truthy (trim (messageInput_value
                         (dom (onInput one_line (js "Hi")
                                 (constructor idle_page 1700000000000
                                    (js "k3x9q2m1z")))))))
    || isTyping (onInput one_line (js "Hi")
                   (constructor idle_page 1700000000000 (js "k3x9q2m1z"))).
Proof.
  apply (X4_send_button_mirrors_the_guard one_line idle_page
           1700000000000 (js "k3x9q2m1z") [InputChanged (js "Hi")]).
  - reflexivity.
  - vm_compute. reflexivity.
Defined.

Lemma X5_witness :
  (welcomeScreen_display (dom (awaiting one_line)) = js "flex"
   /\ chatInterface_display (dom (awaiting one_line)) = js "none")
  \/ (welcomeScreen_display (dom (awaiting one_line)) = js "none"
      /\ chatInterface_display (dom (awaiting one_line)) = js "flex").
Proof.
  apply (X5_exactly_one_screen_is_shown one_line (awaiting one_line)).
  exists blank_page, 1700000000000, (js "k3x9q2m1z"),
    [InputChanged (js "What is GST?"); SendRequested (js "10:15 AM")].
  vm_compute. reflexivity.
Defined.

Lemma X6_witness :
  isTyping (awaiting one_line) = true
  <-> typingIndicator_display (dom (awaiting one_line)) = js "block".
Proof.
  apply (X6_typing_indicator_follows_isTyping one_line blank_page
           1700000000000 (js "k3x9q2m1z")
           [InputChanged (js "What is GST?"); SendRequested (js "10:15 AM")]).
  - intros H. vm_compute in H. discriminate H.
  - vm_compute. reflexivity.
Defined.

Lemma X7_witness :
  In (mkTimer 5000 HideError)
     (timers (showError (js "You are offline. Please check your connection.")
                fresh)).
Proof.
  apply (X7_displayed_toast_has_a_hide_timer one_line blank_page
           1700000000000 (js "k3x9q2m1z") [WentOffline]).
  - intros H. vm_compute in H. discriminate H.
  - vm_compute. reflexivity.
  - vm_compute. reflexivity.
Defined.

Lemma X9_witness :
  Forall (fun r => question r <> [] /\ trim (question r) = question r)
         (fetches (awaiting one_line)).
Proof.
  apply (X9_every_question_is_nonempty_and_trimmed one_line (awaiting one_line)).
  exists blank_page, 1700000000000, (js "k3x9q2m1z"),
    [InputChanged (js "What is GST?"); SendRequested (js "10:15 AM")].
  vm_compute. reflexivity.
Defined.


Lemma X11_witness :
  exists s' e,
    step one_line
      (FetchSettled 0 (Response 200 (JsonFields None None (Some (js "srv9"))))
         (js "10:16 AM"))
      (awaiting one_line) = Some s'
    /\ messageHistory s' = messageHistory (awaiting one_line)
    /\ sessionId s' = sessionId (awaiting one_line)
    /\ isTyping s' = false
    /\ errorToast_display (dom s') = js "block"
    /\ errorMessage_textContent (dom s')
       = js "Failed to get response. Please try again."
    /\ console s'
       = console (awaiting one_line) ++ [mkConsoleEntry (js "Chat error:") e]
    /\ timers s' = timers (awaiting one_line) ++ [mkTimer 5000 HideError].
Proof.
  apply (X11_all_failures_surface_alike one_line 0%nat
           (Response 200 (JsonFields None None (Some (js "srv9"))))
           (js "10:16 AM") (awaiting one_line) gst_request).
  - vm_compute. reflexivity.
  - right. reflexivity.
Defined.

Lemma X12_witness :
  exists s',
    step one_line (FetchSettled 0 failure_response (js "10:16 AM"))
      (onInput one_line (js "And VAT?") (awaiting one_line)) = Some s'
    /\ isTyping s' = false
    /\ messageInput_value (dom s') = js "And VAT?"
    /\ sendBtn_disabled (dom s') = false.
Proof.
  destruct (step one_line (FetchSettled 0 failure_response (js "10:16 AM"))
              (onInput one_line (js "And VAT?") (awaiting one_line)))
    as [s'|] eqn:E.
  - destruct (X12_input_is_usable_after_any_outcome one_line 0%nat
                failure_response (js "10:16 AM")
                (onInput one_line (js "And VAT?") (awaiting one_line)) s' E)
      as (A & B & C & _).
    exists s'. split; [reflexivity|]. split; [exact A|].
    split; [exact B | exact C].
  - vm_compute in E. discriminate E.
Defined.

Lemma X13_witness :
  messageHistory
    (keydown_in_input one_line (mkKeyEvent (js "Enter") false true false)
       (js "10:15 AM") 1700000060000 (js "p0o9i8u7y") (hello_typed one_line))
  = []
  /\ isTyping
       (keydown_in_input one_line (mkKeyEvent (js "Enter") false true false)
          (js "10:15 AM") 1700000060000 (js "p0o9i8u7y")
          (hello_typed one_line))
     = true.
Proof.
  destruct (X13_enter_key_combinations one_line
              (mkKeyEvent (js "Enter") false true false)
              (js "10:15 AM") 1700000060000 (js "p0o9i8u7y")
              (hello_typed one_line) eq_refl) as (_ & _ & C).
  destruct (C eq_refl (or_introl eq_refl)) as (_ & D).
  destruct D as (D1 & _ & _ & _ & D5 & _);
    [vm_compute; reflexivity | vm_compute; reflexivity|].
  split; [exact D1 | exact D5].
Defined.

Lemma X14_witness :
  charCounter_color
    (dom (handleInputChange
            (with_dom (set_messageInput_value (repeat 97 960)) fresh)))
  = js "var(--warning-color)".
Proof.
  destruct (X14_counter_never_turns_to_the_error_colour
              (with_dom (set_messageInput_value (repeat 97 960)) fresh))
    as (_ & _ & A & _).
  apply A. apply Nat.ltb_lt. vm_compute. reflexivity.
Defined.

Lemma X16_witness :
  formatMessage (js "say " ++ js "**" ++ js "hi" ++ js "**" ++ js " now")
  = js "say " ++ js "<strong>" ++ js "hi" ++ js "</strong>" ++ js " now".
Proof.
  apply (X16_marked_runs_become_tags (js "say ") (js "hi") (js " now"));
    reflexivity.
Defined.

Lemma X17_witness :
  formatMessage (js "a " ++ js "*" ++ js "b" ++ [13] ++ js "c" ++ js "*"
                 ++ js " d")
  = js "a " ++ js "*" ++ js "b" ++ [13] ++ js "c" ++ js "*" ++ js " d".
Proof.
  destruct (X17_emphasis_spans_newline_only (js "a ") (js "b") (js "c")
              (js " d") eq_refl eq_refl eq_refl eq_refl) as (_ & A).
  apply (A 13); [reflexivity | discriminate].
Defined.

Lemma X18_witness :
  file_name (fst (exportChatHistory
                    (js "2026-01-15" ++ js "T" ++ js "10:20:00.000Z")
                    (js "blob:1") fresh))
  = js "gentaxai-chat-" ++ js "2026-01-15" ++ js ".json".
Proof.
  apply (X18_export_is_named_after_the_date (js "2026-01-15")
           (js "10:20:00.000Z") (js "blob:1") fresh).
  reflexivity.
Defined.

Lemma X19_witness :
  isTyping (awaiting one_line) = true
  /\ messageInput_value
       (dom (askSampleQuestion one_line (js "VAT" ++ [13; 10] ++ js "GST")
               (js "10:16 AM") (awaiting one_line)))
     = js "VAT" ++ [10] ++ js "GST"
  /\ charCounter_textContent
       (dom (askSampleQuestion one_line (js "VAT" ++ [13; 10] ++ js "GST")
               (js "10:16 AM") (awaiting one_line)))
     = js "7/1000".
Proof.
  assert (Hi : isTyping (awaiting one_line) = true)
    by (vm_compute; reflexivity).
  destruct (X19_sample_while_awaiting_replaces_the_draft one_line
              (js "VAT" ++ [13; 10] ++ js "GST") (js "10:16 AM")
              (awaiting one_line) Hi) as (A & _ & _ & _ & _ & _ & _ & B).
  split; [exact Hi|]. split; [exact A | exact B].
Defined.

Lemma X20_witness :
  exists s',
    step one_line (FetchSettled 0 srv_response (js "10:16 AM"))
      (startNewChat one_line 1700000060000 (js "p0o9i8u7y") (awaiting one_line))
    = Some s'
    /\ messageHistory s'
       = [mkMessage (js "GST is a tax.") Assistant (js "10:16 AM")]
    /\ chatInterface_display (dom s') = js "none".
Proof.
  destruct (X20_late_answer_waits_behind_the_welcome_screen one_line
              (awaiting one_line) 1700000060000 (js "p0o9i8u7y") 0%nat
              gst_request srv_response (js "GST is a tax.")
              (Some (js "srv123")) (js "10:16 AM"))
    as (s' & A & B & _ & _ & C & _).
  - vm_compute. reflexivity.
  - reflexivity.
  - exists s'. split; [exact A|]. split; [exact B | exact C].
Defined.

Lemma X21_witness :
  loadingOverlay_display
    (dom (startNewChat one_line 1700000060000 (js "p0o9i8u7y") fresh))
  <> js "flex".
Proof.
  apply (X21_loading_overlay_is_never_left_shown one_line blank_page
           1700000000000 (js "k3x9q2m1z")
           [NewChatRequested 1700000060000 (js "p0o9i8u7y")]).
  - intros H. vm_compute in H. discriminate H.
  - vm_compute. reflexivity.
Defined.

(** ** The scenarios of the specification, evaluated *)

Example hello_request_body :
  request_body (mkRequest (js "Hello") (Some (js "T")))
  = jsq "{'question':'Hello','session_id':'T'}".
Proof. vm_compute. reflexivity. Qed.

Example null_session_request_body :
  request_body (mkRequest (js "Hello") None)
  = jsq "{'question':'Hello','session_id':null}".
Proof. vm_compute. reflexivity. Qed.

(** The scenario ["  Hello  "], answered by
    [{"answer":"Hi!","session_id":"srv1"}]. *)
Example hello_scenario :
  option_map (fun s => (messageHistory s, sessionId s, fetches s, interaction s))
    (run one_line
       [InputChanged (js "  Hello  ");
        SendRequested (js "10:15 AM");
        FetchSettled 0
          (Response 200 (JsonFields None (Some (js "Hi!")) (Some (js "srv1"))))
          (js "10:16 AM")]
       fresh)
  = Some ([mkMessage (js "Hello") User (js "10:15 AM");
           mkMessage (js "Hi!") Assistant (js "10:16 AM")],
          Some (js "srv1"),
          [mkRequest (js "Hello") (Some (js "session_1700000000000_k3x9q2m1z"))],
          Idle).
Proof. vm_compute. reflexivity. Qed.

(** An input of white space only: nothing happens on send. *)
Example blank_scenario :
  sendMessage one_line (js "10:15 AM") (onInput one_line (js "   ") fresh)
  = onInput one_line (js "   ") fresh.
Proof. vm_compute. reflexivity. Qed.

(** The exported text of a conversation of two messages. *)
Example export_scenario :
  content (fst (exportChatHistory (js "2026-01-15T10:20:00.000Z") (js "blob:1")
                  (answered one_line)))
  = join nl
      [jsq "[";
       jsq "  {";
       jsq "    'text': 'What is GST?',";
       jsq "    'sender': 'user',";
       jsq "    'timestamp': '10:15 AM'";
       jsq "  },";
       jsq "  {";
       jsq "    'text': 'GST is a tax.',";
       jsq "    'sender': 'assistant',";
       jsq "    'timestamp': '10:16 AM'";
       jsq "  }";
       jsq "]"]
  /\ file_name (fst (exportChatHistory (js "2026-01-15T10:20:00.000Z")
                       (js "blob:1") (answered one_line)))
     = js "gentaxai-chat-2026-01-15.json".
Proof. split; vm_compute; reflexivity. Qed.

Example export_empty :
  content (fst (exportChatHistory (js "2026-01-15T10:20:00.000Z") (js "blob:1")
                  fresh)) = js "[]".
Proof. vm_compute. reflexivity. Qed.

Example quote_escapes :
  quote (js "a" ++ dq ++ js "b\c" ++ nl ++ [1]) = jsq "'a\'b\\c\n\u0001'".
Proof. vm_compute. reflexivity. Qed.

Example format_markup :
  formatMessage (js "<img src=x onerror=alert(1)> & **b**")
  = js "<img src=x onerror=alert(1)> & <strong>b</strong>".
Proof. vm_compute. reflexivity. Qed.

Example format_two_lines :
  formatMessage (js "*a" ++ nl ++ js "b*") = js "<em>a<br>b</em>".
Proof. vm_compute. reflexivity. Qed.

Example format_carriage_return :
  formatMessage (js "*a" ++ [13] ++ js "b*") = js "*a" ++ [13] ++ js "b*".
Proof. vm_compute. reflexivity. Qed.

Example counter_colour_over_950 :
  charCounter_color (dom (onInput one_line (repeat 97 960) fresh))
  = js "var(--warning-color)".
Proof. vm_compute. reflexivity. Qed.

Example http_status_message :
  sendToAPI_settled (Response 503 NotJson) = Thrown (ErrorMsg (js "HTTP 503")).
Proof. vm_compute. reflexivity. Qed.

Example trim_hello : trim (js "  Hello  ") = js "Hello".
Proof. reflexivity. Qed.

Example format_bold :
  formatMessage (js "a **b** *c* `d`" ++ nl ++ js "e")
  = js "a <strong>b</strong> <em>c</em> <code>d</code><br>e".
Proof. reflexivity. Qed.

Example format_unclosed : formatMessage (js "2 * 3 = 6") = js "2 * 3 = 6".
Proof. reflexivity. Qed.

Example format_empty_bold : formatMessage (js "****") = js "<strong></strong>".
Proof. reflexivity. Qed.

Example dec_1000 : dec 1000 = js "1000".
Proof. reflexivity. Qed.

Example dec_0 : dec 0 = js "0".
Proof. reflexivity. Qed.

(** A sample question with a Windows line break, clicked on the first
    page: the message holds a line feed only. *)
Example sample_with_carriage_return :
  messageHistory
    (askSampleQuestion one_line (js "VAT" ++ [13; 10] ++ js "GST")
       (js "10:15 AM") fresh)
  = [mkMessage (js "VAT" ++ [10] ++ js "GST") User (js "10:15 AM")].
Proof. vm_compute. reflexivity. Qed.

(** An exported message with a quote, a backslash, a line break and a
    lone surrogate, read back. *)
Example export_read_back :
  parse (stringify_indent2
           (JArray [message_json
                      (mkMessage (jsq "say 'hi'" ++ [92; 10; 55357])
                         Assistant (js "10:16 AM"))]))
  = Some (JArray [JObject
                    [(js "text", JString (jsq "say 'hi'" ++ [92; 10; 55357]));
                     (js "sender", JString (js "assistant"));
                     (js "timestamp", JString (js "10:16 AM"))]]).
Proof. vm_compute. reflexivity. Qed.

Example parse_rejects_trailing_text : parse (js "[] x") = None.
Proof. vm_compute. reflexivity. Qed.
